(** * ETL_GA_mailchimp: the Mailchimp and Google Analytics pipelines

    A shallow embedding of [Mailchimp_ETL_Pipe/main.py] and [ga_etl/main.py].

    - Python values are modelled by the types the vendor APIs give them:
      counts are integers (pandas' int64), rates are binary64 floats
      (Stdlib's [SpecFloat], with its own rounding, infinities and NaN),
      names and timestamps are strings, a key read with [.get] is an option.
    - Effects (HTTP, sleeping, logging, the clock, the file system) are threaded
      through an explicit [World] by a state-and-exception monad.
    - A pandas [DataFrame] is an ordered list of named, typed columns. *)

From Stdlib Require Import ZArith String Ascii Bool Lia PeanoNat List.
From Stdlib Require Import Floats.SpecFloat.
Import ListNotations.

Set Implicit Arguments.

Open Scope string_scope.
Open Scope Z_scope.
Open Scope list_scope.

(** ** binary64 floats *)

Definition float := spec_float.

Definition prec : Z := 53.
Definition emax : Z := 1024.

Definition fadd : float -> float -> float := SFadd prec emax.
Definition fmul : float -> float -> float := SFmul prec emax.
Definition fdiv : float -> float -> float := SFdiv prec emax.
Definition fltb : float -> float -> bool := SFltb.
Definition fleb : float -> float -> bool := SFleb.

(** Conversion of an integer to the nearest binary64 (numpy's int64 -> float64). *)
Definition Z2F (z : Z) : float := binary_normalize prec emax z 0 false.

Definition nan : float := S754_nan.
Definition pos_inf : float := S754_infinity false.
Definition neg_inf : float := S754_infinity true.

Definition is_nan (x : float) : bool :=
  match x with S754_nan => true | _ => false end.

(** ** int64 wrap-around (numpy integer arithmetic does not raise on overflow) *)

Definition wrap64 (z : Z) : Z := (z + 2 ^ 63) mod 2 ^ 64 - 2 ^ 63.

(** ** Python objects held by an object-dtype column *)

Inductive pyobj :=
| PyNone
| PyNaN                       (* the float nan pandas puts in a missing cell *)
| PyInt (z : Z)
| PyFloat (x : float)
| PyStr (s : string)
| PyTimestamp (tz : bool) (t : Z)   (* a pandas Timestamp, microseconds *)
| PyDate (d : Z).                   (* a datetime.date, as a day number *)

Definition pyobj_isna (o : pyobj) : bool :=
  match o with
  | PyNone | PyNaN => true
  | PyFloat x => is_nan x
  | _ => false
  end.

(** ** Exceptions *)

Inductive exn :=
| HTTPError (status : Z)          (* requests.exceptions.HTTPError, from raise_for_status *)
| ConnectionError                 (* requests.exceptions.ConnectionError *)
| JSONDecodeError                 (* requests.exceptions.JSONDecodeError *)
| RecursionError
| KeyError (key : string)
| IndexError
| TypeError
| ValueError
| AttributeError
| UnboundLocalError (var : string)
| FileNotFoundError               (* an OSError: no such file or directory *)
| IllegalCharacterError.          (* openpyxl.utils.exceptions.IllegalCharacterError *)

(** [isinstance(e, requests.exceptions.RequestException)] *)
Definition is_RequestException (e : exn) : bool :=
  match e with
  | HTTPError _ | ConnectionError | JSONDecodeError => true
  | _ => false
  end.

Inductive result (A : Type) :=
| Ok (a : A)
| Raise (e : exn).
Arguments Ok {A} a.
Arguments Raise {A} e.

Definition rbind {A B} (r : result A) (f : A -> result B) : result B :=
  match r with
  | Ok a => f a
  | Raise e => Raise e
  end.

(** ** pandas Series and DataFrame *)

(** Timestamps are naive wall-clock instants counted in microseconds; a
    missing one ([None] here) is pandas' NaT. *)
Definition timestamp := Z.

Definition usec_per_hour : Z := 3600000000.
Definition usec_per_day : Z := 86400000000.

Inductive series :=
| Int64 (xs : list Z)
| Float64 (xs : list float)
| Object (xs : list pyobj)
| Datetime64 (tz : bool) (xs : list (option timestamp))   (* [tz]: timezone-aware *)
| DateObj (xs : list (option Z))                          (* [.dt.date]: day numbers *)
| Category (xs : list (option string)).                   (* [pd.cut] labels, NaN = None *)

Record DataFrame := {
  df_len : nat;                          (* len(df): number of rows *)
  df_cols : list (string * series)       (* columns, in order *)
}.

Definition empty_frame : DataFrame := {| df_len := 0; df_cols := [] |}.

(** [df.empty]: some axis has length 0. *)
Definition df_empty (df : DataFrame) : bool :=
  (df_len df =? 0)%nat || match df_cols df with [] => true | _ => false end.

Definition df_columns (df : DataFrame) : list string := map fst (df_cols df).

Fixpoint assoc {A} (k : string) (l : list (string * A)) : option A :=
  match l with
  | [] => None
  | (k', v) :: l' => if String.eqb k k' then Some v else assoc k l'
  end.

(** [name in d] *)
Definition has_key {A} (k : string) (l : list (string * A)) : bool :=
  match assoc k l with Some _ => true | None => false end.

(** [d[k] = v] on an insertion-ordered dict: an existing key keeps its place. *)
Fixpoint assoc_set {A} (k : string) (v : A) (l : list (string * A)) : list (string * A) :=
  match l with
  | [] => [(k, v)]
  | (k', v') :: l' =>
      if String.eqb k k' then (k, v) :: l' else (k', v') :: assoc_set k v l'
  end.

(** [col in df.columns] *)
Definition df_has (df : DataFrame) (col : string) : bool := has_key col (df_cols df).

(** [df[col]] *)
Definition df_get (df : DataFrame) (col : string) : result series :=
  match assoc col (df_cols df) with
  | Some s => Ok s
  | None => Raise (KeyError col)
  end.

(** [df[col] = s] *)
Definition df_set (df : DataFrame) (col : string) (s : series) : DataFrame :=
  {| df_len := df_len df; df_cols := assoc_set col s (df_cols df) |}.

(** *** Element-wise arithmetic

    Only the numeric dtypes compute. An object column built by the
    constructors below always holds a [str] or a [None], on which Python's
    [+], [/] and [*] with a number raise [TypeError]; so do datetimes, dates
    and categoricals. *)

Fixpoint map2 {A B C} (f : A -> B -> C) (xs : list A) (ys : list B) : list C :=
  match xs, ys with
  | x :: xs', y :: ys' => f x y :: map2 f xs' ys'
  | _, _ => []
  end.

Definition series_add (a b : series) : result series :=
  match a, b with
  | Int64 xs, Int64 ys => Ok (Int64 (map2 (fun x y => wrap64 (x + y)) xs ys))
  | Int64 xs, Float64 ys => Ok (Float64 (map2 (fun x y => fadd (Z2F x) y) xs ys))
  | Float64 xs, Int64 ys => Ok (Float64 (map2 (fun x y => fadd x (Z2F y)) xs ys))
  | Float64 xs, Float64 ys => Ok (Float64 (map2 fadd xs ys))
  | _, _ => Raise TypeError
  end.

(** True division. numpy divides in binary64; pandas' [mask_zero_div_zero]
    then writes, where an integer divisor is 0, nan for 0/0 and a signed
    infinity otherwise (what IEEE division already gives). *)
Definition int_truediv (x y : Z) : float :=
  if y =? 0 then
    if x =? 0 then nan else if 0 <? x then pos_inf else neg_inf
  else fdiv (Z2F x) (Z2F y).

Definition float_int_truediv (x : float) (y : Z) : float :=
  if y =? 0 then
    match SFcompare x (Z2F 0) with
    | Some Gt => pos_inf
    | Some Lt => neg_inf
    | _ => nan                     (* x == 0, or x is nan *)
    end
  else fdiv x (Z2F y).

Definition series_truediv (a b : series) : result series :=
  match a, b with
  | Int64 xs, Int64 ys => Ok (Float64 (map2 int_truediv xs ys))
  | Float64 xs, Int64 ys => Ok (Float64 (map2 float_int_truediv xs ys))
  | Int64 xs, Float64 ys => Ok (Float64 (map2 (fun x y => fdiv (Z2F x) y) xs ys))
  | Float64 xs, Float64 ys => Ok (Float64 (map2 fdiv xs ys))
  | _, _ => Raise TypeError
  end.

(** [s * k] for a Python int [k] *)
Definition series_mul_int (a : series) (k : Z) : result series :=
  match a with
  | Int64 xs => Ok (Int64 (map (fun x => wrap64 (x * k)) xs))
  | Float64 xs => Ok (Float64 (map (fun x => fmul x (Z2F k)) xs))
  | _ => Raise TypeError
  end.

(** [s.fillna(0)] *)
Definition fillna_zero (a : series) : series :=
  match a with
  | Float64 xs => Float64 (map (fun x => if is_nan x then Z2F 0 else x) xs)
  | Object xs => Object (map (fun o => if pyobj_isna o then PyInt 0 else o) xs)
  | Category xs => Category xs     (* only reached with a float column here *)
  | s => s
  end.

(** [s.fillna(other)]: a missing cell takes the cell of [other] at the same row. *)
Definition fillna_series (a other : list pyobj) : list pyobj :=
  map2 (fun x y => if pyobj_isna x then y else x) a other.

(** *** [pd.cut(x, bins, labels=labels)] with the defaults [right=True],
    [include_lowest=False] *)

(** [np.searchsorted(bins, x, side='left')] on sorted [bins]: the number of
    bins strictly below [x]. *)
Fixpoint searchsorted_left (bins : list float) (x : float) : nat :=
  match bins with
  | [] => O
  | b :: bins' => if fltb b x then S (searchsorted_left bins' x) else O
  end.

Definition cut_value (bins : list float) (labels : list string) (x : float)
  : option string :=
  let ids := searchsorted_left bins x in
  if is_nan x || (ids =? length bins)%nat || (ids =? 0)%nat then None
  else nth_error labels (ids - 1).

Definition pd_cut (a : series) (bins : list Z) (labels : list string) : result series :=
  let fbins := map Z2F bins in
  match a with
  | Float64 xs => Ok (Category (map (cut_value fbins labels) xs))
  | Int64 xs => Ok (Category (map (fun x => cut_value fbins labels (Z2F x)) xs))
  | _ => Raise TypeError
  end.

(** ** Python string methods, on ASCII *)

Definition ascii_lower (c : ascii) : ascii :=
  let n := nat_of_ascii c in
  if ((65 <=? n) && (n <=? 90))%nat then ascii_of_nat (n + 32) else c.

Definition ascii_upper (c : ascii) : ascii :=
  let n := nat_of_ascii c in
  if ((97 <=? n) && (n <=? 122))%nat then ascii_of_nat (n - 32) else c.

(** [s.lower()] *)
Fixpoint py_lower (s : string) : string :=
  match s with
  | EmptyString => EmptyString
  | String c s' => String (ascii_lower c) (py_lower s')
  end.

(** [s.capitalize()] *)
Definition py_capitalize (s : string) : string :=
  match s with
  | EmptyString => EmptyString
  | String c s' => String (ascii_upper c) (py_lower s')
  end.

(** [s[:n]] *)
Definition py_prefix (n : nat) (s : string) : string := substring 0 n s.

(** [os.path.join(a, b)] on POSIX: an absolute [b] discards [a]. *)
Definition path_join (a b : string) : string :=
  match b with
  | String "/" _ => b
  | _ => (a ++ "/" ++ b)%string
  end.

Definition is_slash (c : ascii) : bool := Ascii.eqb c "/".

Fixpoint has_slash (s : string) : bool :=
  match s with
  | EmptyString => false
  | String c s' => is_slash c || has_slash s'
  end.

Fixpoint all_slashes (s : string) : bool :=
  match s with
  | EmptyString => true
  | String c s' => is_slash c && all_slashes s'
  end.

(** [p[:p.rfind('/') + 1]] *)
Fixpoint upto_last_slash (p : string) : string :=
  match p with
  | EmptyString => EmptyString
  | String c p' =>
      if has_slash p' then String c (upto_last_slash p')
      else if is_slash c then String c EmptyString
      else EmptyString
  end.

(** [s.rstrip('/')] *)
Fixpoint rstrip_slashes (s : string) : string :=
  match s with
  | EmptyString => EmptyString
  | String c s' => if all_slashes s then EmptyString else String c (rstrip_slashes s')
  end.

(** [os.path.dirname(p)] on POSIX: what stands before the last slash, without
    its trailing slashes unless it is made of slashes only. *)
Definition dirname (p : string) : string :=
  let head := upto_last_slash p in
  if all_slashes head then head else rstrip_slashes head.

(** ** Mailchimp API records

    The JSON objects of the Marketing API, with the fields the pipeline
    reads. A field read by subscript is required; a field read with [.get]
    is optional. *)

Record list_stats := {
  ls_member_count : Z;
  ls_unsubscribe_count : Z;
  ls_open_rate : float;
  ls_click_rate : float
}.

Record list_item := {
  li_id : string;
  li_name : string;
  li_stats : list_stats;
  li_date_created : string;
  li_visibility : option string
}.

Record campaign_item := {
  ci_id : string;
  ci_subject_line : option string;      (* settings.subject_line *)
  ci_list_id : option string;           (* recipients.list_id *)
  ci_send_time : option string;
  ci_type : option string;
  ci_status : option string
}.

(** The body of [campaigns/{id}] as [extract_campaigns] reads it. *)
Record campaign_stats := {
  cs_emails_sent : option Z;
  cs_opens_total : option Z;            (* opens.opens_total *)
  cs_unique_opens : option Z;           (* opens.unique_opens *)
  cs_open_rate : option float;          (* opens.open_rate *)
  cs_clicks_total : option Z;           (* clicks.clicks_total *)
  cs_unique_clicks : option Z;          (* clicks.unique_clicks *)
  cs_click_rate : option float;         (* clicks.click_rate *)
  cs_unsubscribes : option Z;           (* unsubscribed.unsubscribes *)
  cs_hard_bounces : option Z;           (* bounces.hard_bounces *)
  cs_soft_bounces : option Z            (* bounces.soft_bounces *)
}.

Definition no_stats : campaign_stats :=
  {| cs_emails_sent := None; cs_opens_total := None; cs_unique_opens := None;
     cs_open_rate := None; cs_clicks_total := None; cs_unique_clicks := None;
     cs_click_rate := None; cs_unsubscribes := None; cs_hard_bounces := None;
     cs_soft_bounces := None |}.

Record member_item := {
  mi_id : string;
  mi_email_address : string;
  mi_status : string;
  mi_timestamp_signup : option string;
  mi_timestamp_opt : option string;
  mi_country_code : option string;      (* location.country_code *)
  mi_timezone : option string;          (* location.timezone *)
  mi_latitude : option float;           (* location.latitude *)
  mi_longitude : option float;          (* location.longitude *)
  mi_ip_signup : option string;
  mi_ip_opt : option string;
  mi_language : option string;
  mi_member_rating : option Z;
  mi_email_client : option string;
  mi_tags_count : option Z
}.

(** What [response.json()] returns. *)
Inductive body :=
| ListsBody (lists : list list_item)              (* {"lists": [...]} *)
| CampaignsBody (campaigns : list campaign_item)  (* {"campaigns": [...]} *)
| CampaignBody (stats : campaign_stats)           (* one campaign *)
| MembersBody (members : list member_item)        (* {"members": [...]} *)
| OtherBody.                                      (* an object with none of these keys *)

Inductive param :=
| PInt (z : Z)
| PStr (s : string).

Record Request := {
  req_url : string;
  req_headers : list (string * string);
  req_params : option (list (string * param))
}.

Record Response := {
  status_code : Z;
  json_body : option body        (* [None]: the payload is not JSON *)
}.

(** ** Rows built by the extractors (the dicts appended to [*_data]) *)

Record list_row := {
  lr_list_id : string;
  lr_list_name : string;
  lr_member_count : Z;
  lr_unsubscribe_count : Z;
  lr_open_rate : float;
  lr_click_rate : float;
  lr_date_created : string;
  lr_visibility : string
}.

Record campaign_row := {
  cr_campaign_id : string;
  cr_campaign_name : string;
  cr_list_id : option string;
  cr_send_time : option string;
  cr_emails_sent : Z;
  cr_opens : Z;
  cr_unique_opens : Z;
  cr_open_rate : float;
  cr_clicks : Z;
  cr_unique_clicks : Z;
  cr_click_rate : float;
  cr_unsubscribes : Z;
  cr_bounces : Z;
  cr_campaign_type : string;
  cr_status : option string
}.

Record member_row := {
  mr_member_id : string;
  mr_email : string;
  mr_status : string;
  mr_list_id : string;
  mr_timestamp_signup : option string;
  mr_timestamp_opt : option string;
  mr_country_code : option string;
  mr_timezone : option string;
  mr_latitude : option float;
  mr_longitude : option float;
  mr_ip_signup : option string;
  mr_ip_opt : option string;
  mr_language : option string;
  mr_member_rating : Z;
  mr_email_client : option string;
  mr_tags_count : Z
}.

(** [raw_data]: the row list handed to [transform_data]. *)
Inductive raw_data :=
| RawLists (rows : list list_row)
| RawCampaigns (rows : list campaign_row)
| RawMembers (rows : list member_row).

(** ** [pd.DataFrame(raw_data)]

    Every row dict of one extractor has the same keys, so the frame has one
    column per key and no missing cell. A column of ints is int64, a column
    of floats is float64, strings and [None] make an object column; a column
    of optional floats is float64 with nan for [None], unless every cell is
    [None]. An empty row list gives a frame without columns. *)

Definition opt_str (o : option string) : pyobj :=
  match o with Some s => PyStr s | None => PyNone end.

Definition str_col {A} (f : A -> string) (rows : list A) : series :=
  Object (map (fun r => PyStr (f r)) rows).

Definition opt_str_col {A} (f : A -> option string) (rows : list A) : series :=
  Object (map (fun r => opt_str (f r)) rows).

Definition int_col {A} (f : A -> Z) (rows : list A) : series :=
  Int64 (map f rows).

Definition float_col {A} (f : A -> float) (rows : list A) : series :=
  Float64 (map f rows).

Definition is_some {A} (o : option A) : bool :=
  match o with Some _ => true | None => false end.

Definition opt_float_col {A} (f : A -> option float) (rows : list A) : series :=
  if existsb (fun r => is_some (f r)) rows
  then Float64 (map (fun r => match f r with Some x => x | None => nan end) rows)
  else Object (map (fun _ => PyNone) rows).

Definition frame_of {A} (rows : list A) (cols : list (string * (list A -> series)))
  : DataFrame :=
  match rows with
  | [] => empty_frame
  | _ => {| df_len := length rows;
            df_cols := map (fun c => (fst c, snd c rows)) cols |}
  end.

Definition lists_columns : list (string * (list list_row -> series)) :=
  [ ("list_id", str_col lr_list_id);
    ("list_name", str_col lr_list_name);
    ("member_count", int_col lr_member_count);
    ("unsubscribe_count", int_col lr_unsubscribe_count);
    ("open_rate", float_col lr_open_rate);
    ("click_rate", float_col lr_click_rate);
    ("date_created", str_col lr_date_created);
    ("visibility", str_col lr_visibility) ].

Definition campaigns_columns : list (string * (list campaign_row -> series)) :=
  [ ("campaign_id", str_col cr_campaign_id);
    ("campaign_name", str_col cr_campaign_name);
    ("list_id", opt_str_col cr_list_id);
    ("send_time", opt_str_col cr_send_time);
    ("emails_sent", int_col cr_emails_sent);
    ("opens", int_col cr_opens);
    ("unique_opens", int_col cr_unique_opens);
    ("open_rate", float_col cr_open_rate);
    ("clicks", int_col cr_clicks);
    ("unique_clicks", int_col cr_unique_clicks);
    ("click_rate", float_col cr_click_rate);
    ("unsubscribes", int_col cr_unsubscribes);
    ("bounces", int_col cr_bounces);
    ("campaign_type", str_col cr_campaign_type);
    ("status", opt_str_col cr_status) ].

Definition members_columns : list (string * (list member_row -> series)) :=
  [ ("member_id", str_col mr_member_id);
    ("email", str_col mr_email);
    ("status", str_col mr_status);
    ("list_id", str_col mr_list_id);
    ("timestamp_signup", opt_str_col mr_timestamp_signup);
    ("timestamp_opt", opt_str_col mr_timestamp_opt);
    ("country_code", opt_str_col mr_country_code);
    ("timezone", opt_str_col mr_timezone);
    ("latitude", opt_float_col mr_latitude);
    ("longitude", opt_float_col mr_longitude);
    ("ip_signup", opt_str_col mr_ip_signup);
    ("ip_opt", opt_str_col mr_ip_opt);
    ("language", opt_str_col mr_language);
    ("member_rating", int_col mr_member_rating);
    ("email_client", opt_str_col mr_email_client);
    ("tags_count", int_col mr_tags_count) ].

Definition DataFrame_of (raw : raw_data) : DataFrame :=
  match raw with
  | RawLists rows => frame_of rows lists_columns
  | RawCampaigns rows => frame_of rows campaigns_columns
  | RawMembers rows => frame_of rows members_columns
  end.

(** The cells of a column as Python objects. *)
Definition series_cells (s : series) : list pyobj :=
  match s with
  | Int64 xs => map PyInt xs
  | Float64 xs => map PyFloat xs
  | Object xs => xs
  | Datetime64 tz xs =>
      map (fun o => match o with Some t => PyTimestamp tz t | None => PyNaN end) xs
  | DateObj xs => map (fun o => match o with Some d => PyDate d | None => PyNaN end) xs
  | Category xs => map (fun o => match o with Some l => PyStr l | None => PyNaN end) xs
  end.

(** ** Artifacts written by the loaders

    The encoders (CSV, openpyxl, json) are outside the pipeline; a file is
    kept as the tables handed to its encoder. *)

Inductive summary_metric :=
| Metric (name : string)
| SubscribersIn (country : pyobj).      (* f'Subscribers in {country}' *)

Inductive summary_value :=
| SvInt (z : Z)                         (* a count or an integer total *)
| SvFloatSum (xs : list float)          (* the total of a float column *)
| SvStr (s : string)
| SvMeanPct (s : series).               (* the text f"{s.mean() * 100:.2f}" *)

(** The frame [pd.DataFrame(summary_data)], by rows. *)
Definition summary_frame := list (summary_metric * summary_value).

(** The frame [_create_summary] of the analytics pipeline returns: empty
    without a country column, else a row (country, sessions, totalUsers,
    screenPageViews) for each of the top countries. *)
Inductive ga_summary :=
| GaNoSummary
| GaTopCountries (rows : list (pyobj * pyobj * pyobj * pyobj)).

Inductive sheet :=
| TableSheet (df : DataFrame)
| DashboardSheet (rows : summary_frame)
| GaSummarySheet (summary : ga_summary)
| Partial (content : sheet).            (* a sheet left where [to_excel] raised *)

Inductive artifact :=
| CsvFile (df : DataFrame)                              (* df.to_csv *)
| Workbook (sheets : list (string * sheet))             (* the to_excel calls, in order *)
| JsonFile (combined_data : list (string * DataFrame))  (* json.dump of to_dict('records') *)
| JsonRecords (df : DataFrame).                         (* df.to_json(orient='records') *)

(** What [load_data] returns: a path, or the list of paths for CSV. *)
Inductive filename :=
| Path (p : string)
| Paths (ps : list string).

(** ** Log records *)

Inductive level := INFO | WARNING | ERROR.

Inductive message :=
| MsgRateLimit                                  (* "Rate limit reached, waiting 60 seconds..." *)
| MsgRequestFailed (e : exn)
| MsgExtractingLists
| MsgExtractedLists (n : nat)
| MsgListsFailed (e : exn)
| MsgExtractingCampaigns
| MsgExtractedCampaigns (n : nat)
| MsgCampaignsFailed (e : exn)
| MsgExtractingMembers (list_id : string)
| MsgExtractedMembers (n : nat) (list_id : string)
| MsgMembersFailed (e : exn)
| MsgNoData (data_type : string)                (* "No data to transform for ..." *)
| MsgTransformed (data_type : string) (n : nat)
| MsgTransformFailed (data_type : string) (e : exn)
| MsgGaTransformed (rows cols : nat)
| MsgGaTransformFailed (e : exn)
| MsgLoaded (f : filename)
| MsgLoadFailed (e : exn)
| MsgStarting
| MsgCompleted.

(** ** The world the pipelines act on *)

Record World := {
  w_http : list Response;          (* what the server will answer, in order *)
  w_requests : list Request;       (* the GET requests issued so far *)
  w_sleeps : list Z;               (* the time.sleep calls so far, in milliseconds *)
  w_log : list (level * message);
  w_clock : nat -> timestamp;      (* the k-th reading of datetime.now() *)
  w_ticks : nat;                   (* readings taken so far *)
  w_dirs : list string;
  w_files : list (string * artifact)
}.

Definition set_http (w : World) (h : list Response) : World :=
  {| w_http := h; w_requests := w_requests w; w_sleeps := w_sleeps w;
     w_log := w_log w; w_clock := w_clock w; w_ticks := w_ticks w;
     w_dirs := w_dirs w; w_files := w_files w |}.

Definition add_request (w : World) (r : Request) : World :=
  {| w_http := w_http w; w_requests := w_requests w ++ [r]; w_sleeps := w_sleeps w;
     w_log := w_log w; w_clock := w_clock w; w_ticks := w_ticks w;
     w_dirs := w_dirs w; w_files := w_files w |}.

Definition add_sleep (w : World) (ms : Z) : World :=
  {| w_http := w_http w; w_requests := w_requests w; w_sleeps := w_sleeps w ++ [ms];
     w_log := w_log w; w_clock := w_clock w; w_ticks := w_ticks w;
     w_dirs := w_dirs w; w_files := w_files w |}.

Definition add_log (w : World) (l : level) (m : message) : World :=
  {| w_http := w_http w; w_requests := w_requests w; w_sleeps := w_sleeps w;
     w_log := w_log w ++ [(l, m)]; w_clock := w_clock w; w_ticks := w_ticks w;
     w_dirs := w_dirs w; w_files := w_files w |}.

Definition tick (w : World) : World :=
  {| w_http := w_http w; w_requests := w_requests w; w_sleeps := w_sleeps w;
     w_log := w_log w; w_clock := w_clock w; w_ticks := S (w_ticks w);
     w_dirs := w_dirs w; w_files := w_files w |}.

Definition add_dir (w : World) (d : string) : World :=
  {| w_http := w_http w; w_requests := w_requests w; w_sleeps := w_sleeps w;
     w_log := w_log w; w_clock := w_clock w; w_ticks := w_ticks w;
     w_dirs := if existsb (String.eqb d) (w_dirs w) then w_dirs w else w_dirs w ++ [d];
     w_files := w_files w |}.

Definition put_file (w : World) (p : string) (a : artifact) : World :=
  {| w_http := w_http w; w_requests := w_requests w; w_sleeps := w_sleeps w;
     w_log := w_log w; w_clock := w_clock w; w_ticks := w_ticks w;
     w_dirs := w_dirs w; w_files := assoc_set p a (w_files w) |}.

(** ** The state-and-exception monad *)

Definition M (A : Type) : Type := World -> result A * World.

Definition ret {A} (a : A) : M A := fun w => (Ok a, w).

Definition raise {A} (e : exn) : M A := fun w => (Raise e, w).

Definition bind {A B} (m : M A) (f : A -> M B) : M B :=
  fun w =>
    match m w with
    | (Ok a, w') => f a w'
    | (Raise e, w') => (Raise e, w')
    end.

Notation "x <- m ;; k" := (bind m (fun x => k))
  (at level 61, m at next level, right associativity).
Notation "m ;; k" := (bind m (fun _ => k))
  (at level 61, right associativity).

(** A pure, fallible value. *)
Definition lift {A} (r : result A) : M A := fun w => (r, w).

(** [try: m  except <class> as e: h(e); raise] *)
Definition reraising {A} (catches : exn -> bool) (h : exn -> M unit) (m : M A) : M A :=
  fun w =>
    match m w with
    | (Ok a, w') => (Ok a, w')
    | (Raise e, w') =>
        if catches e then
          match h e w' with
          | (Ok _, w'') => (Raise e, w'')
          | (Raise e', w'') => (Raise e', w'')
          end
        else (Raise e, w')
    end.

(** [except Exception]: every exception of the model. *)
Definition any_Exception (e : exn) : bool := true.

Definition log (l : level) (m : message) : M unit := fun w => (Ok tt, add_log w l m).

(** [time.sleep] *)
Definition sleep (ms : Z) : M unit := fun w => (Ok tt, add_sleep w ms).

(** [datetime.now()] *)
Definition now : M timestamp := fun w => (Ok (w_clock w (w_ticks w)), tick w).

(** [os.makedirs(d, exist_ok=True)] *)
Definition makedirs (d : string) : M unit := fun w => (Ok tt, add_dir w d).

(** Library routines the pipelines call and the model leaves open. *)
Class Externals := {
  (* pd.to_datetime on the cells of a column, when it gives a datetime64
     column: the instants, and whether they carry a timezone; None when it
     gives no such column *)
  to_datetime : list pyobj -> option (bool * list (option timestamp));
  (* pd.to_datetime when it gives no datetime64 column: the object column of
     datetimes pandas 2 returns for strings with different UTC offsets; None
     when it raises *)
  to_datetime_object : list pyobj -> option (list pyobj);
  (* s.value_counts(): the values present and how often each occurs, in the
     order pandas returns them (by falling count; the order among equal
     counts is numpy's) *)
  value_counts : series -> list (pyobj * nat);
  (* df.groupby('country').agg({'sessions': 'sum', 'totalUsers': 'sum',
     'screenPageViews': 'sum'}).sort_values('sessions', ascending=False)
     .head(10), by rows (country, sessions, totalUsers, screenPageViews);
     it raises as pandas does, a KeyError for a column that is missing *)
  top_countries : DataFrame -> result (list (pyobj * pyobj * pyobj * pyobj));
  (* t.strftime('%Y%m%d_%H%M%S') *)
  strftime : timestamp -> string;
  (* int(s) and float(s); None when they raise ValueError *)
  py_int : string -> option Z;
  py_float : string -> option float;
  (* s.strip() and s.title() *)
  py_strip : string -> string;
  py_title : string -> string;
  (* os.path.isdir(d) for a name the run has not made a directory of *)
  isdir : string -> bool
}.

(** ** Files

    [os.path.isdir(d)]: the current directory (the empty name), the root, a
    directory the run has made, under the name it was made with, or one the
    file system holds besides. *)
Section Files.
Context {ext : Externals}.

Definition dir_exists (w : World) (d : string) : bool :=
  all_slashes d || existsb (String.eqb d) (w_dirs w) || isdir d.

(** Opening [p] for writing, as [to_csv], [to_json], [open(p, 'w')] and
    [pd.ExcelWriter(p)] do, and leaving [a] there: the directory of [p] has
    to exist. The other failures of a file system (permissions, a full
    disk) are not modelled. *)
Definition write_file (p : string) (a : artifact) : M unit :=
  fun w =>
    if dir_exists w (dirname p) then (Ok tt, put_file w p a)
    else (Raise FileNotFoundError, w).

End Files.

(** ** Parsing a column of timestamps *)

Section Datetime.
Context {ext : Externals}.

(** [pd.to_datetime(s)] *)
Definition to_datetime_col (s : series) : result series :=
  match s with
  | Datetime64 _ _ => Ok s
  | _ =>
      match to_datetime (series_cells s) with
      | Some (tz, xs) => Ok (Datetime64 tz xs)
      | None =>
          match to_datetime_object (series_cells s) with
          | Some cells => Ok (Object cells)
          | None => Raise ValueError
          end
      end
  end.

End Datetime.

(** ** Writing a workbook *)

Definition is_nil {A} (l : list A) : bool :=
  match l with [] => true | _ => false end.

(** No column of timezone-aware datetimes, which [df.to_excel] refuses: what
    the timezone steps of [transform_data] are there for. *)
Definition excel_writable (df : DataFrame) : bool :=
  forallb (fun c => match snd c with Datetime64 true _ => false | _ => true end)
          (df_cols df).

(** The size of an Excel sheet, which [to_excel] checks before it writes. *)
Definition sheet_fits (df : DataFrame) : bool :=
  (Z.of_nat (df_len df) <=? 1048576) && (Z.of_nat (length (df_cols df)) <=? 16384).

(** openpyxl's [ILLEGAL_CHARACTERS_RE]: the control characters other than
    tab, line feed and carriage return. *)
Definition illegal_char (c : ascii) : bool :=
  let n := nat_of_ascii c in
  ((n <=? 8) || ((11 <=? n) && (n <=? 12)) || ((14 <=? n) && (n <=? 31)))%nat.

Fixpoint legal_string (s : string) : bool :=
  match s with
  | EmptyString => true
  | String c s' => negb (illegal_char c) && legal_string s'
  end.

(** What writing one cell raises: pandas refuses a datetime with a timezone,
    openpyxl a text with an illegal character. *)
Definition cell_refusal (o : pyobj) : option exn :=
  match o with
  | PyStr s => if legal_string s then None else Some IllegalCharacterError
  | PyTimestamp true _ => Some ValueError
  | _ => None
  end.

Fixpoint first_refusal (cells : list pyobj) : option exn :=
  match cells with
  | [] => None
  | c :: cells' =>
      match cell_refusal c with
      | Some e => Some e
      | None => first_refusal cells'
      end
  end.

(** The cells of a table in the order [to_excel(index=False)] writes them:
    the header, then the body column by column. *)
Definition frame_cells (df : DataFrame) : list pyobj :=
  map (fun c => PyStr (fst c)) (df_cols df)
  ++ concat (map (fun c => series_cells (snd c)) (df_cols df)).

(** The texts of the dashboard in that order: the [Metric] column, then the
    [Value] column, of which only a string total can hold any character. *)
Definition summary_cells (rows : summary_frame) : list pyobj :=
  map (fun r => match fst r with
                | Metric name => PyStr name
                | SubscribersIn (PyStr country) => PyStr ("Subscribers in " ++ country)
                | SubscribersIn _ => PyStr "Subscribers in"
                end) rows
  ++ map (fun r => match snd r with
                   | SvStr s => PyStr s
                   | _ => PyNone
                   end) rows.

(** The cells of the analytics summary: the [metric] column, then the three
    totals. *)
Definition ga_summary_cells (summary : ga_summary) : list pyobj :=
  match summary with
  | GaNoSummary => []
  | GaTopCountries rows =>
      map (fun r => match fst (fst (fst r)) with
                    | PyStr country => PyStr ("Top Country: " ++ country)
                    | _ => PyStr "Top Country:"
                    end) rows
      ++ map (fun r => snd (fst (fst r))) rows
      ++ map (fun r => snd (fst r)) rows
      ++ map (fun r => snd r) rows
  end.

(** What [to_excel] raises on a sheet, and whether the sheet is in the
    workbook by then: the size is checked before the sheet is created, the
    cells as they are written. *)
Fixpoint excel_refusal (content : sheet) : option (bool * exn) :=
  match content with
  | TableSheet df =>
      if negb (sheet_fits df) then Some (false, ValueError)
      else option_map (pair true) (first_refusal (frame_cells df))
  | DashboardSheet rows => option_map (pair true) (first_refusal (summary_cells rows))
  | GaSummarySheet summary => option_map (pair true) (first_refusal (ga_summary_cells summary))
  | Partial content' => excel_refusal content'
  end.

(** [content.to_excel(writer, sheet_name=sheet_name, index=False)] on the
    sheets written so far; a sheet of that name is written over. *)
Definition to_excel (sheets : list (string * sheet)) (sheet_name : string) (content : sheet)
  : list (string * sheet) * result unit :=
  match excel_refusal content with
  | None => (assoc_set sheet_name content sheets, Ok tt)
  | Some (true, e) => (assoc_set sheet_name (Partial content) sheets, Raise e)
  | Some (false, e) => (sheets, Raise e)
  end.

(** [with pd.ExcelWriter(path) as writer: block]: the file is opened on entry;
    leaving the block saves the workbook, also when the block raised, and
    openpyxl refuses to save a workbook without a sheet. *)
Definition excel_writer_exit {ext : Externals} (path : string)
    (block : list (string * sheet) * result unit) : M unit :=
  write_file path (Workbook (fst block)) ;;
  if is_nil (fst block) then raise IndexError else lift (snd block).

(** * The Mailchimp pipeline ([Mailchimp_ETL_Pipe/main.py]) *)

Module Mailchimp.
Section Pipeline.
Context {ext : Externals}.

Record MailchimpETL := {
  api_key : string;
  server_prefix : string
}.

Definition base_url (self : MailchimpETL) : string :=
  ("https://" ++ server_prefix self ++ ".api.mailchimp.com/3.0")%string.

Definition headers (self : MailchimpETL) : list (string * string) :=
  [ ("Authorization", ("apikey " ++ api_key self)%string);
    ("Content-Type", "application/json") ].

(** [requests.get]: the next scripted answer; no answer left is a
    connection failure. *)
Definition requests_get (url : string) (hdrs : list (string * string))
    (params : option (list (string * param))) : M Response :=
  fun w =>
    let w1 := add_request w {| req_url := url; req_headers := hdrs; req_params := params |} in
    match w_http w with
    | [] => (Raise ConnectionError, w1)
    | r :: rest => (Ok r, set_http w1 rest)
    end.

(** [response.raise_for_status()]: HTTPError on a 4xx or 5xx status. *)
Definition raise_for_status (r : Response) : M unit :=
  if (400 <=? status_code r) && (status_code r <? 600)
  then raise (HTTPError (status_code r))
  else ret tt.

(** [response.json()] *)
Definition response_json (r : Response) : M body :=
  match json_body r with
  | Some b => ret b
  | None => raise JSONDecodeError
  end.

(** Python's default recursion limit bounds the retry recursion. *)
Definition recursion_limit : nat := 1000.

Fixpoint _make_request (depth : nat) (self : MailchimpETL) (endpoint : string)
    (params : option (list (string * param))) : M body :=
  match depth with
  | O => raise RecursionError
  | S depth' =>
      let url := (base_url self ++ "/" ++ endpoint)%string in
      reraising is_RequestException (fun e => log ERROR (MsgRequestFailed e))
        (response <- requests_get url (headers self) params ;;
         raise_for_status response ;;
         (* Handle rate limiting *)
         if status_code response =? 429 then
           log WARNING MsgRateLimit ;;
           sleep 60000 ;;
           _make_request depth' self endpoint params
         else
           response_json response)
  end.

(** [response.get('lists', [])] and its siblings *)
Definition get_lists (b : body) : list list_item :=
  match b with ListsBody l => l | _ => [] end.

Definition get_campaigns (b : body) : list campaign_item :=
  match b with CampaignsBody l => l | _ => [] end.

Definition get_members (b : body) : list member_item :=
  match b with MembersBody l => l | _ => [] end.

(** The campaign object [stats.get(...)] reads; any other body has none of
    the keys. *)
Definition get_stats (b : body) : campaign_stats :=
  match b with CampaignBody s => s | _ => no_stats end.

Definition get_or {A} (o : option A) (d : A) : A :=
  match o with Some a => a | None => d end.

Definition list_row_of (list_item : list_item) : list_row :=
  {| lr_list_id := li_id list_item;
     lr_list_name := li_name list_item;
     lr_member_count := ls_member_count (li_stats list_item);
     lr_unsubscribe_count := ls_unsubscribe_count (li_stats list_item);
     lr_open_rate := ls_open_rate (li_stats list_item);
     lr_click_rate := ls_click_rate (li_stats list_item);
     lr_date_created := li_date_created list_item;
     lr_visibility := get_or (li_visibility list_item) "private" |}.

Definition extract_lists (self : MailchimpETL) : M (list list_row) :=
  reraising any_Exception (fun e => log ERROR (MsgListsFailed e))
    (log INFO MsgExtractingLists ;;
     response <- _make_request recursion_limit self "lists"
                   (Some [("count", PInt 1000)]) ;;
     let lists_data := map list_row_of (get_lists response) in
     log INFO (MsgExtractedLists (length lists_data)) ;;
     ret lists_data).

Definition campaign_row_of (campaign : campaign_item) (stats : campaign_stats)
  : campaign_row :=
  {| cr_campaign_id := ci_id campaign;
     cr_campaign_name := get_or (ci_subject_line campaign) "Unknown";
     cr_list_id := ci_list_id campaign;
     cr_send_time := ci_send_time campaign;
     cr_emails_sent := get_or (cs_emails_sent stats) 0;
     cr_opens := get_or (cs_opens_total stats) 0;
     cr_unique_opens := get_or (cs_unique_opens stats) 0;
     cr_open_rate := get_or (cs_open_rate stats) (Z2F 0);
     cr_clicks := get_or (cs_clicks_total stats) 0;
     cr_unique_clicks := get_or (cs_unique_clicks stats) 0;
     cr_click_rate := get_or (cs_click_rate stats) (Z2F 0);
     cr_unsubscribes := get_or (cs_unsubscribes stats) 0;
     cr_bounces := get_or (cs_hard_bounces stats) 0 + get_or (cs_soft_bounces stats) 0;
     cr_campaign_type := get_or (ci_type campaign) "regular";
     cr_status := ci_status campaign |}.

(** The [for campaign in ...] loop of [extract_campaigns]. *)
Fixpoint campaigns_loop (self : MailchimpETL) (campaigns : list campaign_item)
    (campaigns_data : list campaign_row) : M (list campaign_row) :=
  match campaigns with
  | [] => ret campaigns_data
  | campaign :: rest =>
      (* Get detailed campaign stats *)
      let campaign_id := ci_id campaign in
      stats <- _make_request recursion_limit self
                 ("campaigns/" ++ campaign_id)%string None ;;
      let campaigns_data := campaigns_data ++ [campaign_row_of campaign (get_stats stats)] in
      (* Add small delay to respect rate limits *)
      sleep 100 ;;
      campaigns_loop self rest campaigns_data
  end.

(** [if since_date:] *)
Definition truthy (s : option string) : bool :=
  match s with
  | None | Some EmptyString => false
  | Some _ => true
  end.

Definition extract_campaigns (self : MailchimpETL) (since_date : option string)
  : M (list campaign_row) :=
  reraising any_Exception (fun e => log ERROR (MsgCampaignsFailed e))
    (log INFO MsgExtractingCampaigns ;;
     let params := [("count", PInt 1000); ("status", PStr "sent")] in
     let params :=
       if truthy since_date
       then params ++ [("since_send_time", PStr (get_or since_date EmptyString))]
       else params in
     response <- _make_request recursion_limit self "campaigns" (Some params) ;;
     campaigns_data <- campaigns_loop self (get_campaigns response) [] ;;
     log INFO (MsgExtractedCampaigns (length campaigns_data)) ;;
     ret campaigns_data).

Definition member_row_of (list_id : string) (member : member_item) : member_row :=
  {| mr_member_id := mi_id member;
     mr_email := mi_email_address member;
     mr_status := mi_status member;
     mr_list_id := list_id;
     mr_timestamp_signup := mi_timestamp_signup member;
     mr_timestamp_opt := mi_timestamp_opt member;
     mr_country_code := mi_country_code member;
     mr_timezone := mi_timezone member;
     mr_latitude := mi_latitude member;
     mr_longitude := mi_longitude member;
     mr_ip_signup := mi_ip_signup member;
     mr_ip_opt := mi_ip_opt member;
     mr_language := mi_language member;
     mr_member_rating := get_or (mi_member_rating member) 0;
     mr_email_client := mi_email_client member;
     mr_tags_count := get_or (mi_tags_count member) 0 |}.

Definition members_endpoint (list_id : string) : string :=
  ("lists/" ++ list_id ++ "/members")%string.

Definition members_params (count offset : Z) (status : string)
  : option (list (string * param)) :=
  Some [("count", PInt count); ("offset", PInt offset); ("status", PStr status)].

(** The [while True] loop of [extract_members]. Every turn takes at least one
    scripted answer, so a fuel above the number of answers left is never
    used up ([members_loop_fuel] below); [None] is "out of fuel". *)
Fixpoint members_loop (fuel : nat) (self : MailchimpETL) (list_id status : string)
    (count offset : Z) (members_data : list member_row) (w : World)
  : option (result (list member_row) * World) :=
  match fuel with
  | O => None
  | S fuel' =>
      match _make_request recursion_limit self (members_endpoint list_id)
              (members_params count offset status) w with
      | (Raise e, w1) => Some (Raise e, w1)
      | (Ok response, w1) =>
          let members := get_members response in
          match members with
          | [] => Some (Ok members_data, w1)
          | _ =>
              let members_data := members_data ++ map (member_row_of list_id) members in
              let offset := offset + count in
              match sleep 100 w1 with      (* Rate limiting *)
              | (_, w2) =>
                  members_loop fuel' self list_id status count offset members_data w2
              end
          end
      end
  end.

Definition members_while (self : MailchimpETL) (list_id status : string)
    (count offset : Z) (members_data : list member_row) : M (list member_row) :=
  fun w =>
    match members_loop (S (length (w_http w))) self list_id status count offset
            members_data w with
    | Some r => r
    | None => (Raise RecursionError, w)      (* not reached *)
    end.

Definition extract_members (self : MailchimpETL) (list_id status : string)
  : M (list member_row) :=
  reraising any_Exception (fun e => log ERROR (MsgMembersFailed e))
    (log INFO (MsgExtractingMembers list_id) ;;
     let members_data := [] in
     let offset := 0 in
     let count := 1000 in
     members_data <- members_while self list_id status count offset members_data ;;
     log INFO (MsgExtractedMembers (length members_data) list_id) ;;
     ret members_data).

(** *** Column helpers of [transform_data] *)

(** [s.dt.tz is not None] *)
Definition dt_has_tz (s : series) : result bool :=
  match s with
  | Datetime64 tz _ => Ok tz
  | _ => Raise AttributeError
  end.

(** [s.dt.tz_localize(None)]: the wall-clock reading is kept. *)
Definition tz_localize_none (s : series) : result series :=
  match s with
  | Datetime64 _ xs => Ok (Datetime64 false xs)
  | _ => Raise AttributeError
  end.

(** [s.dt.date] *)
Definition dt_date (s : series) : result series :=
  match s with
  | Datetime64 _ xs => Ok (DateObj (map (option_map (fun t => t / usec_per_day)) xs))
  | _ => Raise AttributeError
  end.

(** An integer column, or a float column with nan when a value is missing. *)
Definition int_or_nan (xs : list (option Z)) : series :=
  if forallb is_some xs
  then Int64 (map (fun o => get_or o 0) xs)
  else Float64 (map (fun o => match o with Some z => Z2F z | None => nan end) xs).

(** [s.dt.hour] *)
Definition dt_hour (s : series) : result series :=
  match s with
  | Datetime64 _ xs =>
      Ok (int_or_nan (map (option_map (fun t => (t mod usec_per_day) / usec_per_hour)) xs))
  | _ => Raise AttributeError
  end.

(** [(t - s).dt.days] for a naive datetime [t] *)
Definition days_since (t : timestamp) (s : series) : result series :=
  match s with
  | Datetime64 false xs =>
      Ok (int_or_nan (map (option_map (fun x => (t - x) / usec_per_day)) xs))
  | _ => Raise TypeError
  end.

(** The [to_datetime] / [tz_localize(None)] steps applied to column [col]. *)
Definition normalize_datetime (df : DataFrame) (col : string) : result DataFrame :=
  rbind (df_get df col) (fun s =>
  rbind (to_datetime_col s) (fun s =>
  let df := df_set df col s in
  (* Remove timezone info if present *)
  rbind (df_get df col) (fun s =>
  rbind (dt_has_tz s) (fun tz =>
  if tz then
    rbind (df_get df col) (fun s =>
    rbind (tz_localize_none s) (fun s =>
    Ok (df_set df col s)))
  else Ok df)))).

Definition country_mapping : list (string * string) :=
  [ ("UA", "Ukraine"); ("RU", "Russia"); ("US", "United States");
    ("GB", "United Kingdom"); ("DE", "Germany"); ("FR", "France") ].

(** [s.map(mapping)]: a cell that is not a key of the dict becomes nan. *)
Definition map_dict (mapping : list (string * string)) (s : series) : series :=
  Object (map (fun o =>
                 match o with
                 | PyStr k => match assoc k mapping with
                              | Some v => PyStr v
                              | None => PyNaN
                              end
                 | _ => PyNaN
                 end) (series_cells s)).

Definition performance_bins : list Z := [0; 15; 25; 35; 100].
Definition performance_labels : list string := ["Low"; "Medium"; "High"; "Excellent"].

(** The [data_type == 'campaigns'] branch. *)
Definition transform_campaigns (df : DataFrame) : result DataFrame :=
  rbind
    (* Convert datetime columns and remove timezone info for Excel compatibility *)
    (if df_has df "send_time" then
       rbind (normalize_datetime df "send_time") (fun df =>
       rbind (df_get df "send_time") (fun s =>
       rbind (dt_date s) (fun d =>
       let df := df_set df "send_date" d in
       rbind (df_get df "send_time") (fun s =>
       rbind (dt_hour s) (fun h =>
       Ok (df_set df "send_hour" h))))))
     else Ok df) (fun df =>
  (* Calculate engagement rates *)
  rbind (df_get df "unique_opens") (fun uo =>
  rbind (df_get df "unique_clicks") (fun uc =>
  rbind (series_add uo uc) (fun total =>
  rbind (df_get df "emails_sent") (fun sent =>
  rbind (series_truediv total sent) (fun ratio =>
  rbind (series_mul_int ratio 100) (fun rate =>
  let df := df_set df "engagement_rate" rate in
  rbind (df_get df "engagement_rate") (fun rate =>
  let df := df_set df "engagement_rate" (fillna_zero rate) in
  (* Add performance categories for human rights reporting *)
  rbind (df_get df "open_rate") (fun open_rate =>
  rbind (series_mul_int open_rate 100) (fun pct =>
  rbind (pd_cut pct performance_bins performance_labels) (fun cat =>
  Ok (df_set df "performance_category" cat)))))))))))).

(** The [for col in datetime_cols] loop of the members branch. *)
Fixpoint normalize_datetime_cols (df : DataFrame) (cols : list string) : result DataFrame :=
  match cols with
  | [] => Ok df
  | col :: cols' =>
      rbind (if df_has df col then normalize_datetime df col else Ok df) (fun df =>
      normalize_datetime_cols df cols')
  end.

(** The [data_type == 'members'] branch; it reads the clock for the tenure. *)
Definition transform_members (df : DataFrame) : M DataFrame :=
  (* Convert datetime columns and remove timezone info for Excel compatibility *)
  let datetime_cols := ["timestamp_signup"; "timestamp_opt"] in
  df <- lift (normalize_datetime_cols df datetime_cols) ;;
  (* Add geographic insights (important for human rights context) *)
  df <- lift
    (if df_has df "country_code" then
       rbind (df_get df "country_code") (fun code =>
       let df := df_set df "country_name" (map_dict country_mapping code) in
       rbind (df_get df "country_name") (fun name =>
       rbind (df_get df "country_code") (fun code =>
       Ok (df_set df "country_name"
             (Object (fillna_series (series_cells name) (series_cells code)))))))
     else Ok df) ;;
  (* Calculate member tenure *)
  if df_has df "timestamp_signup" then
    t <- now ;;
    signup <- lift (df_get df "timestamp_signup") ;;
    days <- lift (days_since t signup) ;;
    ret (df_set df "days_since_signup" days)
  else ret df.

(** The [data_type == 'lists'] branch. *)
Definition transform_lists (df : DataFrame) : result DataFrame :=
  rbind
    (* Convert datetime columns and remove timezone info for Excel compatibility *)
    (if df_has df "date_created" then normalize_datetime df "date_created" else Ok df)
    (fun df =>
  (* Calculate list health metrics *)
  rbind (df_get df "unsubscribe_count") (fun unsub =>
  rbind (df_get df "member_count") (fun members =>
  rbind (series_truediv unsub members) (fun ratio =>
  rbind (series_mul_int ratio 100) (fun rate =>
  let df := df_set df "unsubscribe_rate" rate in
  rbind (df_get df "unsubscribe_rate") (fun rate =>
  Ok (df_set df "unsubscribe_rate" (fillna_zero rate)))))))).

Definition transform_data (self : MailchimpETL) (data_type : string) (raw : raw_data)
  : M DataFrame :=
  reraising any_Exception (fun e => log ERROR (MsgTransformFailed data_type e))
    (let df := DataFrame_of raw in
     if df_empty df then
       log WARNING (MsgNoData data_type) ;;
       ret df
     else
       (* Common transformations *)
       df <- (if data_type =? "campaigns" then lift (transform_campaigns df)
              else if data_type =? "members" then transform_members df
              else if data_type =? "lists" then lift (transform_lists df)
              else ret df)%string ;;
       (* Add extraction metadata *)
       t <- now ;;
       let df := df_set df "extracted_at" (Datetime64 false (repeat (Some t) (df_len df))) in
       let df := df_set df "data_source" (Object (repeat (PyStr "mailchimp") (df_len df))) in
       log INFO (MsgTransformed data_type (df_len df)) ;;
       ret df).

(** *** Aggregates of [_create_summary_dashboard] *)

(** [f"{s.mean() * 100:.2f}"]: defined on numeric columns. *)
Definition mean_pct (s : series) : result summary_value :=
  match s with
  | Int64 _ | Float64 _ => Ok (SvMeanPct s)
  | _ => Raise TypeError
  end.

Definition all_str (xs : list pyobj) : option string :=
  fold_right (fun o acc =>
                match o, acc with
                | PyStr s, Some t => Some (s ++ t)%string
                | _, _ => None
                end) (Some EmptyString) xs.

(** [s.sum()]: int64 totals wrap; strings concatenate. *)
Definition series_sum (s : series) : result summary_value :=
  match s with
  | Int64 xs => Ok (SvInt (fold_left (fun acc x => wrap64 (acc + x)) xs 0))
  | Float64 xs => Ok (SvFloatSum xs)
  | Object xs => match all_str xs with
                 | Some t => Ok (SvStr t)
                 | None => Raise TypeError
                 end
  | _ => Raise TypeError
  end.

(** [name in d and not d[name].empty] *)
Definition present_nonempty (d : list (string * DataFrame)) (name : string)
  : option DataFrame :=
  match assoc name d with
  | Some df => if df_empty df then None else Some df
  | None => None
  end.

(** Create summary dashboard for human rights reporting *)
Definition _create_summary_dashboard (self : MailchimpETL)
    (dataframes_dict : list (string * DataFrame)) : result summary_frame :=
  let summary_data := [] in
  (* Campaign performance summary *)
  rbind
    (match present_nonempty dataframes_dict "campaigns" with
     | Some campaigns_df =>
         rbind (df_get campaigns_df "open_rate") (fun open_rate =>
         rbind (mean_pct open_rate) (fun avg_open =>
         rbind (df_get campaigns_df "click_rate") (fun click_rate =>
         rbind (mean_pct click_rate) (fun avg_click =>
         rbind (df_get campaigns_df "emails_sent") (fun sent =>
         rbind (series_sum sent) (fun total_sent =>
         Ok (summary_data ++
             [ (Metric "Total Campaigns", SvInt (Z.of_nat (df_len campaigns_df)));
               (Metric "Avg Open Rate (%)", avg_open);
               (Metric "Avg Click Rate (%)", avg_click);
               (Metric "Total Emails Sent", total_sent) ])))))))
     | None => Ok summary_data
     end) (fun summary_data =>
  (* Lists summary *)
  rbind
    (match present_nonempty dataframes_dict "lists" with
     | Some lists_df =>
         rbind (df_get lists_df "member_count") (fun members =>
         rbind (series_sum members) (fun subscribers =>
         rbind (df_get lists_df "unsubscribe_count") (fun unsub =>
         rbind (series_sum unsub) (fun unsubscribes =>
         Ok (summary_data ++
             [ (Metric "Total Lists", SvInt (Z.of_nat (df_len lists_df)));
               (Metric "Total Subscribers", subscribers);
               (Metric "Total Unsubscribes", unsubscribes) ])))))
     | None => Ok summary_data
     end) (fun summary_data =>
  (* Geographic distribution (if members data available) *)
  match present_nonempty dataframes_dict "members" with
  | Some members_df =>
      if df_has members_df "country_name" then
        rbind (df_get members_df "country_name") (fun names =>
        let top_countries := firstn 5 (value_counts names) in
        Ok (summary_data ++
            map (fun cc => (SubscribersIn (fst cc), SvInt (Z.of_nat (snd cc))))
                top_countries))
      else Ok summary_data
  | None => Ok summary_data
  end)).

(** *** [load_data] *)

(** The [for data_type, df in dataframes_dict.items()] loop of the Excel
    branch: the sheets written so far, and how the loop ended. *)
Fixpoint write_sheets (dataframes_dict : list (string * DataFrame))
    (sheets : list (string * sheet)) : list (string * sheet) * result unit :=
  match dataframes_dict with
  | [] => (sheets, Ok tt)
  | (data_type, df) :: rest =>
      if negb (df_empty df) then
        let sheet_name := py_prefix 31 (py_capitalize data_type) in  (* Excel sheet name limit *)
        match to_excel sheets sheet_name (TableSheet df) with
        | (sheets, Ok _) => write_sheets rest sheets
        | (sheets, Raise e) => (sheets, Raise e)
        end
      else write_sheets rest sheets
  end.

(** The body of the [with pd.ExcelWriter(...)] block. *)
Definition excel_body (self : MailchimpETL) (dataframes_dict : list (string * DataFrame))
  : list (string * sheet) * result unit :=
  match write_sheets dataframes_dict [] with
  | (sheets, Raise e) => (sheets, Raise e)
  | (sheets, Ok _) =>
      (* Add summary dashboard *)
      match _create_summary_dashboard self dataframes_dict with
      | Raise e => (sheets, Raise e)
      | Ok summary_df =>
          if negb (is_nil summary_df)
          then to_excel sheets "Dashboard" (DashboardSheet summary_df)
          else (sheets, Ok tt)
      end
  end.

(** The [for] loop of the CSV branch. *)
Fixpoint write_csvs (dataframes_dict : list (string * DataFrame))
    (output_dir output_path timestamp : string) (filenames : list string)
  : M (list string) :=
  match dataframes_dict with
  | [] => ret filenames
  | (data_type, df) :: rest =>
      if negb (df_empty df) then
        let filename :=
          path_join output_dir
            (output_path ++ "_" ++ data_type ++ "_" ++ timestamp ++ ".csv")%string in
        write_file filename (CsvFile df) ;;
        write_csvs rest output_dir output_path timestamp (filenames ++ [filename])
      else write_csvs rest output_dir output_path timestamp filenames
  end.

(** The [for] loop of the JSON branch. *)
Fixpoint combine_records (dataframes_dict : list (string * DataFrame))
    (combined_data : list (string * DataFrame)) : list (string * DataFrame) :=
  match dataframes_dict with
  | [] => combined_data
  | (data_type, df) :: rest =>
      if negb (df_empty df)
      then combine_records rest (assoc_set data_type df combined_data)
      else combine_records rest combined_data
  end.

Definition load_data (self : MailchimpETL) (dataframes_dict : list (string * DataFrame))
    (output_format output_path : string) : M filename :=
  reraising any_Exception (fun e => log ERROR (MsgLoadFailed e))
    ((* Create output directory if it doesn't exist *)
     let output_dir := "output" in
     makedirs output_dir ;;
     t <- now ;;
     let timestamp := strftime t in
     (* [filename] is bound only by the three branches *)
     filename <-
       (if py_lower output_format =? "excel" then
          let filename :=
            path_join output_dir (output_path ++ "_" ++ timestamp ++ ".xlsx")%string in
          excel_writer_exit filename (excel_body self dataframes_dict) ;;
          ret (Some (Path filename))
        else if py_lower output_format =? "csv" then
          filenames <- write_csvs dataframes_dict output_dir output_path timestamp [] ;;
          ret (Some (Paths filenames))
        else if py_lower output_format =? "json" then
          let filename :=
            path_join output_dir (output_path ++ "_" ++ timestamp ++ ".json")%string in
          let combined_data := combine_records dataframes_dict [] in
          write_file filename (JsonFile combined_data) ;;
          ret (Some (Path filename))
        else ret None)%string ;;
     match filename with
     | Some f =>
         log INFO (MsgLoaded f) ;;
         ret f
     | None => raise (UnboundLocalError "filename")
     end).

(** *** [run_etl] *)

(** The [for list_id in list_ids] loop. *)
Fixpoint members_of_lists (self : MailchimpETL) (list_ids : list string)
    (all_members_data : list member_row) : M (list member_row) :=
  match list_ids with
  | [] => ret all_members_data
  | list_id :: rest =>
      members_data <- extract_members self list_id "subscribed" ;;
      members_of_lists self rest (all_members_data ++ members_data)
  end.

(** [run_etl] up to the call of [load_data]: the [dataframes] dict. *)
Definition extract_and_transform (self : MailchimpETL) (include_members : bool)
    (specific_list_ids : option (list string)) (since_date : option string)
  : M (list (string * DataFrame)) :=
  let dataframes := [] in
  (* Extract and transform lists *)
  lists_data <- extract_lists self ;;
  df <- transform_data self "lists" (RawLists lists_data) ;;
  let dataframes := assoc_set "lists" df dataframes in
  (* Extract and transform campaigns *)
  campaigns_data <- extract_campaigns self since_date ;;
  df <- transform_data self "campaigns" (RawCampaigns campaigns_data) ;;
  let dataframes := assoc_set "campaigns" df dataframes in
  (* Extract and transform members if requested *)
  if include_members then
    let all_members_data := [] in
    (* Get list IDs to process *)
    let list_ids :=
      match specific_list_ids with
      | Some (id :: ids) => id :: ids
      | _ => map lr_list_id (firstn 3 lists_data)  (* Limit to first 3 lists for demo *)
      end in
    all_members_data <- members_of_lists self list_ids all_members_data ;;
    if negb (is_nil all_members_data) then
      df <- transform_data self "members" (RawMembers all_members_data) ;;
      ret (assoc_set "members" df dataframes)
    else ret dataframes
  else ret dataframes.

Definition run_etl (self : MailchimpETL) (include_members : bool)
    (specific_list_ids : option (list string)) (since_date : option string)
    (output_format : string) : M filename :=
  log INFO MsgStarting ;;
  dataframes <- extract_and_transform self include_members specific_list_ids since_date ;;
  (* Load data *)
  filename <- load_data self dataframes output_format "mailchimp_data" ;;
  log INFO MsgCompleted ;;
  ret filename.

End Pipeline.
End Mailchimp.

(** * The Google Analytics pipeline ([ga_etl/main.py])

    [_authenticate] and [extract_data] only call the vendor SDK; the model
    starts from the report they return. *)

Module GA.
Section Pipeline.
Context {ext : Externals}.

(** A row of the report: the [.value] strings of its dimension and metric
    values. *)
Record ga_row := {
  dimension_values : list string;
  metric_values : list string
}.

(** The report: the [.name] of each header, and the rows. *)
Record ga_response := {
  dimension_headers : list string;
  metric_headers : list string;
  rows : list ga_row
}.

(** [for i, dim_value in enumerate(row.dimension_values)] *)
Fixpoint add_dimensions (dimension_names : list string) (i : nat) (values : list string)
    (row_data : list (string * pyobj)) : result (list (string * pyobj)) :=
  match values with
  | [] => Ok row_data
  | dim_value :: values' =>
      match nth_error dimension_names i with
      | None => Raise IndexError
      | Some name => add_dimensions dimension_names (S i) values'
                       (assoc_set name (PyStr dim_value) row_data)
      end
  end.

Definition mem_str (s : string) (l : list string) : bool := existsb (String.eqb s) l.

(** Convert metrics to appropriate data types *)
Definition convert_metric (metric_name value : string) : result pyobj :=
  if mem_str metric_name ["sessions"; "totalUsers"; "screenPageViews"] then
    if negb (value =? "0")%string then
      match py_int value with
      | Some z => Ok (PyInt z)
      | None => Raise ValueError
      end
    else Ok (PyInt 0)
  else if mem_str metric_name ["userEngagementDuration"] then
    if negb (value =? "0.0")%string then
      match py_float value with
      | Some x => Ok (PyFloat x)
      | None => Raise ValueError
      end
    else Ok (PyFloat (Z2F 0))
  else Ok (PyStr value).

(** [for i, met_value in enumerate(row.metric_values)] *)
Fixpoint add_metrics (metric_names : list string) (i : nat) (values : list string)
    (row_data : list (string * pyobj)) : result (list (string * pyobj)) :=
  match values with
  | [] => Ok row_data
  | value :: values' =>
      match nth_error metric_names i with
      | None => Raise IndexError
      | Some metric_name =>
          rbind (convert_metric metric_name value) (fun v =>
          add_metrics metric_names (S i) values' (assoc_set metric_name v row_data))
      end
  end.

(** [for row in response.rows] *)
Fixpoint process_rows (dimension_names metric_names : list string) (rs : list ga_row)
    (data : list (list (string * pyobj))) : result (list (list (string * pyobj))) :=
  match rs with
  | [] => Ok data
  | row :: rs' =>
      let row_data := [] in
      (* Add dimensions *)
      rbind (add_dimensions dimension_names 0 (dimension_values row) row_data) (fun row_data =>
      (* Add metrics (convert to appropriate types) *)
      rbind (add_metrics metric_names 0 (metric_values row) row_data) (fun row_data =>
      process_rows dimension_names metric_names rs' (data ++ [row_data])))
  end.

(** *** [pd.DataFrame(data)] for a list of dicts

    The columns are the keys in order of first appearance; a row without a
    key has nan there. A column of ints is int64 (the counts fit), a column
    of ints, floats and nan is float64, any string makes it object. *)

Fixpoint union_keys (seen : list string) (data : list (list (string * pyobj)))
  : list string :=
  match data with
  | [] => seen
  | row :: data' =>
      union_keys
        (fold_left (fun acc k => if mem_str k acc then acc else acc ++ [k])
                   (map fst row) seen)
        data'
  end.

Definition cell_of (k : string) (row : list (string * pyobj)) : pyobj :=
  match assoc k row with
  | Some v => v
  | None => PyNaN
  end.

Definition is_int (o : pyobj) : bool :=
  match o with PyInt _ => true | _ => false end.

Definition is_number_or_nan (o : pyobj) : bool :=
  match o with PyInt _ | PyFloat _ | PyNaN => true | _ => false end.

Definition to_float (o : pyobj) : float :=
  match o with
  | PyInt z => Z2F z
  | PyFloat x => x
  | _ => nan
  end.

Definition infer_column (cells : list pyobj) : series :=
  if forallb is_int cells
  then Int64 (map (fun o => match o with PyInt z => z | _ => 0 end) cells)
  else if forallb is_number_or_nan cells
  then Float64 (map to_float cells)
  else Object cells.

Definition DataFrame_of_dicts (data : list (list (string * pyobj))) : DataFrame :=
  {| df_len := length data;
     df_cols := map (fun k => (k, infer_column (map (cell_of k) data)))
                    (union_keys [] data) |}.

(** [s.str.strip().str.title()]: the accessor needs an object column; a cell
    that is not a string becomes nan. *)
Definition str_strip_title (s : series) : result series :=
  match s with
  | Object xs =>
      Ok (Object (map (fun o => match o with
                                | PyStr v => PyStr (py_title (py_strip v))
                                | _ => PyNaN
                                end) xs))
  | _ => Raise AttributeError
  end.

Definition country_aliases : list (string * string) :=
  [ ("Russian Federation", "Russia"); ("United States", "USA") ].

(** [s.replace(aliases)] *)
Definition replace_dict (aliases : list (string * string)) (s : series) : series :=
  match s with
  | Object xs =>
      Object (map (fun o => match o with
                            | PyStr v => PyStr (match assoc v aliases with
                                                | Some v' => v'
                                                | None => v
                                                end)
                            | _ => o
                            end) xs)
  | _ => s
  end.

(** Lines 128-152 of [transform_data]: the work on the frame. *)
Definition transform_frame (df : DataFrame) : M DataFrame :=
  (* Data cleaning and transformation *)
  df <- lift
    (if df_has df "date" then
       rbind (df_get df "date") (fun s =>
       rbind (to_datetime_col s) (fun s =>
       Ok (df_set df "date" s)))
     else Ok df) ;;
  (* Clean country names (important for human rights monitoring) *)
  df <- lift
    (if df_has df "country" then
       rbind (df_get df "country") (fun s =>
       rbind (str_strip_title s) (fun s =>
       let df := df_set df "country" s in
       (* Handle special cases for human rights context *)
       rbind (df_get df "country") (fun s =>
       Ok (df_set df "country" (replace_dict country_aliases s)))))
     else Ok df) ;;
  (* Add derived metrics *)
  df <- lift
    (if df_has df "userEngagementDuration" && df_has df "sessions" then
       rbind (df_get df "userEngagementDuration") (fun duration =>
       rbind (df_get df "sessions") (fun sessions =>
       rbind (series_truediv duration sessions) (fun avg =>
       let df := df_set df "avg_engagement_duration" avg in
       rbind (df_get df "avg_engagement_duration") (fun avg =>
       Ok (df_set df "avg_engagement_duration" (fillna_zero avg))))))
     else Ok df) ;;
  (* Add extraction timestamp *)
  t <- now ;;
  let df := df_set df "extracted_at" (Datetime64 false (repeat (Some t) (df_len df))) in
  log INFO (MsgGaTransformed (df_len df) (length (df_cols df))) ;;
  ret df.

Definition transform_data (response : ga_response) : M DataFrame :=
  reraising any_Exception (fun e => log ERROR (MsgGaTransformFailed e))
    ((* Extract dimension and metric names *)
     let dimension_names := dimension_headers response in
     let metric_names := metric_headers response in
     (* Process rows *)
     data <- lift (process_rows dimension_names metric_names (rows response) []) ;;
     let df := DataFrame_of_dicts data in
     transform_frame df).

(** Create summary statistics for human rights reporting *)
Definition _create_summary (df : DataFrame) : result ga_summary :=
  if df_has df "country" then
    rbind (top_countries df) (fun rows =>
    Ok (GaTopCountries rows))
  else Ok GaNoSummary.

(** The body of the [with pd.ExcelWriter(...)] block. *)
Definition excel_body (df : DataFrame) : list (string * sheet) * result unit :=
  match to_excel [] "GA_Data" (TableSheet df) with
  | (sheets, Raise e) => (sheets, Raise e)
  | (sheets, Ok _) =>
      (* Add summary sheet for human rights reporting *)
      match _create_summary df with
      | Raise e => (sheets, Raise e)
      | Ok summary => to_excel sheets "Summary" (GaSummarySheet summary)
      end
  end.

Definition load_data (df : DataFrame) (output_format output_path : string) : M filename :=
  reraising any_Exception (fun e => log ERROR (MsgLoadFailed e))
    ((* Create output directory if it doesn't exist *)
     let output_dir := "output" in
     makedirs output_dir ;;
     t <- now ;;
     let timestamp := strftime t in
     (* [filename] is bound only by the three branches *)
     filename <-
       (if py_lower output_format =? "csv" then
          let filename :=
            path_join output_dir (output_path ++ "_" ++ timestamp ++ ".csv")%string in
          write_file filename (CsvFile df) ;;
          ret (Some filename)
        else if py_lower output_format =? "excel" then
          let filename :=
            path_join output_dir (output_path ++ "_" ++ timestamp ++ ".xlsx")%string in
          excel_writer_exit filename (excel_body df) ;;
          ret (Some filename)
        else if py_lower output_format =? "json" then
          let filename :=
            path_join output_dir (output_path ++ "_" ++ timestamp ++ ".json")%string in
          write_file filename (JsonRecords df) ;;
          ret (Some filename)
        else ret None)%string ;;
     match filename with
     | Some f =>
         log INFO (MsgLoaded (Path f)) ;;
         ret (Path f)
     | None => raise (UnboundLocalError "filename")
     end).

End Pipeline.
End GA.

(** * Row-wise readings of the derived columns *)

(** The engagement rate [transform_data] computes for one campaign row. *)
Definition engagement_rate_of (r : campaign_row) : float :=
  let rate :=
    fmul (int_truediv (wrap64 (cr_unique_opens r + cr_unique_clicks r))
                      (cr_emails_sent r))
         (Z2F 100) in
  if is_nan rate then Z2F 0 else rate.

(** The bucket [transform_data] computes for one campaign row. *)
Definition performance_category_of (r : campaign_row) : option string :=
  cut_value (map Z2F Mailchimp.performance_bins) Mailchimp.performance_labels
            (fmul (cr_open_rate r) (Z2F 100)).

(** The bin edges of [performance_bins], as floats. *)
Definition edge0 : float := Z2F 0.
Definition edge15 : float := Z2F 15.
Definition edge25 : float := Z2F 25.
Definition edge35 : float := Z2F 35.
Definition edge100 : float := Z2F 100.

(** The buckets as the specification words them: [0,15) Low, [15,25) Medium,
    [25,35) High, [35,100] Excellent. *)
Definition stated_category (x : float) : option string :=
  if fleb (Z2F 0) x && fltb x (Z2F 15) then Some "Low"
  else if fleb (Z2F 15) x && fltb x (Z2F 25) then Some "Medium"
  else if fleb (Z2F 25) x && fltb x (Z2F 35) then Some "High"
  else if fleb (Z2F 35) x && fleb x (Z2F 100) then Some "Excellent"
  else None.

(** * Sample data *)

(** A parser for the two timestamp spellings of the samples. *)
Definition sample_instant (o : pyobj) : option (bool * option timestamp) :=
  match o with
  | PyNone | PyNaN => Some (false, None)
  | PyStr s =>
      if (s =? "2024-01-15T10:30:00+00:00")%string then Some (true, Some 1705314600000000)
      else if (s =? "20240115")%string then Some (false, Some 1705276800000000)
      else None
  | _ => None
  end.

Fixpoint sample_to_datetime (cells : list pyobj) : option (bool * list (option timestamp)) :=
  match cells with
  | [] => Some (false, [])
  | c :: cells' =>
      match sample_instant c, sample_to_datetime cells' with
      | Some (tz, t), Some (tz', ts) => Some (tz || tz', t :: ts)
      | _, _ => None
      end
  end.

Definition float_eqb (x y : float) : bool :=
  match x, y with
  | S754_zero a, S754_zero b => Bool.eqb a b
  | S754_infinity a, S754_infinity b => Bool.eqb a b
  | S754_finite a m e, S754_finite b n f => Bool.eqb a b && Pos.eqb m n && (e =? f)
  | _, _ => false
  end.

Definition pyobj_eqb (a b : pyobj) : bool :=
  match a, b with
  | PyNone, PyNone => true
  | PyInt x, PyInt y => x =? y
  | PyFloat x, PyFloat y => float_eqb x y
  | PyStr x, PyStr y => String.eqb x y
  | PyTimestamp s x, PyTimestamp t y => Bool.eqb s t && (x =? y)
  | PyDate x, PyDate y => x =? y
  | _, _ => false
  end.

Fixpoint count_obj (k : pyobj) (xs : list pyobj) : nat :=
  match xs with
  | [] => O
  | x :: xs' => (if pyobj_eqb k x then 1 else 0) + count_obj k xs'
  end.

(** The distinct values, in order of first appearance. *)
Fixpoint distinct (seen xs : list pyobj) : list pyobj :=
  match xs with
  | [] => []
  | x :: xs' =>
      if existsb (pyobj_eqb x) seen then distinct seen xs'
      else x :: distinct (x :: seen) xs'
  end.

Fixpoint insert_by_count (kc : pyobj * nat) (l : list (pyobj * nat)) : list (pyobj * nat) :=
  match l with
  | [] => [kc]
  | kc' :: l' =>
      if (snd kc' <=? snd kc)%nat then kc :: l
      else kc' :: insert_by_count kc l'
  end.

(** A [value_counts]: missing cells are dropped, the most frequent value
    comes first, equal counts in the order of first appearance. *)
Definition sample_value_counts (s : series) : list (pyobj * nat) :=
  let cells := filter (fun o => negb (pyobj_isna o)) (series_cells s) in
  fold_right insert_by_count []
    (map (fun k => (k, count_obj k cells)) (distinct [] cells)).

(** A [top_countries] for tables with one row per country. *)
Definition sample_top_countries (df : DataFrame)
  : result (list (pyobj * pyobj * pyobj * pyobj)) :=
  rbind (df_get df "country") (fun country =>
  rbind (df_get df "sessions") (fun sessions =>
  rbind (df_get df "totalUsers") (fun users =>
  rbind (df_get df "screenPageViews") (fun views =>
  Ok (firstn 10
        (combine (combine (combine (series_cells country) (series_cells sessions))
                          (series_cells users))
                 (series_cells views))))))).

Definition sample_ext : Externals :=
  {| to_datetime := sample_to_datetime;
     to_datetime_object := fun _ => None;
     value_counts := sample_value_counts;
     top_countries := sample_top_countries;
     strftime := fun _ => "20240201_120000";
     py_int := fun s => if (s =? "5")%string then Some 5
                        else if (s =? "12")%string then Some 12 else None;
     py_float := fun s => if (s =? "12.5")%string then Some (fdiv (Z2F 25) (Z2F 2))
                          else None;
     py_strip := fun s => s;
     py_title := fun s => s;
     isdir := fun _ => false |}.

Definition sample_world (http : list Response) : World :=
  {| w_http := http; w_requests := []; w_sleeps := []; w_log := [];
     w_clock := fun k => nth k [1706788800000000; 1706788800250000; 1706788801000000]
                               1706788802000000;
     w_ticks := 0; w_dirs := []; w_files := [] |}.

(** Scripted answers. *)
Definition too_many_requests (payload : option body) : Response :=
  {| status_code := 429; json_body := payload |}.

Definition ok_response (b : body) : Response :=
  {| status_code := 200; json_body := Some b |}.

Definition sample_self : Mailchimp.MailchimpETL :=
  {| Mailchimp.api_key := "key-us1"; Mailchimp.server_prefix := "us1" |}.

(** A campaign sent to 200 addresses, with the given rates and counts. *)
Definition sample_campaign (sent opens clicks : Z) (open_rate : float) : campaign_row :=
  {| cr_campaign_id := "c1"; cr_campaign_name := "News"; cr_list_id := Some "l1";
     cr_send_time := Some "2024-01-15T10:30:00+00:00";
     cr_emails_sent := sent; cr_opens := opens; cr_unique_opens := opens;
     cr_open_rate := open_rate; cr_clicks := clicks; cr_unique_clicks := clicks;
     cr_click_rate := Z2F 0; cr_unsubscribes := 0; cr_bounces := 0;
     cr_campaign_type := "regular"; cr_status := Some "sent" |}.

(** 0.25, exactly representable. *)
Definition quarter : float := S754_finite false 4503599627370496 (-54).

(** The country name [transform_data] derives from one [country_code] cell. *)
Definition country_name_of (code : pyobj) : pyobj :=
  match code with
  | PyStr k => match assoc k Mailchimp.country_mapping with
               | Some name => PyStr name
               | None => code
               end
  | _ => code
  end.

Definition sample_member (id : string) (country : option string) : member_item :=
  {| mi_id := id; mi_email_address := (id ++ "@example.org")%string;
     mi_status := "subscribed";
     mi_timestamp_signup := Some "2024-01-15T10:30:00+00:00";
     mi_timestamp_opt := None;
     mi_country_code := country; mi_timezone := None;
     mi_latitude := None; mi_longitude := None;
     mi_ip_signup := None; mi_ip_opt := None; mi_language := Some "en";
     mi_member_rating := Some 3; mi_email_client := None; mi_tags_count := None |}.

(** [len(raw_data)] *)
Definition raw_len (raw : raw_data) : nat :=
  match raw with
  | RawLists rows => length rows
  | RawCampaigns rows => length rows
  | RawMembers rows => length rows
  end.

(** The GET request [_make_request] sends. *)
Definition request_of (self : Mailchimp.MailchimpETL) (endpoint : string)
    (params : option (list (string * param))) : Request :=
  {| req_url := (Mailchimp.base_url self ++ "/" ++ endpoint)%string;
     req_headers := Mailchimp.headers self;
     req_params := params |}.

(** The [n] page requests of [extract_members], from [offset] on. *)
Fixpoint page_requests (self : Mailchimp.MailchimpETL) (list_id status : string)
    (count offset : Z) (n : nat) : list Request :=
  match n with
  | O => []
  | S n' =>
      request_of self (Mailchimp.members_endpoint list_id)
                 (Mailchimp.members_params count offset status)
      :: page_requests self list_id status count (offset + count) n'
  end.

(** A 200 answer carrying one page of members. *)
Definition page_response (members : list member_item) : Response :=
  ok_response (MembersBody members).









(** A one-row report. *)
Definition sample_report (dimensions metrics : list string) (dims mets : list string)
  : GA.ga_response :=
  {| GA.dimension_headers := dimensions; GA.metric_headers := metrics;
     GA.rows := [ {| GA.dimension_values := dims; GA.metric_values := mets |} ] |}.

(** [m] only adds requests satisfying [P] to the log, however it ends. *)
Definition issues {A} (P : Request -> Prop) (m : M A) : Prop :=
  forall w r w',
    m w = (r, w') ->
    exists reqs, w_requests w' = w_requests w ++ reqs /\ Forall P reqs.

(** A request for the lists or for campaigns. *)
Definition lists_or_campaigns_request (self : Mailchimp.MailchimpETL) (r : Request) : Prop :=
  exists endpoint params,
    r = request_of self endpoint params
    /\ (endpoint = "lists" \/ endpoint = "campaigns"
        \/ exists campaign_id, endpoint = ("campaigns/" ++ campaign_id)%string).

(** A page request for the members of one of the lists [ids]. *)
Definition members_request (self : Mailchimp.MailchimpETL) (ids : list string)
    (r : Request) : Prop :=
  exists list_id offset,
    In list_id ids
    /\ r = request_of self (Mailchimp.members_endpoint list_id)
             (Mailchimp.members_params 1000 offset "subscribed").

Definition sample_list (id : string) : list_item :=
  {| li_id := id; li_name := ("List " ++ id)%string;
     li_stats := {| ls_member_count := 10; ls_unsubscribe_count := 1;
                    ls_open_rate := quarter; ls_click_rate := Z2F 0 |};
     li_date_created := "2024-01-15T10:30:00+00:00";
     li_visibility := None |}.

(** Four lists, no campaign, and one member in each of the first three
    lists: the answers a run with members needs, in order. *)
Definition sample_script : list Response :=
  [ ok_response (ListsBody [sample_list "l1"; sample_list "l2";
                            sample_list "l3"; sample_list "l4"]);
    ok_response (CampaignsBody []);
    page_response [sample_member "m1" (Some "UA")]; page_response [];
    page_response [sample_member "m2" (Some "XX")]; page_response [];
    page_response [sample_member "m3" None]; page_response [] ].



(** ** Vocabulary of the further properties *)

(** What [_make_request] makes of the answer it receives. *)
Definition answered (r : Response) : result body :=
  if (400 <=? status_code r) && (status_code r <? 600)
  then Raise (HTTPError (status_code r))
  else match json_body r with
       | Some b => Ok b
       | None => Raise JSONDecodeError
       end.

(** ... and of the answers a server has left. *)
Definition next_answer (http : list Response) : result body :=
  match http with
  | [] => Raise ConnectionError
  | r :: _ => answered r
  end.

(** An answer with a 4xx or 5xx status. *)
Definition http_error (r : Response) : bool :=
  (400 <=? status_code r) && (status_code r <? 600).

(** The query of the campaigns request for a [since_date]. *)
Definition campaigns_params (since_date : option string) : option (list (string * param)) :=
  Some ([("count", PInt 1000); ("status", PStr "sent")]
        ++ match since_date with
           | Some (String a s) => [("since_send_time", PStr (String a s))]
           | _ => []
           end).

(** The request for the details of a campaign. *)
Definition detail_request (self : Mailchimp.MailchimpETL) (c : campaign_item) : Request :=
  request_of self ("campaigns/" ++ ci_id c)%string None.

(** The row of a campaign and the answer to its detail request. *)
Definition campaign_row_from (cb : campaign_item * body) : campaign_row :=
  Mailchimp.campaign_row_of (fst cb) (Mailchimp.get_stats (snd cb)).

Definition sample_campaign_item (id : string) : campaign_item :=
  {| ci_id := id; ci_subject_line := Some "News"; ci_list_id := Some "l1";
     ci_send_time := Some "2024-01-15T10:30:00+00:00";
     ci_type := None; ci_status := Some "sent" |}.

(** The details of a campaign sent to 200 addresses. *)
Definition sample_details : body :=
  CampaignBody
    {| cs_emails_sent := Some 200; cs_opens_total := Some 60; cs_unique_opens := Some 50;
       cs_open_rate := Some quarter; cs_clicks_total := Some 12;
       cs_unique_clicks := Some 10; cs_click_rate := None; cs_unsubscribes := Some 1;
       cs_hard_bounces := Some 2; cs_soft_bounces := Some 3 |}.

(** A 503 answer. *)
Definition unavailable : Response := {| status_code := 503; json_body := None |}.

(** The data type [run_etl] passes to [transform_data] with these rows. *)
Definition raw_type (raw : raw_data) : string :=
  match raw with
  | RawLists _ => "lists"
  | RawCampaigns _ => "campaigns"
  | RawMembers _ => "members"
  end.

(** The columns [transform_data] derives for each data type. *)
Definition derived_columns (raw : raw_data) : list string :=
  match raw with
  | RawLists _ => ["unsubscribe_rate"]
  | RawCampaigns _ => ["send_date"; "send_hour"; "engagement_rate"; "performance_category"]
  | RawMembers _ => ["country_name"; "days_since_signup"]
  end.

(** The unsubscribe rate [transform_data] computes for one list row. *)
Definition unsubscribe_rate_of (r : list_row) : float :=
  let rate := fmul (int_truediv (lr_unsubscribe_count r) (lr_member_count r)) (Z2F 100) in
  if is_nan rate then Z2F 0 else rate.

Definition sample_list_row (members unsubscribes : Z) (date_created : string) : list_row :=
  {| lr_list_id := "l1"; lr_list_name := "Newsletter";
     lr_member_count := members; lr_unsubscribe_count := unsubscribes;
     lr_open_rate := quarter; lr_click_rate := Z2F 0;
     lr_date_created := date_created; lr_visibility := "private" |}.

(** The cells of the date columns [transform_data] hands to [pd.to_datetime],
    in the order it does. *)
Definition date_columns (raw : raw_data) : list (list pyobj) :=
  match raw with
  | RawLists rows => [series_cells (str_col lr_date_created rows)]
  | RawCampaigns rows => [series_cells (opt_str_col cr_send_time rows)]
  | RawMembers rows => [series_cells (opt_str_col mr_timestamp_signup rows);
                        series_cells (opt_str_col mr_timestamp_opt rows)]
  end.

(** [m] leaves the observation [f] of the world as it was, however it ends. *)
Definition preserves {A X} (f : World -> X) (m : M A) : Prop :=
  forall w r w', m w = (r, w') -> f w' = f w.

(** The file system: the directories and the files. *)
Definition file_system (w : World) : list string * list (string * artifact) :=
  (w_dirs w, w_files w).

Section Cleaning.
Context {ext : Externals}.

(** The country [GA.transform_data] makes of one cell of the report. *)
Definition clean_country (o : pyobj) : pyobj :=
  match o with
  | PyStr v =>
      let name := py_title (py_strip v) in
      PyStr (if name =? "Russian Federation" then "Russia"
             else if name =? "United States" then "USA"
             else name)%string
  | _ => PyNaN
  end.

End Cleaning.

(** The query keys the pipeline uses. *)
Definition query_keys : list string := ["count"; "offset"; "status"; "since_send_time"].

(** A GET on an endpoint of the account's API root, with the headers of the
    pipeline (the API key is in [Authorization]) and no other keys than the
    pipeline's in the query. *)
Definition authenticated_get (self : Mailchimp.MailchimpETL) (r : Request) : Prop :=
  req_headers r = Mailchimp.headers self
  /\ (exists endpoint, req_url r = (Mailchimp.base_url self ++ "/" ++ endpoint)%string)
  /\ Forall (fun p => In (fst p) query_keys)
            (match req_params r with Some ps => ps | None => [] end).

Section Dates.
Context {ext : Externals}.

(** What a date column makes [transform_data] raise: nothing when
    [pd.to_datetime] gives a datetime column; an AttributeError, from the
    [.dt] accessor, when it gives an object column; its ValueError when it
    raises. *)
Definition date_failure (cells : list pyobj) : option exn :=
  match to_datetime cells with
  | Some _ => None
  | None =>
      match to_datetime_object cells with
      | Some _ => Some AttributeError
      | None => Some ValueError
      end
  end.

Fixpoint first_date_failure (columns : list (list pyobj)) : option exn :=
  match columns with
  | [] => None
  | cells :: columns' =>
      match date_failure cells with
      | Some e => Some e
      | None => first_date_failure columns'
      end
  end.

End Dates.

(** A [pd.to_datetime] of pandas 2 on strings with different UTC offsets:
    no datetime column, the cells come back in an object column. *)
Definition mixed_offsets_ext : Externals :=
  {| to_datetime := fun _ => None;
     to_datetime_object := fun cells => Some cells;
     value_counts := sample_value_counts;
     top_countries := sample_top_countries;
     strftime := fun _ => "20240201_120000";
     py_int := fun _ => None;
     py_float := fun _ => None;
     py_strip := fun s => s;
     py_title := fun s => s;
     isdir := fun _ => false |}.

(** * Properties of the float and frame primitives *)

(** ** Rounding never invents a NaN *)

Lemma shr_1_nonneg r : 0 <= shr_m r -> 0 <= shr_m (shr_1 r).
Proof.
  destruct r as [m b s]; simpl. destruct m as [|p|p]; simpl; try lia.
  - destruct p; simpl; lia.
Qed.

Lemma iter_pos_invariant {A} (P : A -> Prop) (f : A -> A) :
  (forall a, P a -> P (f a)) -> forall n a, P a -> P (iter_pos f n a).
Proof.
  intros Hf. induction n; intros a Ha; simpl; auto.
Qed.

Lemma shr_nonneg r e n : 0 <= shr_m r -> 0 <= shr_m (fst (shr r e n)).
Proof.
  intros H. unfold shr. destruct n; simpl; auto.
  apply iter_pos_invariant; auto using shr_1_nonneg.
Qed.

Lemma shr_record_of_loc_m m l : shr_m (shr_record_of_loc m l) = m.
Proof. destruct l as [|[]]; reflexivity. Qed.

Lemma shr_fexp_nonneg m e l : 0 <= m -> 0 <= shr_m (fst (shr_fexp prec emax m e l)).
Proof.
  intros H. unfold shr_fexp. apply shr_nonneg. now rewrite shr_record_of_loc_m.
Qed.

Lemma round_nearest_even_nonneg m l : 0 <= m -> 0 <= round_nearest_even m l.
Proof.
  intros H. destruct l as [|[]]; simpl; try lia. destruct (Z.even m); lia.
Qed.

Lemma binary_round_aux_not_nan s m e l :
  0 <= m -> is_nan (binary_round_aux prec emax s m e l) = false.
Proof.
  intros H. unfold binary_round_aux.
  pose proof (@shr_fexp_nonneg m e l H) as H1.
  destruct (shr_fexp prec emax m e l) as [r1 e1]; simpl in H1.
  pose proof (@round_nearest_even_nonneg _ (loc_of_shr_record r1) H1) as H2.
  pose proof (@shr_fexp_nonneg _ e1 loc_Exact H2) as H3.
  destruct (shr_fexp prec emax _ e1 loc_Exact) as [r2 e2]; simpl in H3.
  destruct (shr_m r2); try lia; try reflexivity.
  destruct (e2 <=? emax - prec); reflexivity.
Qed.

Lemma fmul_finite_not_nan x s m e :
  is_nan x = false -> is_nan (fmul x (S754_finite s m e)) = false.
Proof.
  destruct x; simpl; intros H; try reflexivity; try discriminate.
  apply binary_round_aux_not_nan. lia.
Qed.

Lemma fdiv_finite_not_nan x s m e :
  is_nan x = false -> is_nan (fdiv x (S754_finite s m e)) = false.
Proof.
  destruct x as [sx|sx| |sx mx ex]; simpl; intros H; try reflexivity; try discriminate.
  unfold fdiv, SFdiv, SFdiv_core_binary.
  set (m' := match _ with Z0 => _ | Zpos _ => _ | Zneg _ => _ end).
  assert (Hm' : 0 <= m').
  { subst m'. destruct (ex - e - _); try lia. apply Z.shiftl_nonneg. lia. }
  pose proof (Z_div_mod m' (Zpos m) eq_refl) as Hd.
  destruct (Z.div_eucl m' (Z.pos m)) as [q r].
  apply binary_round_aux_not_nan. nia.
Qed.

(** ** An integer below 2^63 converts to a finite float *)

Lemma digits2_pos_bounds p :
  2 ^ (Zpos (digits2_pos p) - 1) <= Zpos p < 2 ^ Zpos (digits2_pos p).
Proof.
  induction p as [p IH|p IH|]; simpl digits2_pos.
  - rewrite Pos2Z.inj_succ.
    replace (Z.succ (Zpos (digits2_pos p)) - 1) with (Z.succ (Zpos (digits2_pos p) - 1)) by lia.
    rewrite !Z.pow_succ_r by lia. lia.
  - rewrite Pos2Z.inj_succ.
    replace (Z.succ (Zpos (digits2_pos p)) - 1) with (Z.succ (Zpos (digits2_pos p) - 1)) by lia.
    rewrite !Z.pow_succ_r by lia. lia.
  - simpl. lia.
Qed.

Lemma Zdigits2_le m k : 0 < m -> 0 <= k -> m < 2 ^ k -> Zdigits2 m <= k.
Proof.
  intros Hm Hk Hlt. destruct m as [|p|p]; try lia. simpl.
  pose proof (digits2_pos_bounds p) as [Hlo _].
  assert (2 ^ (Zpos (digits2_pos p) - 1) < 2 ^ k) as H by lia.
  apply Z.pow_lt_mono_r_iff in H; lia.
Qed.

Lemma shr_1_div2 r : 0 <= shr_m r -> shr_m (shr_1 r) = shr_m r / 2.
Proof.
  destruct r as [m b s]; simpl. intros H.
  rewrite <- Z.div2_div.
  destruct m as [|p|p]; try lia; try reflexivity.
  destruct p; reflexivity.
Qed.

Lemma iter_shr_1_div n : forall r,
  0 <= shr_m r -> shr_m (iter_pos shr_1 n r) = shr_m r / 2 ^ Zpos n.
Proof.
  induction n as [n IH|n IH|]; intros r Hr; simpl iter_pos.
  - assert (H1 : 0 <= shr_m (shr_1 r)) by now apply shr_1_nonneg.
    assert (H2 : 0 <= shr_m (iter_pos shr_1 n (shr_1 r)))
      by (apply iter_pos_invariant; auto using shr_1_nonneg).
    rewrite IH, IH, shr_1_div2 by assumption.
    rewrite !Z.div_div by lia.
    f_equal. replace (Zpos n~1) with (1 + Zpos n + Zpos n) by lia.
    rewrite !Z.pow_add_r by lia. rewrite Z.pow_1_r. ring.
  - assert (H2 : 0 <= shr_m (iter_pos shr_1 n r))
      by (apply iter_pos_invariant; auto using shr_1_nonneg).
    rewrite IH, IH by assumption.
    rewrite !Z.div_div by lia.
    f_equal. replace (Zpos n~0) with (Zpos n + Zpos n) by lia.
    rewrite !Z.pow_add_r by lia. ring.
  - rewrite shr_1_div2 by assumption. rewrite Z.pow_1_r. reflexivity.
Qed.

(** One normalisation step on a positive mantissa above the subnormal
    range: the mantissa stays positive and does not grow, the exponent grows
    by the digits in excess of the precision. *)
Lemma shr_fexp_pos m e l k :
  0 < m -> - 1074 <= e -> 0 <= k -> m < 2 ^ k ->
  let out := shr_fexp prec emax m e l in
  0 < shr_m (fst out) <= m /\ e <= snd out <= e + k.
Proof.
  intros Hm He Hk Hlt. cbv zeta. unfold shr_fexp, shr.
  pose proof (Zdigits2_le Hm Hk Hlt) as Hd.
  assert (Hd0 : 0 < Zdigits2 m) by (destruct m; simpl; lia).
  unfold fexp, emin, prec, emax.
  destruct (Z.max (Zdigits2 m + e - 53) (3 - 1024 - 53) - e) as [|n|n] eqn:En;
    simpl fst; simpl snd; rewrite ?shr_record_of_loc_m; try lia.
  rewrite iter_shr_1_div by (rewrite shr_record_of_loc_m; lia).
  rewrite shr_record_of_loc_m.
  assert (Hn : Zpos n = Zdigits2 m - 53) by lia.
  split; [|lia].
  assert (Hlo : 2 ^ (Zdigits2 m - 1) <= m).
  { destruct m as [|p|p]; try lia. apply digits2_pos_bounds. }
  split.
  - apply Z.div_str_pos. split; [apply Z.pow_pos_nonneg; lia|].
    eapply Z.le_trans; [|exact Hlo]. apply Z.pow_le_mono_r; lia.
  - apply Z.div_le_upper_bound; [apply Z.pow_pos_nonneg; lia|].
    assert (0 < 2 ^ Zpos n) by (apply Z.pow_pos_nonneg; lia). nia.
Qed.

Lemma round_nearest_even_bounds m l :
  m <= round_nearest_even m l <= m + 1.
Proof.
  destruct l as [|[]]; simpl; try lia. destruct (Z.even m); lia.
Qed.

Lemma binary_round_aux_finite s m e l k :
  0 < m -> - 1074 <= e -> 0 <= k -> m < 2 ^ k -> e + 2 * k + 1 <= 971 ->
  exists m' e', binary_round_aux prec emax s m e l = S754_finite s m' e'.
Proof.
  intros Hm He Hk Hlt Hb. unfold binary_round_aux.
  pose proof (@shr_fexp_pos m e l k Hm He Hk Hlt) as H1. cbv zeta in H1.
  destruct (shr_fexp prec emax m e l) as [r1 e1]; simpl in H1.
  pose proof (round_nearest_even_bounds (shr_m r1) (loc_of_shr_record r1)) as Hr.
  set (mr := round_nearest_even (shr_m r1) (loc_of_shr_record r1)) in *.
  assert (Hmr : mr < 2 ^ (k + 1)) by (rewrite Z.pow_add_r by lia; lia).
  assert (H2 : let out := shr_fexp prec emax mr e1 loc_Exact in
               0 < shr_m (fst out) <= mr /\ e1 <= snd out <= e1 + (k + 1)).
  { apply shr_fexp_pos; lia. }
  cbv zeta in H2.
  destruct (shr_fexp prec emax mr e1 loc_Exact) as [r2 e2]; simpl in H2.
  destruct (shr_m r2) as [|q|q]; try lia.
  replace (e2 <=? emax - prec) with true.
  - eauto.
  - symmetry. apply Z.leb_le. unfold emax, prec. lia.
Qed.

Lemma iter_xO p k : Zpos (Pos.iter xO p k) = Zpos p * 2 ^ Zpos k.
Proof.
  induction k as [|k IH] using Pos.peano_ind.
  - simpl. lia.
  - rewrite Pos.iter_succ, Pos2Z.inj_xO, IH, Pos2Z.inj_succ, Z.pow_succ_r by lia. lia.
Qed.

Lemma Z2F_pos_finite z :
  0 < z < 2 ^ 63 -> exists m e, Z2F z = S754_finite false m e.
Proof.
  intros [Hz Hlt]. destruct z as [|p|p]; try lia.
  unfold Z2F, binary_normalize, binary_round, shl_align.
  pose proof (digits2_pos_bounds p) as [Hlo Hhi].
  assert (Hd : Zpos (digits2_pos p) <= 63).
  { apply (@Zdigits2_le (Zpos p) 63); lia. }
  unfold fexp, emin, prec, emax.
  destruct (Z.max (Zpos (digits2_pos p) + 0 - 53) (3 - 1024 - 53) - 0) as [|n|n] eqn:En.
  - apply binary_round_aux_finite with (k := 63); lia.
  - apply binary_round_aux_finite with (k := 63); lia.
  - assert (Hn : Zpos n = 53 - Zpos (digits2_pos p)) by lia.
    apply binary_round_aux_finite with (k := 53); try lia.
    rewrite iter_xO.
    replace 53 with (Zpos (digits2_pos p) + Zpos n) by lia.
    rewrite Z.pow_add_r by lia.
    apply Z.mul_lt_mono_pos_r; [apply Z.pow_pos_nonneg; lia|lia].
Qed.

Lemma Z2F_not_nan z : is_nan (Z2F z) = false.
Proof.
  unfold Z2F, binary_normalize, binary_round. destruct z as [|p|p]; [reflexivity| |];
    destruct (shl_align _ _ _) as [mz ez]; apply binary_round_aux_not_nan; lia.
Qed.

(** Dividing integers by a positive int64 never gives a NaN. *)
Lemma int_truediv_pos x y :
  0 < y < 2 ^ 63 ->
  int_truediv x y = fdiv (Z2F x) (Z2F y) /\ is_nan (int_truediv x y) = false.
Proof.
  intros Hy. unfold int_truediv.
  destruct (Z.eqb_spec y 0) as [->|_]; [lia|].
  split; [reflexivity|].
  destruct (Z2F_pos_finite Hy) as (m & e & ->).
  apply fdiv_finite_not_nan, Z2F_not_nan.
Qed.

Lemma fmul_100_not_nan x : is_nan x = false -> is_nan (fmul x (Z2F 100)) = false.
Proof.
  intros H. change (Z2F 100) with (S754_finite false 7036874417766400 (-46)).
  now apply fmul_finite_not_nan.
Qed.

(** Dividing a number by a positive int64 is the float quotient, not a NaN. *)
Lemma float_int_truediv_pos x y :
  0 < y < 2 ^ 63 -> is_nan x = false ->
  float_int_truediv x y = fdiv x (Z2F y) /\ is_nan (float_int_truediv x y) = false.
Proof.
  intros Hy Hx. unfold float_int_truediv.
  destruct (Z.eqb_spec y 0) as [->|_]; [lia|].
  split; [reflexivity|].
  destruct (Z2F_pos_finite Hy) as (m & e & ->).
  now apply fdiv_finite_not_nan.
Qed.

Lemma float_int_truediv_zero_zero x :
  SFeqb x (Z2F 0) = true -> float_int_truediv x 0 = nan.
Proof.
  unfold float_int_truediv, SFeqb. simpl (0 =? 0).
  destruct (SFcompare x (Z2F 0)) as [[]|]; try discriminate. reflexivity.
Qed.

(** ** Comparisons against the bin edges of [pd.cut] *)

Lemma SFcompare_antisym x y :
  SFcompare y x = option_map CompOpp (SFcompare x y).
Proof.
  destruct x as [sx|sx| |sx mx ex], y as [sy|sy| |sy my ey]; simpl;
    try reflexivity;
    try (destruct sx; reflexivity); try (destruct sy; reflexivity);
    try (destruct sx, sy; reflexivity).
  destruct sx, sy; simpl; try reflexivity;
    rewrite (Z.compare_antisym ex ey);
    destruct (ex ?= ey); simpl; try reflexivity;
    rewrite (Pos.compare_cont_antisym mx my Eq); reflexivity.
Qed.

Lemma fltb_negb_fleb x y :
  is_nan x = false -> is_nan y = false -> fltb y x = negb (fleb x y).
Proof.
  intros Hx Hy. unfold fltb, fleb, SFltb, SFleb.
  rewrite (SFcompare_antisym x y).
  destruct (SFcompare x y) as [[]|] eqn:E; simpl; try reflexivity.
  destruct x, y; simpl in *; try discriminate;
    repeat match goal with b : bool |- _ => destruct b end; discriminate.
Qed.

(** A float above a positive finite edge is above every smaller edge. *)
Lemma fltb_edge_mono m1 e1 m2 e2 x :
  (e1 < e2 \/ (e1 = e2 /\ (m1 < m2)%positive)) ->
  fltb (S754_finite false m2 e2) x = true ->
  fltb (S754_finite false m1 e1) x = true.
Proof.
  intros Hlt. unfold fltb, SFltb.
  destruct x as [s|s| |s m e]; simpl; try (destruct s; discriminate || reflexivity);
    try discriminate.
  destruct s; try discriminate.
  destruct (Z.compare_spec e2 e) as [He|He|He]; try discriminate.
  - subst e. destruct Hlt as [Hlt|[-> Hlt]].
    + intros _. destruct (Z.compare_spec e1 e2); try lia; reflexivity.
    + rewrite Z.compare_refl.
      rewrite !Pos.compare_cont_spec. simpl.
      destruct (Pos.compare_spec m2 m) as [H|H|H]; try discriminate.
      intros _. destruct (Pos.compare_spec m1 m); try lia; reflexivity.
  - intros _. destruct (Z.compare_spec e1 e); try lia; reflexivity.
Qed.

Lemma fltb_zero_of_edge m e x :
  fltb (S754_finite false m e) x = true -> fltb (Z2F 0) x = true.
Proof.
  unfold fltb, SFltb. destruct x as [s|s| |s m' e']; simpl;
    try discriminate; try (destruct s; discriminate || reflexivity).
Qed.

(** ** Dicts, frames and the monad *)

Lemma assoc_set_same {A} k (v : A) l : assoc k (assoc_set k v l) = Some v.
Proof.
  induction l as [|[k' v'] l IH]; simpl.
  - now rewrite String.eqb_refl.
  - destruct (String.eqb k k') eqn:E; simpl; rewrite ?String.eqb_refl, ?E; auto.
Qed.

Lemma assoc_set_other {A} k k' (v : A) l :
  k <> k' -> assoc k (assoc_set k' v l) = assoc k l.
Proof.
  intros Hne. induction l as [|[k0 v0] l IH]; simpl.
  - destruct (String.eqb_spec k k'); congruence.
  - destruct (String.eqb_spec k' k0); simpl.
    + subst k0. destruct (String.eqb_spec k k'); congruence.
    + destruct (String.eqb_spec k k0); auto.
Qed.

Lemma df_get_set_same df k s : df_get (df_set df k s) k = Ok s.
Proof. unfold df_get, df_set; simpl. now rewrite assoc_set_same. Qed.

Lemma df_get_set_other df k k' s :
  k <> k' -> df_get (df_set df k' s) k = df_get df k.
Proof. intros H. unfold df_get, df_set; simpl. now rewrite assoc_set_other. Qed.

Lemma df_has_set_other df k k' s :
  k <> k' -> df_has (df_set df k' s) k = df_has df k.
Proof. intros H. unfold df_has, has_key, df_set; simpl. now rewrite assoc_set_other. Qed.

Lemma df_has_get df k : df_has df k = true -> exists s, df_get df k = Ok s.
Proof.
  unfold df_has, has_key, df_get. destruct (assoc k (df_cols df)); eauto; discriminate.
Qed.

Lemma map2_map {A B C D} (f : B -> C -> D) (g : A -> B) (h : A -> C) l :
  map2 f (map g l) (map h l) = map (fun a => f (g a) (h a)) l.
Proof. induction l; simpl; congruence. Qed.

Lemma nth_error_map2 {A B C} (f : A -> B -> C) xs ys i x y :
  nth_error xs i = Some x -> nth_error ys i = Some y ->
  nth_error (map2 f xs ys) i = Some (f x y).
Proof.
  revert ys i. induction xs as [|x0 xs IH]; intros [|y0 ys] [|i]; simpl;
    try discriminate; intros Hx Hy.
  - congruence.
  - now apply IH.
Qed.

Lemma bind_ok {A B} (m : M A) (f : A -> M B) w b w' :
  bind m f w = (Ok b, w') ->
  exists a w1, m w = (Ok a, w1) /\ f a w1 = (Ok b, w').
Proof.
  unfold bind. destruct (m w) as [[a|e] w1]; intros H; try discriminate. eauto.
Qed.

Lemma reraising_ok {A} c h (m : M A) w a w' :
  reraising c h m w = (Ok a, w') -> m w = (Ok a, w').
Proof.
  unfold reraising. destruct (m w) as [[a0|e] w1]; intros H.
  - exact H.
  - destruct (c e); [destruct (h e w1) as [[]]|]; discriminate.
Qed.

Lemma lift_ok {A} (r : result A) w a w' :
  lift r w = (Ok a, w') -> r = Ok a /\ w' = w.
Proof. unfold lift. intros H. inversion H. auto. Qed.

Lemma rbind_ok {A B} (r : result A) (f : A -> result B) b :
  rbind r f = Ok b -> exists a, r = Ok a /\ f a = Ok b.
Proof. destruct r; simpl; intros H; try discriminate. eauto. Qed.

(** ** Strings: cancelling a common prefix or suffix *)

Lemma length_append_string (s t : string) :
  String.length (s ++ t)%string = (String.length s + String.length t)%nat.
Proof. induction s as [|c s IH]; simpl; congruence. Qed.

Lemma append_cancel_l (p s t : string) : (p ++ s = p ++ t)%string -> s = t.
Proof.
  induction p as [|c p IH]; simpl; intros H; [exact H|].
  injection H as H. auto.
Qed.

Lemma append_cancel_r (q : string) : forall s t : string, (s ++ q = t ++ q)%string -> s = t.
Proof.
  induction s as [|c s IH]; intros [|d t] H; simpl in H.
  - reflexivity.
  - apply (f_equal String.length) in H. simpl in H.
    rewrite length_append_string in H. lia.
  - apply (f_equal String.length) in H. simpl in H.
    rewrite length_append_string in H. lia.
  - injection H as -> H. f_equal. auto.
Qed.

(** ** The Mailchimp transform, branch by branch *)

Section MailchimpTransform.
Context {ext : Externals}.
Import Mailchimp.

Ltac inv_rbind H :=
  repeat match type of H with
         | rbind _ _ = Ok _ =>
             let a := fresh "a" in let Ha := fresh "Ha" in
             apply rbind_ok in H; destruct H as (a & Ha & H)
         end.

Lemma normalize_datetime_other df col df' :
  normalize_datetime df col = Ok df' ->
  df_len df' = df_len df
  /\ forall k, k <> col -> df_get df' k = df_get df k.
Proof.
  unfold normalize_datetime. intros H. inv_rbind H.
  destruct a2.
  - inv_rbind H. inversion H; subst df'. split; [reflexivity|].
    intros k Hk. now rewrite !df_get_set_other.
  - inversion H; subst df'. split; [reflexivity|].
    intros k Hk. now rewrite !df_get_set_other.
Qed.

(** The campaigns branch: the two derived columns, from the columns they
    are computed from. *)
Lemma transform_campaigns_spec df df' uo uc es rates :
  transform_campaigns df = Ok df' ->
  df_get df "unique_opens" = Ok (Int64 uo) ->
  df_get df "unique_clicks" = Ok (Int64 uc) ->
  df_get df "emails_sent" = Ok (Int64 es) ->
  df_get df "open_rate" = Ok (Float64 rates) ->
  df_get df' "engagement_rate"
  = Ok (Float64 (map (fun x => if is_nan x then Z2F 0 else x)
                   (map (fun x => fmul x (Z2F 100))
                      (map2 int_truediv (map2 (fun x y => wrap64 (x + y)) uo uc) es))))
  /\ df_get df' "performance_category"
     = Ok (Category (map (cut_value (map Z2F performance_bins) performance_labels)
                       (map (fun x => fmul x (Z2F 100)) rates)))
  /\ df_len df' = df_len df.
Proof.
  unfold transform_campaigns. intros H Huo Huc Hes Hor.
  apply rbind_ok in H. destruct H as (df1 & Hpre & H).
  assert (Hkeep : df_len df1 = df_len df /\
                  forall k, k <> "send_time" -> k <> "send_date" -> k <> "send_hour" ->
                            df_get df1 k = df_get df k).
  { destruct (df_has df "send_time").
    - inv_rbind Hpre. inversion Hpre; subst df1.
      apply normalize_datetime_other in Ha. destruct Ha as [Hl Hk].
      split; [exact Hl|]. intros k H1 H2 H3.
      rewrite !df_get_set_other by assumption. now apply Hk.
    - inversion Hpre; subst df1. auto. }
  destruct Hkeep as [Hlen Hkeep]. cbv beta in H.
  rewrite (Hkeep "unique_opens"), Huo in H by discriminate. cbn [rbind] in H.
  rewrite (Hkeep "unique_clicks"), Huc in H by discriminate.
  cbn [rbind series_add] in H.
  rewrite (Hkeep "emails_sent"), Hes in H by discriminate.
  cbn [rbind series_truediv series_mul_int] in H.
  rewrite df_get_set_same in H. cbn [rbind] in H.
  rewrite !df_get_set_other in H by discriminate.
  rewrite (Hkeep "open_rate"), Hor in H by discriminate.
  cbn [rbind series_mul_int pd_cut fillna_zero] in H.
  inversion H; subst df'. clear H.
  repeat split.
  - rewrite df_get_set_other by discriminate. now rewrite df_get_set_same.
  - now rewrite df_get_set_same.
  - exact Hlen.
Qed.

(** What [transform_data] does after the branch of its data type. *)
Lemma transform_data_ok self data_type raw w df w' :
  transform_data self data_type raw w = (Ok df, w') ->
  df_empty (DataFrame_of raw) = false ->
  exists df1 w1,
    (if data_type =? "campaigns" then lift (transform_campaigns (DataFrame_of raw))
     else if data_type =? "members" then transform_members (DataFrame_of raw)
     else if data_type =? "lists" then lift (transform_lists (DataFrame_of raw))
     else ret (DataFrame_of raw))%string w = (Ok df1, w1)
    /\ df = df_set (df_set df1 "extracted_at"
                      (Datetime64 false (repeat (Some (w_clock w1 (w_ticks w1))) (df_len df1))))
                   "data_source" (Object (repeat (PyStr "mailchimp") (df_len df1)))
    /\ w' = add_log (tick w1) INFO (MsgTransformed data_type (df_len df1)).
Proof.
  unfold transform_data. intros H Hne. apply reraising_ok in H.
  rewrite Hne in H.
  apply bind_ok in H. destruct H as (df1 & w1 & Hbranch & H).
  exists df1, w1. split; [exact Hbranch|].
  unfold bind, now, log, ret in H. simpl in H. inversion H. auto.
Qed.

Lemma transform_data_campaigns self rows w df w' :
  transform_data self "campaigns" (RawCampaigns rows) w = (Ok df, w') ->
  rows <> [] ->
  df_get df "engagement_rate" = Ok (Float64 (map engagement_rate_of rows))
  /\ df_get df "performance_category"
     = Ok (Category (map performance_category_of rows)).
Proof.
  intros H Hne. destruct rows as [|r rows]; [congruence|].
  apply transform_data_ok in H; [|reflexivity].
  destruct H as (df1 & w1 & Hbranch & -> & _).
  change ("campaigns" =? "campaigns")%string with true in Hbranch.
  apply lift_ok in Hbranch. destruct Hbranch as [Hbranch _].
  eapply transform_campaigns_spec in Hbranch;
    [|reflexivity|reflexivity|reflexivity|reflexivity].
  destruct Hbranch as (He & Hc & _).
  rewrite !df_get_set_other by discriminate.
  rewrite He, Hc. split.
  - rewrite map2_map, (map2_map int_truediv), !map_map. reflexivity.
  - rewrite !map_map. reflexivity.
Qed.

Lemma df_has_of_get df k s : df_get df k = Ok s -> df_has df k = true.
Proof.
  unfold df_get, df_has, has_key. destruct (assoc k (df_cols df)); [reflexivity|discriminate].
Qed.

Lemma normalize_datetime_cols_other cols : forall df df',
  normalize_datetime_cols df cols = Ok df' ->
  df_len df' = df_len df
  /\ forall k, ~ In k cols -> df_get df' k = df_get df k.
Proof.
  induction cols as [|col cols IH]; simpl; intros df df' H.
  - inversion H. auto.
  - apply rbind_ok in H. destruct H as (df1 & H1 & H).
    apply IH in H. destruct H as [Hl Hk].
    assert (H1' : df_len df1 = df_len df /\
                  forall k, k <> col -> df_get df1 k = df_get df k).
    { destruct (df_has df col).
      - now apply normalize_datetime_other.
      - inversion H1. auto. }
    destruct H1' as [Hl1 Hk1]. split; [congruence|].
    intros k Hnot. rewrite Hk by tauto. apply Hk1. intros ->. tauto.
Qed.
End MailchimpTransform.

(** ** C1: a 429 answer *)

Section RateLimit.
Context {ext : Externals}.

Import Mailchimp.

Lemma make_request_200 self endpoint params b rest w d :
  _make_request (S d) self endpoint params (set_http w (ok_response b :: rest))
  = (Ok b,
     set_http
       (add_request (set_http w (ok_response b :: rest))
          {| req_url := (base_url self ++ "/" ++ endpoint)%string;
             req_headers := headers self; req_params := params |})
       rest).
Proof. reflexivity. Qed.

(** C1. A 429 answer never reaches the retry: [raise_for_status] turns it
    into an HTTPError first, which is logged and raised again; nothing sleeps
    and the 200 answer that would follow is never asked for. *)
Theorem make_request_429_surfaces :
  forall self endpoint params payload b rest w d,
    let w0 := set_http w (too_many_requests payload :: ok_response b :: rest) in
    let out := _make_request (S d) self endpoint params w0 in
    fst out = Raise (HTTPError 429)
    /\ w_sleeps (snd out) = w_sleeps w
    /\ w_requests (snd out)
       = w_requests w ++ [ {| req_url := (base_url self ++ "/" ++ endpoint)%string;
                              req_headers := headers self; req_params := params |} ]
    /\ w_http (snd out) = ok_response b :: rest
    /\ w_log (snd out) = w_log w ++ [(ERROR, MsgRequestFailed (HTTPError 429))]
    /\ fst out <> fst (_make_request (S d) self endpoint params
                         (set_http w (ok_response b :: rest))).
Proof.
  intros. subst out w0. cbn. repeat split; discriminate.
Qed.

End RateLimit.

(** ** C2: the performance buckets *)

Section PerformanceCategory.
Context {ext : Externals}.
Import Mailchimp.

Lemma cut_performance x :
  cut_value (map Z2F performance_bins) performance_labels x =
  if is_nan x then None
  else if fltb edge0 x then
         if fltb edge15 x then
           if fltb edge25 x then
             if fltb edge35 x then
               if fltb edge100 x then None else Some "Excellent"
             else Some "High"
           else Some "Medium"
         else Some "Low"
       else None.
Proof.
  unfold cut_value, performance_bins, performance_labels.
  change (map Z2F [0; 15; 25; 35; 100]) with [edge0; edge15; edge25; edge35; edge100].
  cbn [searchsorted_left length].
  destruct (is_nan x); [reflexivity|].
  destruct (fltb edge0 x); [|reflexivity].
  destruct (fltb edge15 x); [|reflexivity].
  destruct (fltb edge25 x); [|reflexivity].
  destruct (fltb edge35 x); [|reflexivity].
  destruct (fltb edge100 x); reflexivity.
Qed.

Lemma edges_mono x :
  (fltb edge100 x = true -> fltb edge35 x = true)
  /\ (fltb edge35 x = true -> fltb edge25 x = true)
  /\ (fltb edge25 x = true -> fltb edge15 x = true)
  /\ (fltb edge15 x = true -> fltb edge0 x = true).
Proof.
  repeat split.
  - apply fltb_edge_mono. vm_compute. left; reflexivity.
  - apply fltb_edge_mono. vm_compute. left; reflexivity.
  - apply fltb_edge_mono. vm_compute. left; reflexivity.
  - apply fltb_zero_of_edge.
Qed.

Lemma fleb_negb_fltb x e :
  is_nan x = false -> is_nan e = false -> fleb x e = negb (fltb e x).
Proof.
  intros Hx He. rewrite (@fltb_negb_fleb x e Hx He). now rewrite negb_involutive.
Qed.

Lemma nan_compares_false x e :
  is_nan x = true -> fltb e x = false /\ fleb x e = false.
Proof.
  destruct x; try discriminate. intros _. split; [destruct e|]; reflexivity.
Qed.

(** C2 (amended). Each bucket is closed on the right, as [pd.cut] makes it by
    default: Low is (0,15], Medium (15,25], High (25,35], Excellent (35,100];
    a value outside (0,100] has no category. *)
Theorem performance_category_right_closed :
  forall self rows w df w' i r,
    transform_data self "campaigns" (RawCampaigns rows) w = (Ok df, w') ->
    nth_error rows i = Some r ->
    exists cats c,
      df_get df "performance_category" = Ok (Category cats)
      /\ nth_error cats i = Some c
      /\ let x := fmul (cr_open_rate r) (Z2F 100) in
         (c = Some "Low" <-> fltb (Z2F 0) x = true /\ fleb x (Z2F 15) = true)
         /\ (c = Some "Medium" <-> fltb (Z2F 15) x = true /\ fleb x (Z2F 25) = true)
         /\ (c = Some "High" <-> fltb (Z2F 25) x = true /\ fleb x (Z2F 35) = true)
         /\ (c = Some "Excellent"
             <-> fltb (Z2F 35) x = true /\ fleb x (Z2F 100) = true)
         /\ (c = None <-> fltb (Z2F 0) x = false \/ fleb x (Z2F 100) = false).
Proof.
  intros self rows w df w' i r H Hi.
  destruct (@transform_data_campaigns _ self rows w df w' H) as [_ Hc].
  { intros ->. destruct i; discriminate. }
  exists (map performance_category_of rows), (performance_category_of r).
  split; [exact Hc|]. split; [now apply map_nth_error|].
  unfold performance_category_of. rewrite cut_performance. cbv zeta.
  set (x := fmul (cr_open_rate r) (Z2F 100)).
  change (Z2F 0) with edge0. change (Z2F 15) with edge15.
  change (Z2F 25) with edge25. change (Z2F 35) with edge35.
  change (Z2F 100) with edge100.
  pose proof (edges_mono x) as (M1 & M2 & M3 & M4).
  destruct (is_nan x) eqn:Hn.
  - destruct (@nan_compares_false x edge0 Hn) as [L0 R0].
    destruct (@nan_compares_false x edge15 Hn) as [L15 R15].
    destruct (@nan_compares_false x edge25 Hn) as [L25 R25].
    destruct (@nan_compares_false x edge35 Hn) as [L35 R35].
    destruct (@nan_compares_false x edge100 Hn) as [L100 R100].
    rewrite L0, L15, L25, L35, R15, R25, R35, R100.
    repeat split; intros; intuition (try discriminate; auto).
  - rewrite !(fun e => @fleb_negb_fltb x e Hn) by reflexivity.
    destruct (fltb edge0 x), (fltb edge15 x), (fltb edge25 x), (fltb edge35 x),
      (fltb edge100 x); simpl;
      try (specialize (M1 eq_refl)); try (specialize (M2 eq_refl));
      try (specialize (M3 eq_refl)); try (specialize (M4 eq_refl));
      try discriminate;
      repeat split; intros; intuition (try discriminate; auto).
Qed.
End PerformanceCategory.

(** C2 as stated fails at an open rate of 0.25: 0.25 * 100 is 25, which the
    stated buckets put in High ([25,35)) and the pipeline in Medium. *)
Lemma performance_category_at_25 :
  rbind (fst (Mailchimp.transform_data (ext := sample_ext) sample_self "campaigns"
                (RawCampaigns [sample_campaign 200 50 10 quarter]) (sample_world [])))
        (fun df => df_get df "performance_category")
  = Ok (Category [Some "Medium"])
  /\ fmul quarter (Z2F 100) = Z2F 25
  /\ stated_category (fmul quarter (Z2F 100)) = Some "High".
Proof. vm_compute. repeat split; reflexivity. Qed.

Lemma performance_category_right_closed_witness :
  let row := sample_campaign 200 50 10 quarter in
  exists df w',
    Mailchimp.transform_data (ext := sample_ext) sample_self "campaigns"
      (RawCampaigns [row]) (sample_world []) = (Ok df, w')
    /\ nth_error [row] 0 = Some row
    /\ exists cats c,
         df_get df "performance_category" = Ok (Category cats)
         /\ nth_error cats 0 = Some c
         /\ (c = Some "Medium"
             <-> fltb (Z2F 15) (fmul quarter (Z2F 100)) = true
                 /\ fleb (fmul quarter (Z2F 100)) (Z2F 25) = true).
Proof.
  intros row.
  set (out := Mailchimp.transform_data (ext := sample_ext) sample_self "campaigns"
                (RawCampaigns [row]) (sample_world [])).
  assert (Hrun : out = (Ok (match fst out with Ok d => d | Raise _ => empty_frame end),
                        snd out)) by (vm_compute; reflexivity).
  exists (match fst out with Ok d => d | Raise _ => empty_frame end), (snd out).
  split; [exact Hrun|]. split; [reflexivity|].
  destruct (@performance_category_right_closed sample_ext sample_self [row]
              (sample_world []) _ _ 0%nat row Hrun eq_refl)
    as (cats & c & Hc & Hn & Hb).
  exists cats, c. split; [exact Hc|]. split; [exact Hn|].
  cbv zeta in Hb. apply Hb.
Defined.

(** ** C3: the engagement rate *)

Section EngagementRate.
Context {ext : Externals}.
Import Mailchimp.

(** C3. The engagement rate of a row: the float quotient times 100 when
    something was sent; 0 for 0/0, which [fillna(0)] catches; but a signed
    infinity, not 0, for a nonzero numerator over zero e-mails sent: numpy's
    n/0 is inf, and [fillna] only replaces nan. *)
Theorem engagement_rate_by_cases :
  forall self rows w df w' i r,
    transform_data self "campaigns" (RawCampaigns rows) w = (Ok df, w') ->
    nth_error rows i = Some r ->
    exists rates rate,
      df_get df "engagement_rate" = Ok (Float64 rates)
      /\ nth_error rates i = Some rate
      /\ let total := wrap64 (cr_unique_opens r + cr_unique_clicks r) in
         let sent := cr_emails_sent r in
         (0 < sent < 2 ^ 63 -> rate = fmul (fdiv (Z2F total) (Z2F sent)) (Z2F 100))
         /\ (sent = 0 -> total = 0 -> rate = Z2F 0)
         /\ (sent = 0 -> 0 < total -> rate = pos_inf)
         /\ (sent = 0 -> total < 0 -> rate = neg_inf).
Proof.
  intros self rows w df w' i r H Hi.
  destruct (@transform_data_campaigns _ self rows w df w' H) as [He _].
  { intros ->. destruct i; discriminate. }
  exists (map engagement_rate_of rows), (engagement_rate_of r).
  split; [exact He|]. split; [now apply map_nth_error|].
  unfold engagement_rate_of. cbv zeta.
  set (total := wrap64 (cr_unique_opens r + cr_unique_clicks r)).
  repeat split.
  - intros Hs. destruct (@int_truediv_pos total (cr_emails_sent r) Hs) as [Heq Hn].
    rewrite (fmul_100_not_nan _ Hn). now rewrite Heq.
  - intros -> ->. reflexivity.
  - intros -> Ht. unfold int_truediv. simpl (0 =? 0).
    destruct (Z.eqb_spec total 0); [lia|].
    destruct (Z.ltb_spec 0 total); [reflexivity|lia].
  - intros -> Ht. unfold int_truediv. simpl (0 =? 0).
    destruct (Z.eqb_spec total 0); [lia|].
    destruct (Z.ltb_spec 0 total); [lia|reflexivity].
Qed.

End EngagementRate.

(** At zero e-mails sent and four unique interactions the rate is +inf. *)
Lemma engagement_rate_by_cases_witness :
  let row := sample_campaign 0 3 1 quarter in
  exists df w',
    Mailchimp.transform_data (ext := sample_ext) sample_self "campaigns"
      (RawCampaigns [row]) (sample_world []) = (Ok df, w')
    /\ nth_error [row] 0 = Some row
    /\ cr_emails_sent row = 0
    /\ 0 < wrap64 (cr_unique_opens row + cr_unique_clicks row)
    /\ exists rates, df_get df "engagement_rate" = Ok (Float64 rates)
                     /\ nth_error rates 0 = Some pos_inf.
Proof.
  intros row.
  set (out := Mailchimp.transform_data (ext := sample_ext) sample_self "campaigns"
                (RawCampaigns [row]) (sample_world [])).
  assert (Hrun : out = (Ok (match fst out with Ok d => d | Raise _ => empty_frame end),
                        snd out)) by (vm_compute; reflexivity).
  exists (match fst out with Ok d => d | Raise _ => empty_frame end), (snd out).
  split; [exact Hrun|]. split; [reflexivity|]. split; [reflexivity|].
  split; [reflexivity|].
  destruct (@engagement_rate_by_cases sample_ext sample_self [row]
              (sample_world []) _ _ 0%nat row Hrun eq_refl)
    as (rates & rate & Hc & Hn & _ & _ & Hinf & _).
  exists rates. split; [exact Hc|].
  rewrite Hn. f_equal. apply Hinf; reflexivity.
Defined.

(** ** C4: pagination *)

Section Pagination.
Context {ext : Externals}.
Import Mailchimp.

Lemma make_request_ok self endpoint params w b rest d :
  w_http w = ok_response b :: rest ->
  _make_request (S d) self endpoint params w
  = (Ok b, set_http (add_request w (request_of self endpoint params)) rest).
Proof.
  intros H. cbn [_make_request]. unfold reraising, bind, requests_get.
  rewrite H. reflexivity.
Qed.

(** A request that returns has used up at least one scripted answer. *)
Lemma make_request_consumes d : forall self endpoint params w b w1,
  _make_request d self endpoint params w = (Ok b, w1) ->
  (length (w_http w1) < length (w_http w))%nat.
Proof.
  induction d as [|d IH]; intros self endpoint params w b w1 H; [discriminate|].
  cbn [_make_request] in H. apply reraising_ok in H.
  apply bind_ok in H. destruct H as (r & w2 & Hget & H).
  unfold requests_get in Hget.
  destruct (w_http w) as [|r0 rest] eqn:Hw; [discriminate|].
  injection Hget as <- <-.
  apply bind_ok in H. destruct H as ([] & w3 & Hst & H).
  unfold raise_for_status in Hst.
  destruct ((400 <=? status_code r0) && (status_code r0 <? 600)); [discriminate|].
  injection Hst as <-.
  destruct (status_code r0 =? 429).
  - apply bind_ok in H. destruct H as ([] & w4 & Hlog & H).
    injection Hlog as <-.
    apply bind_ok in H. destruct H as ([] & w5 & Hsl & H).
    injection Hsl as <-.
    apply IH in H. simpl in *. lia.
  - unfold response_json in H. destruct (json_body r0); [|discriminate].
    injection H as _ <-. simpl. lia.
Qed.

(** The loop never runs out of a fuel above the number of answers left. *)
Lemma members_loop_fuel fuel : forall self list_id status count offset acc w,
  (length (w_http w) < fuel)%nat ->
  members_loop fuel self list_id status count offset acc w <> None.
Proof.
  induction fuel as [|fuel IH]; intros self list_id status count offset acc w Hf; [lia|].
  cbn [members_loop].
  destruct (_make_request recursion_limit self (members_endpoint list_id)
              (members_params count offset status) w) as [[b|e] w1] eqn:Hreq;
    [|discriminate].
  apply make_request_consumes in Hreq.
  destruct (get_members b); [discriminate|].
  apply IH. simpl. lia.
Qed.

Lemma members_loop_pages pages : forall fuel self list_id status count offset acc w last rest,
  Forall (fun p => p <> []) pages ->
  get_members last = [] ->
  w_http w = map page_response pages ++ ok_response last :: rest ->
  (length pages < fuel)%nat ->
  exists w',
    members_loop fuel self list_id status count offset acc w
    = Some (Ok (acc ++ map (member_row_of list_id) (concat pages)), w')
    /\ w_http w' = rest
    /\ w_requests w'
       = w_requests w ++ page_requests self list_id status count offset (S (length pages))
    /\ w_sleeps w' = w_sleeps w ++ repeat 100 (length pages)
    /\ w_log w' = w_log w.
Proof.
  induction pages as [|p pages IH];
    intros fuel self list_id status count offset acc w last rest Hne Hlast Hw Hf.
  - destruct fuel as [|fuel]; [simpl in Hf; lia|].
    cbn [members_loop]. unfold recursion_limit.
    rewrite (@make_request_ok self _ _ w last rest _ Hw), Hlast.
    eexists. split; [simpl; rewrite app_nil_r; reflexivity|].
    simpl. rewrite !app_nil_r. auto.
  - destruct fuel as [|fuel]; [simpl in Hf; lia|].
    inversion Hne as [|? ? Hp Hps]; subst.
    destruct p as [|m p]; [congruence|].
    cbn [map app] in Hw. fold (@app Response) in Hw.
    cbn [members_loop]. unfold recursion_limit.
    rewrite (@make_request_ok self _ _ w (MembersBody (m :: p))
               (map page_response pages ++ ok_response last :: rest) _ Hw).
    cbn [get_members sleep].
    assert (Hf' : (length pages < fuel)%nat) by (simpl in Hf; lia).
    destruct (IH fuel self list_id status count (offset + count)
                (acc ++ map (member_row_of list_id) (m :: p))
                (add_sleep
                   (set_http
                      (add_request w
                         (request_of self (members_endpoint list_id)
                            (members_params count offset status)))
                      (map page_response pages ++ ok_response last :: rest)) 100)
                last rest Hps Hlast eq_refl Hf')
      as (w' & Hrun & H1 & H2 & H3 & H4).
    exists w'. rewrite Hrun. split.
    { cbn [concat]. rewrite map_app, app_assoc. reflexivity. }
    split; [exact H1|]. split.
    { rewrite H2. simpl. rewrite <- app_assoc. reflexivity. }
    split.
    { rewrite H3. simpl. rewrite <- app_assoc. reflexivity. }
    exact H4.
Qed.

Lemma length_concat_sum {A} (ls : list (list A)) :
  length (concat ls) = fold_right Nat.add 0%nat (map (@length A) ls).
Proof. induction ls as [|l ls IH]; simpl; [reflexivity|]. now rewrite length_app, IH. Qed.

Lemma page_requests_length self list_id status count offset n :
  length (page_requests self list_id status count offset n) = n.
Proof. revert offset. induction n; intros offset; simpl; auto. Qed.

(** C4. When the source serves non-empty pages and then an empty one,
    [extract_members] returns, with the rows of all pages in order, after
    one request per page (the empty one included) at offsets 0, 1000,
    2000, ...; pages of sizes 1000, 1000, 437, 0 give 2437 rows for 4
    requests. *)
Theorem extract_members_concatenates_pages :
  forall self list_id status pages last rest w,
    Forall (fun p => p <> []) pages ->
    get_members last = [] ->
    w_http w = map page_response pages ++ ok_response last :: rest ->
    let out := extract_members self list_id status w in
    fst out = Ok (map (member_row_of list_id) (concat pages))
    /\ w_http (snd out) = rest
    /\ w_requests (snd out)
       = w_requests w ++ page_requests self list_id status 1000 0 (S (length pages))
    /\ w_sleeps (snd out) = w_sleeps w ++ repeat 100 (length pages)
    /\ (map (@length member_item) pages = [1000; 1000; 437]%nat ->
        exists rows,
          fst out = Ok rows
          /\ length rows = 2437%nat
          /\ length (w_requests (snd out)) = (length (w_requests w) + 4)%nat).
Proof.
  intros self list_id status pages last rest w Hne Hlast Hw out.
  assert (Hmain :
    fst out = Ok (map (member_row_of list_id) (concat pages))
    /\ w_http (snd out) = rest
    /\ w_requests (snd out)
       = w_requests w ++ page_requests self list_id status 1000 0 (S (length pages))
    /\ w_sleeps (snd out) = w_sleeps w ++ repeat 100 (length pages)).
  { subst out. unfold extract_members, reraising, bind, log, members_while.
    cbn [w_http add_log].
    destruct (@members_loop_pages pages (S (length (w_http w))) self list_id status
                1000 0 [] (add_log w INFO (MsgExtractingMembers list_id)) last rest
                Hne Hlast Hw) as (w' & Hrun & H1 & H2 & H3 & H4).
    { rewrite Hw, length_app, length_map. simpl. lia. }
    rewrite Hrun. simpl. auto. }
  destruct Hmain as (Hres & Hhttp & Hreq & Hsl).
  repeat split; try assumption.
  intros Hsizes. eexists. split; [exact Hres|]. split.
  - rewrite length_map, length_concat_sum, Hsizes. reflexivity.
  - rewrite Hreq, length_app, page_requests_length.
    apply (f_equal (@length nat)) in Hsizes. rewrite length_map in Hsizes.
    rewrite Hsizes. reflexivity.
Qed.
End Pagination.

Lemma extract_members_concatenates_pages_witness :
  let m := sample_member "m" (Some "UA") in
  let pages := [repeat m 1000; repeat m 1000; repeat m 437] in
  let w := sample_world (map page_response pages ++ [ok_response (MembersBody [])]) in
  let out := Mailchimp.extract_members sample_self "l1" "subscribed" w in
  Forall (fun p => p <> []) pages
  /\ map (@length member_item) pages = [1000; 1000; 437]%nat
  /\ exists rows, fst out = Ok rows
                  /\ length rows = 2437%nat
                  /\ length (w_requests (snd out)) = 4%nat
                  /\ w_http (snd out) = [].
Proof.
  intros m pages w out.
  assert (Hne : Forall (fun p => p <> []) pages)
    by (repeat constructor; discriminate).
  assert (Hsizes : map (@length member_item) pages = [1000; 1000; 437]%nat)
    by (vm_compute; reflexivity).
  split; [exact Hne|]. split; [exact Hsizes|].
  destruct (@extract_members_concatenates_pages sample_self "l1" "subscribed"
              pages (MembersBody []) [] w Hne eq_refl eq_refl)
    as (_ & Hhttp & _ & _ & Hsz).
  destruct (Hsz Hsizes) as (rows & Hrows & Hlen & Hreq).
  exists rows. repeat split; assumption.
Defined.

(** ** C5: the average engagement duration *)

Section AvgEngagement.
Context {ext : Externals}.
Import GA.

Lemma df_has_of_get_eq a b k : df_get a k = df_get b k -> df_has a k = df_has b k.
Proof.
  unfold df_get, df_has, has_key.
  destruct (assoc k (df_cols a)), (assoc k (df_cols b)); intros H;
    try reflexivity; discriminate.
Qed.

(** The date and country steps leave every other column alone. *)
Lemma date_step_other df df1 :
  (if df_has df "date" then
     rbind (df_get df "date") (fun s =>
     rbind (to_datetime_col s) (fun s => Ok (df_set df "date" s)))
   else Ok df) = Ok df1 ->
  forall k, k <> "date" -> df_get df1 k = df_get df k.
Proof.
  intros H k Hk. destruct (df_has df "date").
  - repeat (apply rbind_ok in H; destruct H as (? & _ & H)).
    injection H as <-. now rewrite df_get_set_other.
  - now injection H as <-.
Qed.

Lemma country_step_other df df1 :
  (if df_has df "country" then
     rbind (df_get df "country") (fun s =>
     rbind (str_strip_title s) (fun s =>
     let df := df_set df "country" s in
     rbind (df_get df "country") (fun s =>
     Ok (df_set df "country" (replace_dict country_aliases s)))))
   else Ok df) = Ok df1 ->
  forall k, k <> "country" -> df_get df1 k = df_get df k.
Proof.
  intros H k Hk. destruct (df_has df "country").
  - repeat (apply rbind_ok in H; destruct H as (? & _ & H)).
    injection H as <-. now rewrite !df_get_set_other.
  - now injection H as <-.
Qed.

Lemma transform_frame_avg df w df' w' :
  transform_frame df w = (Ok df', w') ->
  (forall durations sessions,
      df_get df "userEngagementDuration" = Ok (Float64 durations) ->
      df_get df "sessions" = Ok (Int64 sessions) ->
      df_get df' "avg_engagement_duration"
      = Ok (Float64 (map (fun x => if is_nan x then Z2F 0 else x)
                       (map2 float_int_truediv durations sessions))))
  /\ (df_has df "userEngagementDuration" && df_has df "sessions" = false ->
      df_has df' "avg_engagement_duration" = df_has df "avg_engagement_duration").
Proof.
  unfold transform_frame. intros H.
  apply bind_ok in H. destruct H as (df1 & w1 & H1 & H).
  apply lift_ok in H1. destruct H1 as [H1 ->].
  pose proof (date_step_other _ H1) as K1. clear H1.
  apply bind_ok in H. destruct H as (df2 & w2 & H2 & H).
  apply lift_ok in H2. destruct H2 as [H2 ->].
  pose proof (country_step_other _ H2) as K2. clear H2.
  assert (K : forall k, k <> "date" -> k <> "country" -> df_get df2 k = df_get df k).
  { intros k Hd Hc. rewrite K2, K1 by assumption. reflexivity. }
  clear K1 K2.
  apply bind_ok in H. destruct H as (df3 & w3 & H3 & H).
  apply lift_ok in H3. destruct H3 as [H3 ->].
  apply bind_ok in H. destruct H as (t & w4 & _ & H).
  unfold bind, log, ret in H. injection H as <- _.
  assert (Hu : df_has df2 "userEngagementDuration" = df_has df "userEngagementDuration")
    by (apply df_has_of_get_eq, K; discriminate).
  assert (Hs : df_has df2 "sessions" = df_has df "sessions")
    by (apply df_has_of_get_eq, K; discriminate).
  rewrite Hu, Hs in H3. split.
  - intros durations sessions Hd Hse.
    rewrite (df_has_of_get _ _ Hd), (df_has_of_get _ _ Hse) in H3. cbn [andb] in H3.
    rewrite (K "userEngagementDuration"), Hd in H3 by discriminate. cbn [rbind] in H3.
    rewrite (K "sessions"), Hse in H3 by discriminate. cbn [rbind series_truediv] in H3.
    rewrite df_get_set_same in H3. cbn [rbind fillna_zero] in H3.
    injection H3 as <-.
    rewrite df_get_set_other by discriminate. now rewrite df_get_set_same.
  - intros Hno. rewrite Hno in H3. injection H3 as <-.
    rewrite df_has_set_other by discriminate.
    apply df_has_of_get_eq, K; discriminate.
Qed.

(** C5 (amended). Where the frame built from the report has a float
    [userEngagementDuration] column and an integer [sessions] column,
    [avg_engagement_duration] is the float quotient for a positive session
    count and a duration that is a number, and 0 for a zero duration over
    zero sessions. Where either column is absent, [transform_data] adds no
    [avg_engagement_duration] column. *)
Theorem avg_engagement_duration_by_cases :
  forall response w df w',
    transform_data response w = (Ok df, w') ->
    exists data,
      process_rows (dimension_headers response) (metric_headers response)
        (rows response) [] = Ok data
      /\ let df0 := DataFrame_of_dicts data in
         (forall durations sessions,
             df_get df0 "userEngagementDuration" = Ok (Float64 durations) ->
             df_get df0 "sessions" = Ok (Int64 sessions) ->
             exists avgs,
               df_get df "avg_engagement_duration" = Ok (Float64 avgs)
               /\ forall i d s,
                    nth_error durations i = Some d ->
                    nth_error sessions i = Some s ->
                    exists a,
                      nth_error avgs i = Some a
                      /\ (0 < s < 2 ^ 63 -> is_nan d = false -> a = fdiv d (Z2F s))
                      /\ (s = 0 -> SFeqb d (Z2F 0) = true -> a = Z2F 0))
         /\ (df_has df0 "userEngagementDuration" && df_has df0 "sessions" = false ->
             df_has df0 "avg_engagement_duration" = false ->
             df_has df "avg_engagement_duration" = false).
Proof.
  intros response w df w' H. unfold transform_data in H.
  apply reraising_ok in H. apply bind_ok in H. destruct H as (data & w1 & Hdata & H).
  apply lift_ok in Hdata. destruct Hdata as [Hdata ->].
  exists data. split; [exact Hdata|]. cbv zeta.
  apply transform_frame_avg in H. destruct H as [Havg Hnone]. split.
  - intros durations sessions Hd Hs.
    eexists. split; [exact (Havg _ _ Hd Hs)|].
    intros i d s Hid His.
    exists ((fun x => if is_nan x then Z2F 0 else x) (float_int_truediv d s)).
    split.
    { apply (map_nth_error (fun x : float => if is_nan x then Z2F 0 else x)).
      now apply nth_error_map2. }
    cbv beta. split.
    + intros Hpos Hnum.
      destruct (@float_int_truediv_pos d s Hpos Hnum) as [Heq Hn].
      now rewrite Hn.
    + intros -> Hz. now rewrite (float_int_truediv_zero_zero _ Hz).
  - intros Hno Hnew. rewrite Hnone by exact Hno. exact Hnew.
Qed.
End AvgEngagement.

(** C5 as stated fails when a column is absent: a report without a
    [sessions] metric gives a table with no [avg_engagement_duration] column
    at all, rather than a column of zeros. *)
Lemma avg_engagement_duration_absent :
  let out := GA.transform_data (ext := sample_ext)
               (sample_report ["country"] ["userEngagementDuration"] ["Ukraine"] ["12.5"])
               (sample_world []) in
  rbind (fst out) (fun df => Ok (df_columns df))
  = Ok ["country"; "userEngagementDuration"; "extracted_at"]
  /\ rbind (fst out) (fun df => df_get df "avg_engagement_duration")
     = Raise (KeyError "avg_engagement_duration").
Proof. vm_compute. split; reflexivity. Qed.

(** With zero sessions and a positive duration the average is +inf: n/0 is
    not a nan, so [fillna(0)] leaves it. *)
Lemma avg_engagement_duration_zero_sessions :
  rbind (fst (GA.transform_data (ext := sample_ext)
                (sample_report ["country"] ["sessions"; "userEngagementDuration"]
                   ["Ukraine"] ["0"; "12.5"])
                (sample_world [])))
        (fun df => df_get df "avg_engagement_duration")
  = Ok (Float64 [pos_inf]).
Proof. vm_compute. reflexivity. Qed.

Lemma avg_engagement_duration_by_cases_witness :
  let response := sample_report ["country"] ["sessions"; "userEngagementDuration"]
                    ["Ukraine"] ["5"; "12.5"] in
  exists df w',
    GA.transform_data (ext := sample_ext) response (sample_world []) = (Ok df, w')
    /\ exists avgs a,
         df_get df "avg_engagement_duration" = Ok (Float64 avgs)
         /\ nth_error avgs 0 = Some a
         /\ a = fdiv (fdiv (Z2F 25) (Z2F 2)) (Z2F 5).
Proof.
  intros response.
  set (out := GA.transform_data (ext := sample_ext) response (sample_world [])).
  assert (Hrun : out = (Ok (match fst out with Ok d => d | Raise _ => empty_frame end),
                        snd out)) by (vm_compute; reflexivity).
  exists (match fst out with Ok d => d | Raise _ => empty_frame end), (snd out).
  split; [exact Hrun|].
  destruct (@avg_engagement_duration_by_cases sample_ext response (sample_world []) _ _ Hrun)
    as (data & Hdata & Hsome & _).
  assert (Hd : data = [[("country", PyStr "Ukraine"); ("sessions", PyInt 5);
                        ("userEngagementDuration", PyFloat (fdiv (Z2F 25) (Z2F 2)))]]).
  { vm_compute in Hdata. injection Hdata as <-. vm_compute. reflexivity. }
  subst data.
  destruct (Hsome [fdiv (Z2F 25) (Z2F 2)] [5]) as (avgs & Hc & Hrow);
    [vm_compute; reflexivity|vm_compute; reflexivity|].
  destruct (Hrow 0%nat (fdiv (Z2F 25) (Z2F 2)) 5 eq_refl eq_refl) as (a & Ha & Hpos & _).
  exists avgs, a. split; [exact Hc|]. split; [exact Ha|].
  apply Hpos; [lia|reflexivity].
Defined.

(** ** C6: empty tables are skipped by [load_data] *)

Section SkipEmpty.
Context {ext : Externals}.
Import Mailchimp.

























End SkipEmpty.



(** ** C7: country names *)

Section CountryName.
Context {ext : Externals}.
Import Mailchimp.

Lemma fillna_map_dict cells :
  fillna_series (series_cells (map_dict country_mapping (Object cells))) cells
  = map country_name_of cells.
Proof.
  unfold fillna_series, map_dict. cbn [series_cells].
  induction cells as [|c cells IH]; [reflexivity|].
  cbn [map map2]. rewrite IH. f_equal.
  destruct c; try reflexivity. cbn [country_name_of].
  destruct (assoc s country_mapping); reflexivity.
Qed.

Lemma transform_members_country df w df' w' codes :
  transform_members df w = (Ok df', w') ->
  df_get df "country_code" = Ok (Object codes) ->
  df_get df' "country_name" = Ok (Object (map country_name_of codes)).
Proof.
  unfold transform_members. intros H Hcc.
  apply bind_ok in H. destruct H as (df1 & w1 & H1 & H).
  apply lift_ok in H1. destruct H1 as [H1 ->].
  apply normalize_datetime_cols_other in H1. destruct H1 as [_ Hk1].
  apply bind_ok in H. destruct H as (df2 & w2 & H2 & H).
  apply lift_ok in H2. destruct H2 as [H2 ->].
  assert (Hcc1 : df_get df1 "country_code" = Ok (Object codes)).
  { rewrite Hk1; [exact Hcc|]. simpl. intros [E|[E|[]]]; discriminate. }
  assert (Hname : df_get df2 "country_name" = Ok (Object (map country_name_of codes))).
  { rewrite (df_has_of_get _ _ Hcc1) in H2.
    rewrite Hcc1 in H2. cbn [rbind] in H2.
    rewrite df_get_set_same in H2. cbn [rbind] in H2.
    rewrite df_get_set_other, Hcc1 in H2 by discriminate. cbn [rbind] in H2.
    injection H2 as <-. rewrite df_get_set_same.
    f_equal. f_equal. exact (fillna_map_dict codes). }
  clear H2.
  destruct (df_has df2 "timestamp_signup").
  - apply bind_ok in H. destruct H as (t & w3 & _ & H).
    apply bind_ok in H. destruct H as (s & w4 & _ & H).
    apply bind_ok in H. destruct H as (d & w5 & _ & H).
    injection H as <- _. now rewrite df_get_set_other by discriminate.
  - injection H as <- _. exact Hname.
Qed.

(** C7. [country_name] is the table's name for a mapped code (UA, RU, US,
    GB, DE, FR) and the code itself otherwise; a missing code stays missing.
    In particular the unmapped code "XX" gives the name "XX". *)
Theorem country_name_mapped_or_code :
  forall self rows w df w' i r,
    transform_data self "members" (RawMembers rows) w = (Ok df, w') ->
    nth_error rows i = Some r ->
    map fst country_mapping = ["UA"; "RU"; "US"; "GB"; "DE"; "FR"]
    /\ exists names name,
         df_get df "country_name" = Ok (Object names)
         /\ nth_error names i = Some name
         /\ (forall code mapped,
               mr_country_code r = Some code ->
               assoc code country_mapping = Some mapped -> name = PyStr mapped)
         /\ (forall code,
               mr_country_code r = Some code ->
               assoc code country_mapping = None -> name = PyStr code)
         /\ (mr_country_code r = Some "XX" -> name = PyStr "XX")
         /\ (mr_country_code r = None -> name = PyNone).
Proof.
  intros self rows w df w' i r H Hi. split; [reflexivity|].
  destruct rows as [|r0 rows]; [destruct i; discriminate|].
  apply transform_data_ok in H; [|reflexivity].
  destruct H as (df1 & w1 & Hbranch & -> & _).
  change ("members" =? "campaigns")%string with false in Hbranch.
  change ("members" =? "members")%string with true in Hbranch.
  cbv iota in Hbranch.
  eapply transform_members_country in Hbranch; [|reflexivity].
  exists (map country_name_of (map (fun r => opt_str (mr_country_code r)) (r0 :: rows))),
         (country_name_of (opt_str (mr_country_code r))).
  split.
  { rewrite !df_get_set_other by discriminate. exact Hbranch. }
  split.
  { rewrite map_map. now apply (map_nth_error (fun r => country_name_of (opt_str (mr_country_code r)))). }
  repeat split.
  - intros code mapped -> Hm. cbn [opt_str country_name_of]. now rewrite Hm.
  - intros code -> Hm. cbn [opt_str country_name_of]. now rewrite Hm.
  - intros ->. reflexivity.
  - intros ->. reflexivity.
Qed.
End CountryName.

Lemma country_name_mapped_or_code_witness :
  let rows := [ Mailchimp.member_row_of "l1" (sample_member "m1" (Some "UA"));
                Mailchimp.member_row_of "l1" (sample_member "m2" (Some "XX")) ] in
  exists df w' r,
    Mailchimp.transform_data (ext := sample_ext) sample_self "members"
      (RawMembers rows) (sample_world []) = (Ok df, w')
    /\ nth_error rows 1 = Some r
    /\ mr_country_code r = Some "XX"
    /\ exists names, df_get df "country_name" = Ok (Object names)
                     /\ nth_error names 1 = Some (PyStr "XX").
Proof.
  intros rows.
  set (out := Mailchimp.transform_data (ext := sample_ext) sample_self "members"
                (RawMembers rows) (sample_world [])).
  assert (Hrun : out = (Ok (match fst out with Ok d => d | Raise _ => empty_frame end),
                        snd out)) by (vm_compute; reflexivity).
  exists (match fst out with Ok d => d | Raise _ => empty_frame end), (snd out),
         (Mailchimp.member_row_of "l1" (sample_member "m2" (Some "XX"))).
  split; [exact Hrun|]. split; [reflexivity|]. split; [reflexivity|].
  destruct (@country_name_mapped_or_code sample_ext sample_self rows
              (sample_world []) _ _ 1%nat _ Hrun eq_refl)
    as (_ & names & name & Hc & Hn & _ & _ & Hxx & _).
  exists names. split; [exact Hc|]. rewrite Hn. f_equal. apply Hxx. reflexivity.
Defined.

(** ** C8: provenance columns *)

Section Provenance.
Context {ext : Externals}.
Import Mailchimp.

Lemma DataFrame_of_len raw : df_len (DataFrame_of raw) = raw_len raw.
Proof. destruct raw as [[|r rows]|[|r rows]|[|r rows]]; reflexivity. Qed.

Lemma DataFrame_of_empty raw :
  df_empty (DataFrame_of raw) = (raw_len raw =? 0)%nat.
Proof. destruct raw as [[|r rows]|[|r rows]|[|r rows]]; reflexivity. Qed.

Lemma DataFrame_of_nil raw : raw_len raw = 0%nat -> DataFrame_of raw = empty_frame.
Proof. destruct raw as [[|r rows]|[|r rows]|[|r rows]]; simpl; intros H; congruence. Qed.

Lemma transform_campaigns_len df df' :
  transform_campaigns df = Ok df' -> df_len df' = df_len df.
Proof.
  unfold transform_campaigns. intros H.
  apply rbind_ok in H. destruct H as (df1 & Hpre & H).
  assert (Hlen : df_len df1 = df_len df).
  { destruct (df_has df "send_time").
    - apply rbind_ok in Hpre. destruct Hpre as (df0 & H0 & Hpre).
      apply normalize_datetime_other in H0. destruct H0 as [Hl _].
      cbv beta in Hpre.
      repeat (apply rbind_ok in Hpre; destruct Hpre as (? & _ & Hpre)).
      injection Hpre as <-. exact Hl.
    - now injection Hpre as <-. }
  cbv beta in H.
  repeat (apply rbind_ok in H; destruct H as (? & _ & H)).
  injection H as <-. exact Hlen.
Qed.

Lemma transform_lists_len df df' :
  transform_lists df = Ok df' -> df_len df' = df_len df.
Proof.
  unfold transform_lists. intros H.
  apply rbind_ok in H. destruct H as (df1 & Hpre & H).
  assert (Hlen : df_len df1 = df_len df).
  { destruct (df_has df "date_created").
    - now apply normalize_datetime_other in Hpre.
    - now injection Hpre as <-. }
  cbv beta in H.
  repeat (apply rbind_ok in H; destruct H as (? & _ & H)).
  injection H as <-. exact Hlen.
Qed.

(** The members branch keeps the rows and reads the clock at most once. *)
Lemma transform_members_effect df w df' w' :
  transform_members df w = (Ok df', w') ->
  df_len df' = df_len df
  /\ w_clock w' = w_clock w
  /\ (w_ticks w <= w_ticks w')%nat.
Proof.
  unfold transform_members. intros H.
  apply bind_ok in H. destruct H as (df1 & w1 & H1 & H).
  apply lift_ok in H1. destruct H1 as [H1 ->].
  apply normalize_datetime_cols_other in H1. destruct H1 as [Hl1 _].
  apply bind_ok in H. destruct H as (df2 & w2 & H2 & H).
  apply lift_ok in H2. destruct H2 as [H2 ->].
  assert (Hl2 : df_len df2 = df_len df1).
  { destruct (df_has df1 "country_code").
    - repeat (apply rbind_ok in H2; destruct H2 as (? & _ & H2)).
      now injection H2 as <-.
    - now injection H2 as <-. }
  destruct (df_has df2 "timestamp_signup").
  - apply bind_ok in H. destruct H as (t & w3 & Hnow & H).
    unfold now in Hnow. injection Hnow as _ <-.
    apply bind_ok in H. destruct H as (s & w4 & Hs & H).
    apply lift_ok in Hs. destruct Hs as [_ ->].
    apply bind_ok in H. destruct H as (d & w5 & Hd & H).
    apply lift_ok in Hd. destruct Hd as [_ ->].
    injection H as <- <-. simpl. repeat split; try congruence. lia.
  - injection H as <- <-. repeat split; try congruence. lia.
Qed.

(** C8 (amended). For a non-empty row list, whatever the data type, the
    table [transform_data] returns has an [extracted_at] column holding one
    reading of the clock taken during the call and a [data_source] column
    holding 'mailchimp', in every row. An empty row list short-circuits: the
    call logs a warning and returns the empty table, which has neither
    column. *)
Theorem provenance_columns :
  forall self data_type raw,
    (forall w df w',
        raw_len raw <> 0%nat ->
        transform_data self data_type raw w = (Ok df, w') ->
        exists k,
          (w_ticks w <= k < w_ticks w')%nat
          /\ df_get df "extracted_at"
             = Ok (Datetime64 false (repeat (Some (w_clock w k)) (raw_len raw)))
          /\ df_get df "data_source"
             = Ok (Object (repeat (PyStr "mailchimp") (raw_len raw))))
    /\ (forall w,
           raw_len raw = 0%nat ->
           transform_data self data_type raw w
           = (Ok empty_frame, add_log w WARNING (MsgNoData data_type))
           /\ df_has empty_frame "extracted_at" = false
           /\ df_has empty_frame "data_source" = false).
Proof.
  intros self data_type raw. split.
  - intros w df w' Hne H.
    apply transform_data_ok in H.
    2:{ rewrite DataFrame_of_empty. now apply Nat.eqb_neq. }
    destruct H as (df1 & w1 & Hbranch & -> & ->).
    assert (Heff : df_len df1 = raw_len raw /\ w_clock w1 = w_clock w
                   /\ (w_ticks w <= w_ticks w1)%nat).
    { rewrite <- DataFrame_of_len.
      destruct (data_type =? "campaigns")%string.
      { apply lift_ok in Hbranch. destruct Hbranch as [Hb ->].
        apply transform_campaigns_len in Hb. auto. }
      destruct (data_type =? "members")%string.
      { now apply transform_members_effect. }
      destruct (data_type =? "lists")%string.
      { apply lift_ok in Hbranch. destruct Hbranch as [Hb ->].
        apply transform_lists_len in Hb. auto. }
      injection Hbranch as <- <-. auto. }
    destruct Heff as (Hlen & Hclock & Hticks).
    exists (w_ticks w1). split; [simpl; lia|].
    rewrite df_get_set_other, !df_get_set_same by discriminate.
    now rewrite Hlen, Hclock.
  - intros w Hz. split; [|split; reflexivity].
    unfold transform_data, reraising, bind, log, ret.
    rewrite DataFrame_of_empty, Hz. simpl. now rewrite DataFrame_of_nil.
Qed.
End Provenance.

(** C8 as stated fails on an empty row list: the table returned has no
    [extracted_at] and no [data_source] column. *)
Lemma provenance_missing_on_empty_input :
  let out := Mailchimp.transform_data (ext := sample_ext) sample_self "lists"
               (RawLists []) (sample_world []) in
  fst out = Ok empty_frame
  /\ rbind (fst out) (fun df => df_get df "extracted_at") = Raise (KeyError "extracted_at")
  /\ rbind (fst out) (fun df => df_get df "data_source") = Raise (KeyError "data_source")
  /\ w_log (snd out) = [(WARNING, MsgNoData "lists")].
Proof. vm_compute. repeat split; reflexivity. Qed.

Lemma provenance_columns_witness :
  let raw := RawMembers [ Mailchimp.member_row_of "l1" (sample_member "m1" (Some "UA")) ] in
  exists df w',
    raw_len raw <> 0%nat
    /\ Mailchimp.transform_data (ext := sample_ext) sample_self "members" raw
         (sample_world []) = (Ok df, w')
    /\ df_get df "extracted_at" = Ok (Datetime64 false [Some 1706788800250000])
    /\ df_get df "data_source" = Ok (Object [PyStr "mailchimp"]).
Proof.
  intros raw.
  set (out := Mailchimp.transform_data (ext := sample_ext) sample_self "members" raw
                (sample_world [])).
  assert (Hrun : out = (Ok (match fst out with Ok d => d | Raise _ => empty_frame end),
                        snd out)) by (vm_compute; reflexivity).
  exists (match fst out with Ok d => d | Raise _ => empty_frame end), (snd out).
  assert (Hne : raw_len raw <> 0%nat) by discriminate.
  split; [exact Hne|]. split; [exact Hrun|].
  destruct (@provenance_columns sample_ext sample_self "members" raw) as [Hsome _].
  destruct (Hsome _ _ _ Hne Hrun) as (k & Hk & Ht & Hs).
  split; [|exact Hs].
  vm_compute. reflexivity.
Defined.

(** ** C9: members of the first three lists only *)

Section FirstThreeLists.
Context {ext : Externals}.
Import Mailchimp.

Lemma issues_ret {A} P (a : A) : issues P (ret a).
Proof.
  intros w r w' H. injection H as _ <-. exists []. now rewrite app_nil_r.
Qed.

Lemma issues_raise {A} P e : issues P (@raise A e).
Proof.
  intros w r w' H. injection H as _ <-. exists []. now rewrite app_nil_r.
Qed.

Lemma issues_lift {A} P (x : result A) : issues P (lift x).
Proof.
  intros w r w' H. injection H as _ <-. exists []. now rewrite app_nil_r.
Qed.

Lemma issues_log P l m : issues P (log l m).
Proof.
  intros w r w' H. injection H as _ <-. exists []. simpl. now rewrite app_nil_r.
Qed.

Lemma issues_sleep P ms : issues P (sleep ms).
Proof.
  intros w r w' H. injection H as _ <-. exists []. simpl. now rewrite app_nil_r.
Qed.

Lemma issues_now P : issues P now.
Proof.
  intros w r w' H. injection H as _ <-. exists []. simpl. now rewrite app_nil_r.
Qed.

Lemma issues_makedirs P d : issues P (makedirs d).
Proof.
  intros w r w' H. injection H as _ <-. exists []. simpl. now rewrite app_nil_r.
Qed.

Lemma issues_write_file P p a : issues P (write_file p a).
Proof.
  intros w r w' H. unfold write_file in H.
  destruct (dir_exists w (dirname p)); injection H as _ <-;
    exists []; simpl; now rewrite app_nil_r.
Qed.

Lemma issues_bind {A B} P (m : M A) (f : A -> M B) :
  issues P m -> (forall a, issues P (f a)) -> issues P (bind m f).
Proof.
  intros Hm Hf w r w' H. unfold bind in H.
  destruct (m w) as [[a|e] w1] eqn:E.
  - destruct (Hm _ _ _ E) as (r1 & Hr1 & F1).
    destruct (Hf a _ _ _ H) as (r2 & Hr2 & F2).
    exists (r1 ++ r2). rewrite Hr2, Hr1, app_assoc. split; [reflexivity|].
    apply Forall_app. auto.
  - injection H as <- <-. exact (Hm _ _ _ E).
Qed.

Lemma issues_reraising {A} P c h (m : M A) :
  issues P m -> (forall e, issues P (h e)) -> issues P (reraising c h m).
Proof.
  intros Hm Hh w r w' H. unfold reraising in H.
  destruct (m w) as [[a|e] w1] eqn:E.
  - injection H as <- <-. exact (Hm _ _ _ E).
  - destruct (Hm _ _ _ E) as (r1 & Hr1 & F1).
    destruct (c e).
    + destruct (h e w1) as [[[]|e'] w2] eqn:Eh;
        destruct (Hh e _ _ _ Eh) as (r2 & Hr2 & F2);
        injection H as <- <-;
        exists (r1 ++ r2); rewrite Hr2, Hr1, app_assoc;
        (split; [reflexivity|apply Forall_app; auto]).
    + injection H as <- <-. eauto.
Qed.

Lemma issues_weaken {A} (P Q : Request -> Prop) (m : M A) :
  (forall r, P r -> Q r) -> issues P m -> issues Q m.
Proof.
  intros HPQ Hm w r w' H. destruct (Hm _ _ _ H) as (reqs & Hr & F).
  exists reqs. split; [exact Hr|]. eapply Forall_impl; eauto.
Qed.

Lemma issues_if {A} P (b : bool) (m1 m2 : M A) :
  issues P m1 -> issues P m2 -> issues P (if b then m1 else m2).
Proof. destruct b; auto. Qed.

(** [_make_request] only asks for its own endpoint. *)
Lemma make_request_issues d : forall self endpoint params,
  issues (fun r => r = request_of self endpoint params)
         (_make_request d self endpoint params).
Proof.
  induction d as [|d IH]; intros self endpoint params; cbn [_make_request].
  - apply issues_raise.
  - apply issues_reraising; [|intros; apply issues_log].
    apply issues_bind.
    + intros w r w' H. unfold requests_get in H.
      exists [request_of self endpoint params].
      destruct (w_http w); injection H as _ <-; simpl; auto.
    + intros resp. apply issues_bind.
      * unfold raise_for_status. apply issues_if; [apply issues_raise|apply issues_ret].
      * intros _. apply issues_if.
        -- apply issues_bind; [apply issues_log|]. intros _.
           apply issues_bind; [apply issues_sleep|]. intros _. apply IH.
        -- unfold response_json. destruct (json_body resp);
             [apply issues_ret|apply issues_raise].
Qed.

Lemma extract_lists_issues self :
  issues (lists_or_campaigns_request self) (extract_lists self).
Proof.
  unfold extract_lists. apply issues_reraising; [|intros; apply issues_log].
  apply issues_bind; [apply issues_log|]. intros _.
  apply issues_bind.
  - eapply issues_weaken; [|apply make_request_issues].
    intros r ->. exists "lists", (Some [("count", PInt 1000)]). auto.
  - intros b. apply issues_bind; [apply issues_log|]. intros _. apply issues_ret.
Qed.

Lemma campaigns_loop_issues self campaigns : forall acc,
  issues (lists_or_campaigns_request self) (campaigns_loop self campaigns acc).
Proof.
  induction campaigns as [|c campaigns IH]; intros acc; cbn [campaigns_loop].
  - apply issues_ret.
  - apply issues_bind.
    + eapply issues_weaken; [|apply make_request_issues].
      intros r ->. exists ("campaigns/" ++ ci_id c)%string, None.
      split; [reflexivity|]. right. right. eauto.
    + intros b. apply issues_bind; [apply issues_sleep|]. intros _. apply IH.
Qed.

Lemma extract_campaigns_issues self since_date :
  issues (lists_or_campaigns_request self) (extract_campaigns self since_date).
Proof.
  unfold extract_campaigns. apply issues_reraising; [|intros; apply issues_log].
  apply issues_bind; [apply issues_log|]. intros _.
  apply issues_bind.
  - eapply issues_weaken; [|apply make_request_issues].
    intros r ->. eexists "campaigns", _. split; [reflexivity|]. auto.
  - intros b. apply issues_bind; [apply campaigns_loop_issues|]. intros rows.
    apply issues_bind; [apply issues_log|]. intros _. apply issues_ret.
Qed.

(** The paging loop asks for pages of its own list only, and every row it
    adds carries that list id. *)
Lemma members_loop_own_list fuel : forall self list_id offset acc w r w',
  members_loop fuel self list_id "subscribed" 1000 offset acc w = Some (r, w') ->
  (exists reqs, w_requests w' = w_requests w ++ reqs
                /\ Forall (members_request self [list_id]) reqs)
  /\ (forall rows, r = Ok rows ->
        Forall (fun row => mr_list_id row = list_id) acc ->
        Forall (fun row => mr_list_id row = list_id) rows).
Proof.
  induction fuel as [|fuel IH]; intros self list_id offset acc w r w' H; [discriminate|].
  cbn [members_loop] in H.
  destruct (_make_request recursion_limit self (members_endpoint list_id)
              (members_params 1000 offset "subscribed") w) as [[b|e] w1] eqn:Hreq.
  - destruct (@make_request_issues _ _ _ _ _ _ _ Hreq) as (r1 & Hr1 & F1).
    assert (F1' : Forall (members_request self [list_id]) r1).
    { eapply Forall_impl; [|exact F1]. intros q ->. exists list_id, offset.
      split; [now left|reflexivity]. }
    destruct (get_members b) as [|m ms] eqn:Hm.
    + injection H as <- <-. split; [eauto|]. intros rows Hrows Hacc. congruence.
    + cbn [sleep] in H. apply IH in H. destruct H as [(r2 & Hr2 & F2) Hrows].
      split.
      * exists (r1 ++ r2). simpl in Hr2. rewrite Hr2, Hr1, app_assoc.
        split; [reflexivity|]. apply Forall_app. auto.
      * intros rows Hr Hacc. apply (Hrows rows Hr).
        apply Forall_app. split; [exact Hacc|].
        apply Forall_forall. intros row Hin. apply in_map_iff in Hin.
        destruct Hin as (x & <- & _). reflexivity.
  - injection H as <- <-.
    destruct (@make_request_issues _ _ _ _ _ _ _ Hreq) as (r1 & Hr1 & F1).
    split; [|discriminate].
    exists r1. split; [exact Hr1|].
    eapply Forall_impl; [|exact F1]. intros q ->. exists list_id, offset.
    split; [now left|reflexivity].
Qed.

Lemma extract_members_own_list self list_id w r w' :
  extract_members self list_id "subscribed" w = (r, w') ->
  (exists reqs, w_requests w' = w_requests w ++ reqs
                /\ Forall (members_request self [list_id]) reqs)
  /\ (forall rows, r = Ok rows -> Forall (fun row => mr_list_id row = list_id) rows).
Proof.
  unfold extract_members, reraising, bind, log, members_while. cbn [w_http add_log].
  intros H.
  destruct (members_loop (S (length (w_http w))) self list_id "subscribed" 1000 0 []
              (add_log w INFO (MsgExtractingMembers list_id))) as [[r1 w1]|] eqn:Hloop.
  - apply members_loop_own_list in Hloop. destruct Hloop as [(reqs & Hreqs & F) Hrows].
    simpl in Hreqs. destruct r1 as [rows|e].
    + simpl in H. injection H as <- <-. split.
      * exists reqs. simpl. auto.
      * intros rows' Hr. injection Hr as <-. apply (Hrows rows eq_refl). constructor.
    + simpl in H. injection H as <- <-. split; [|discriminate].
      exists reqs. simpl. auto.
  - simpl in H. injection H as <- <-. split; [|discriminate].
    exists []. simpl. now rewrite app_nil_r.
Qed.

Lemma members_request_incl self ids ids' r :
  incl ids ids' -> members_request self ids r -> members_request self ids' r.
Proof. intros Hi (id & off & Hin & ->). exists id, off. auto. Qed.

Lemma members_of_lists_within self ids : forall all acc w r w',
  incl ids all ->
  members_of_lists self ids acc w = (r, w') ->
  (exists reqs, w_requests w' = w_requests w ++ reqs
                /\ Forall (members_request self all) reqs)
  /\ (forall rows, r = Ok rows ->
        Forall (fun row => In (mr_list_id row) all) acc ->
        Forall (fun row => In (mr_list_id row) all) rows).
Proof.
  induction ids as [|id ids IH]; intros all acc w r w' Hincl H; cbn [members_of_lists] in H.
  - injection H as <- <-. split.
    + exists []. now rewrite app_nil_r.
    + intros rows Hr Hacc. congruence.
  - unfold bind in H.
    destruct (extract_members self id "subscribed" w) as [[rows1|e] w1] eqn:He.
    + apply extract_members_own_list in He. destruct He as [(r1 & Hr1 & F1) Hrows1].
      apply (IH all) in H; [|intros x Hx; apply Hincl; now right].
      destruct H as [(r2 & Hr2 & F2) Hrows]. split.
      * exists (r1 ++ r2). rewrite Hr2, Hr1, app_assoc. split; [reflexivity|].
        apply Forall_app. split; [|exact F2].
        eapply Forall_impl; [|exact F1]. intros q. apply members_request_incl.
        intros x [<-|[]]. apply Hincl. now left.
      * intros rows Hr Hacc. apply (Hrows rows Hr). apply Forall_app. split; [exact Hacc|].
        eapply Forall_impl; [|exact (Hrows1 rows1 eq_refl)].
        intros row ->. apply Hincl. now left.
    + apply extract_members_own_list in He. destruct He as [(r1 & Hr1 & F1) _].
      injection H as <- <-. split; [|discriminate].
      exists r1. split; [exact Hr1|].
      eapply Forall_impl; [|exact F1]. intros q. apply members_request_incl.
      intros x [<-|[]]. apply Hincl. now left.
Qed.

(** Transforming and loading issue no request. *)
Lemma transform_members_issues P df : issues P (transform_members df).
Proof.
  unfold transform_members.
  apply issues_bind; [apply issues_lift|]. intros df1.
  apply issues_bind; [apply issues_lift|]. intros df2.
  apply issues_if; [|apply issues_ret].
  apply issues_bind; [apply issues_now|]. intros t.
  apply issues_bind; [apply issues_lift|]. intros s.
  apply issues_bind; [apply issues_lift|]. intros d. apply issues_ret.
Qed.

Lemma transform_data_issues P self data_type raw :
  issues P (transform_data self data_type raw).
Proof.
  unfold transform_data. apply issues_reraising; [|intros; apply issues_log].
  apply issues_if.
  - apply issues_bind; [apply issues_log|]. intros _. apply issues_ret.
  - apply issues_bind.
    + repeat apply issues_if;
        first [apply transform_members_issues|apply issues_lift|apply issues_ret].
    + intros df. apply issues_bind; [apply issues_now|]. intros t.
      apply issues_bind; [apply issues_log|]. intros _. apply issues_ret.
Qed.

Lemma write_csvs_issues P d dir path ts : forall names,
  issues P (write_csvs d dir path ts names).
Proof.
  induction d as [|[k df] d IH]; intros names; cbn [write_csvs].
  - apply issues_ret.
  - apply issues_if; [|apply IH].
    apply issues_bind; [apply issues_write_file|]. intros _. apply IH.
Qed.

Lemma load_data_issues P self d output_format output_path :
  issues P (load_data self d output_format output_path).
Proof.
  unfold load_data. apply issues_reraising; [|intros; apply issues_log].
  apply issues_bind; [apply issues_makedirs|]. intros _.
  apply issues_bind; [apply issues_now|]. intros t.
  apply issues_bind.
  - repeat apply issues_if.
    + apply issues_bind; [|intros; apply issues_ret].
      unfold excel_writer_exit.
      apply issues_bind; [apply issues_write_file|]. intros _.
      apply issues_if; [apply issues_raise|apply issues_lift].
    + apply issues_bind; [apply write_csvs_issues|]. intros; apply issues_ret.
    + apply issues_bind; [apply issues_write_file|]. intros; apply issues_ret.
    + apply issues_ret.
  - intros [f|]; [|apply issues_raise].
    apply issues_bind; [apply issues_log|]. intros _. apply issues_ret.
Qed.

Lemma transform_members_other df w df' w' k :
  transform_members df w = (Ok df', w') ->
  ~ In k ["timestamp_signup"; "timestamp_opt"; "country_name"; "days_since_signup"] ->
  df_get df' k = df_get df k.
Proof.
  unfold transform_members. intros H Hk.
  apply bind_ok in H. destruct H as (df1 & w1 & H1 & H).
  apply lift_ok in H1. destruct H1 as [H1 ->].
  apply normalize_datetime_cols_other in H1. destruct H1 as [_ Hk1].
  apply bind_ok in H. destruct H as (df2 & w2 & H2 & H).
  apply lift_ok in H2. destruct H2 as [H2 ->].
  assert (Hk2 : df_get df2 k = df_get df k).
  { rewrite <- Hk1 by (simpl in *; tauto).
    destruct (df_has df1 "country_code").
    - repeat (apply rbind_ok in H2; destruct H2 as (? & _ & H2)).
      injection H2 as <-. rewrite !df_get_set_other; [reflexivity| |];
        intros ->; simpl in Hk; tauto.
    - now injection H2 as <-. }
  destruct (df_has df2 "timestamp_signup").
  - apply bind_ok in H. destruct H as (t & w3 & _ & H).
    apply bind_ok in H. destruct H as (s & w4 & _ & H).
    apply bind_ok in H. destruct H as (d & w5 & _ & H).
    injection H as <- _. rewrite df_get_set_other; [exact Hk2|].
    intros ->; simpl in Hk; tauto.
  - injection H as <- _. exact Hk2.
Qed.

Lemma transform_data_members_list_id self rows w df w' :
  transform_data self "members" (RawMembers rows) w = (Ok df, w') ->
  rows <> [] ->
  df_get df "list_id" = Ok (Object (map (fun r => PyStr (mr_list_id r)) rows)).
Proof.
  intros H Hne. destruct rows as [|r rows]; [congruence|].
  apply transform_data_ok in H; [|reflexivity].
  destruct H as (df1 & w1 & Hbranch & -> & _).
  change ("members" =? "campaigns")%string with false in Hbranch.
  change ("members" =? "members")%string with true in Hbranch.
  cbv iota in Hbranch.
  rewrite !df_get_set_other by discriminate.
  rewrite (@transform_members_other _ _ _ _ "list_id" Hbranch).
  - reflexivity.
  - simpl. intros [E|[E|[E|[E|[]]]]]; discriminate.
Qed.

Lemma members_of_lists_issues self ids acc :
  issues (members_request self ids) (members_of_lists self ids acc).
Proof.
  intros w r w' H.
  exact (proj1 (@members_of_lists_within self ids ids acc w r w' (incl_refl ids) H)).
Qed.

(** Which list a request asks the members of. *)
Lemma members_url_of_request self ids r id :
  lists_or_campaigns_request self r \/ members_request self ids r ->
  req_url r = (base_url self ++ "/" ++ members_endpoint id)%string ->
  In id ids.
Proof.
  intros [(ep & ps & -> & Hep)|(id' & off & Hin & ->)] Hurl;
    unfold request_of in Hurl; cbn [req_url] in Hurl;
    apply append_cancel_l in Hurl; apply (append_cancel_l "/") in Hurl.
  - exfalso. unfold members_endpoint in Hurl.
    destruct Hep as [->|[->|(cid & ->)]]; discriminate.
  - unfold members_endpoint in Hurl. apply (append_cancel_l "lists/") in Hurl.
    apply append_cancel_r in Hurl. now subst id'.
Qed.


(** C9. With [include_members] set and no [specific_list_ids], every request
    of the run is a lists or campaigns request or a members page request for
    one of the first three extracted lists, so a request for the members of
    a list is for one of these three; and the members table handed to
    [load_data], when there is one, holds only rows of those three lists. *)
Theorem members_only_for_first_three_lists :
  forall self since_date output_format w lists_data w1,
    extract_lists self (add_log w INFO MsgStarting) = (Ok lists_data, w1) ->
    let ids := map lr_list_id (firstn 3 lists_data) in
    let out := run_etl self true None since_date output_format w in
    (exists reqs,
        w_requests (snd out) = w_requests w ++ reqs
        /\ Forall (fun r => lists_or_campaigns_request self r
                            \/ members_request self ids r) reqs
        /\ (forall r list_id,
               In r reqs ->
               req_url r = (base_url self ++ "/" ++ members_endpoint list_id)%string ->
               In list_id ids))
    /\ (forall file,
           fst out = Ok file ->
           exists dataframes w2,
             extract_and_transform self true None since_date
               (add_log w INFO MsgStarting) = (Ok dataframes, w2)
             /\ fst (load_data self dataframes output_format "mailchimp_data" w2) = Ok file
             /\ forall members_df,
                  assoc "members" dataframes = Some members_df ->
                  exists cells,
                    df_get members_df "list_id" = Ok (Object cells)
                    /\ Forall (fun c => exists id, In id ids /\ c = PyStr id) cells).
Proof.
  intros self since_date fmt w lists_data w1 Hlists ids out.
  set (Q := fun r => lists_or_campaigns_request self r \/ members_request self ids r).
  subst out. unfold run_etl, extract_and_transform.
  match goal with |- context [bind (extract_lists self) ?k] => set (K := k) end.
  match goal with |- context [bind (bind (extract_lists self) K) ?f] => set (F := f) end.
  assert (Hout : bind (log INFO MsgStarting) (fun _ => bind (bind (extract_lists self) K) F) w
                 = bind (K lists_data) F w1).
  { unfold bind, log. now rewrite Hlists. }
  assert (HE : bind (extract_lists self) K (add_log w INFO MsgStarting) = K lists_data w1).
  { unfold bind. now rewrite Hlists. }
  rewrite Hout, HE. clear Hout HE.
  destruct (@extract_lists_issues self _ _ _ Hlists) as (r0 & Hr0 & F0).
  simpl in Hr0.
  assert (HK : issues Q (K lists_data)).
  { subst K. cbv beta.
    apply issues_bind; [apply transform_data_issues|]. intros df.
    apply issues_bind.
    { eapply issues_weaken; [|apply extract_campaigns_issues]. intros q Hq. now left. }
    intros rows. apply issues_bind; [apply transform_data_issues|]. intros dfc.
    apply issues_bind.
    { eapply issues_weaken; [|apply members_of_lists_issues]. intros q Hq. now right. }
    intros all. apply issues_if; [|apply issues_ret].
    apply issues_bind; [apply transform_data_issues|]. intros; apply issues_ret. }
  assert (HF : forall dfs, issues Q (F dfs)).
  { intros dfs. subst F. cbv beta.
    apply issues_bind; [apply load_data_issues|]. intros f.
    apply issues_bind; [apply issues_log|]. intros _. apply issues_ret. }
  split.
  - destruct (bind (K lists_data) F w1) as [r w'] eqn:Hrun.
    destruct (@issues_bind _ _ Q (K lists_data) F HK HF _ _ _ Hrun) as (r1 & Hr1 & F1).
    assert (Fall : Forall Q (r0 ++ r1)).
    { apply Forall_app. split; [|exact F1].
      eapply Forall_impl; [|exact F0]. intros q Hq. now left. }
    exists (r0 ++ r1). simpl. rewrite Hr1, Hr0, app_assoc. split; [reflexivity|].
    split; [exact Fall|].
    intros q list_id Hq Hurl. rewrite Forall_forall in Fall.
    exact (@members_url_of_request self ids q list_id (Fall q Hq) Hurl).
  - intros file Hfile.
    destruct (bind (K lists_data) F w1) as [r w'] eqn:Hrun. simpl in Hfile. subst r.
    apply bind_ok in Hrun. destruct Hrun as (dfs & w2 & HKrun & HFrun).
    exists dfs, w2. split; [exact HKrun|]. split.
    { subst F. cbv beta in HFrun. apply bind_ok in HFrun.
      destruct HFrun as (f & w3 & Hload & Hrest). rewrite Hload.
      unfold bind, log, ret in Hrest. injection Hrest as -> _. reflexivity. }
    clear HFrun HK HF. subst K. cbv beta in HKrun.
    apply bind_ok in HKrun. destruct HKrun as (dfl & wa & _ & HKrun).
    apply bind_ok in HKrun. destruct HKrun as (crows & wb & _ & HKrun).
    apply bind_ok in HKrun. destruct HKrun as (dfc & wc & _ & HKrun).
    apply bind_ok in HKrun. destruct HKrun as (all & wd & Hall & HKrun).
    apply members_of_lists_within with (all := ids) in Hall; [|apply incl_refl].
    destruct Hall as [_ Hrows]. specialize (Hrows all eq_refl (Forall_nil _)).
    intros members_df Hm.
    destruct (is_nil all) eqn:Hnil; cbn [negb] in HKrun.
    + injection HKrun as <- _. simpl in Hm. discriminate.
    + apply bind_ok in HKrun. destruct HKrun as (dfm & we & Htm & HKrun).
      injection HKrun as <- _.
      cbn in Hm. injection Hm as <-.
      apply transform_data_members_list_id in Htm; [|intros ->; discriminate].
      eexists. split; [exact Htm|].
      apply Forall_map. eapply Forall_impl; [|exact Hrows].
      intros row Hin. exists (mr_list_id row). split; [exact Hin|reflexivity].
Qed.
End FirstThreeLists.

Lemma members_only_for_first_three_lists_witness :
  let w := sample_world sample_script in
  let out := Mailchimp.run_etl (ext := sample_ext) sample_self true None None "csv" w in
  exists lists_data w1,
    Mailchimp.extract_lists sample_self (add_log w INFO MsgStarting) = (Ok lists_data, w1)
    /\ map lr_list_id lists_data = ["l1"; "l2"; "l3"; "l4"]
    /\ fst out = Ok (Paths ["output/mailchimp_data_lists_20240201_120000.csv";
                            "output/mailchimp_data_members_20240201_120000.csv"])
    /\ length (w_requests (snd out)) = 8%nat
    /\ forall r,
         In r (w_requests (snd out)) ->
         req_url r <> (Mailchimp.base_url sample_self ++ "/"
                       ++ Mailchimp.members_endpoint "l4")%string.
Proof.
  intros w out.
  set (run := Mailchimp.extract_lists sample_self (add_log w INFO MsgStarting)).
  assert (Hlists : run = (Ok (match fst run with Ok l => l | Raise _ => [] end), snd run))
    by (vm_compute; reflexivity).
  exists (match fst run with Ok l => l | Raise _ => [] end), (snd run).
  split; [exact Hlists|]. split; [vm_compute; reflexivity|].
  split; [vm_compute; reflexivity|]. split; [vm_compute; reflexivity|].
  destruct (@members_only_for_first_three_lists sample_ext sample_self None "csv" w
              _ _ Hlists) as [(reqs & Hreqs & _ & Honly) _].
  intros r Hin Hurl. fold out in Hreqs. rewrite Hreqs in Hin. simpl in Hin.
  apply (Honly r "l4" Hin) in Hurl.
  vm_compute in Hurl. intuition discriminate.
Defined.

(** ** C10: an unknown output format *)

Section UnknownFormat.
Context {ext : Externals}.

Lemma add_dir_in w d : In d (w_dirs (add_dir w d)).
Proof.
  unfold add_dir; simpl.
  destruct (existsb (String.eqb d) (w_dirs w)) eqn:E.
  - apply existsb_exists in E. destruct E as (x & Hin & Heq).
    apply String.eqb_eq in Heq. now subst x.
  - apply in_or_app. right. now left.
Qed.

(** C10. With a format whose lowercase form is not 'csv', 'excel' or 'json',
    [load_data] of either pipeline binds no [filename], so the log call after
    the branches raises; the output directory exists by then, and no file has
    been written. *)
Theorem load_data_unknown_format_raises :
  forall (self : Mailchimp.MailchimpETL) (dataframes_dict : list (string * DataFrame))
         (df : DataFrame) (output_format output_path : string) (w : World),
    py_lower output_format <> "csv" ->
    py_lower output_format <> "excel" ->
    py_lower output_format <> "json" ->
    let mc := Mailchimp.load_data self dataframes_dict output_format output_path w in
    let ga := GA.load_data df output_format output_path w in
    (fst mc = Raise (UnboundLocalError "filename")
     /\ w_files (snd mc) = w_files w
     /\ In "output" (w_dirs (snd mc))
     /\ w_log (snd mc) = w_log w ++ [(ERROR, MsgLoadFailed (UnboundLocalError "filename"))])
    /\ (fst ga = Raise (UnboundLocalError "filename")
        /\ w_files (snd ga) = w_files w
        /\ In "output" (w_dirs (snd ga))
        /\ w_log (snd ga) = w_log w ++ [(ERROR, MsgLoadFailed (UnboundLocalError "filename"))]).
Proof.
  intros self d df fmt path w Hcsv Hexcel Hjson mc ga.
  apply String.eqb_neq in Hcsv, Hexcel, Hjson.
  subst mc ga.
  unfold Mailchimp.load_data, GA.load_data, reraising, bind, makedirs, now, ret, raise, log.
  rewrite Hcsv, Hexcel, Hjson. cbn.
  repeat split; try reflexivity; apply add_dir_in.
Qed.
End UnknownFormat.

Lemma load_data_unknown_format_raises_witness :
  let w := sample_world [] in
  let mc := Mailchimp.load_data (ext := sample_ext) sample_self [] "XML" "mailchimp_data" w in
  let ga := GA.load_data (ext := sample_ext) empty_frame "XML" "mailchimp_data" w in
  py_lower "XML" = "xml"
  /\ fst mc = Raise (UnboundLocalError "filename")
  /\ fst ga = Raise (UnboundLocalError "filename")
  /\ w_files (snd mc) = [] /\ w_files (snd ga) = [].
Proof.
  intros w mc ga. split; [reflexivity|].
  destruct (@load_data_unknown_format_raises sample_ext sample_self [] empty_frame
              "XML" "mailchimp_data" w)
    as ((H1 & H2 & _) & (H3 & H4 & _)); try discriminate.
  repeat split; assumption.
Defined.

(** * Further properties of the Mailchimp extractors *)

Section Extractors.
Context {ext : Externals}.
Import Mailchimp.

Lemma make_request_answered d self endpoint params w :
  let w1 := set_http (add_request w (request_of self endpoint params)) (tl (w_http w)) in
  _make_request (S d) self endpoint params w
  = (next_answer (w_http w),
     match next_answer (w_http w) with
     | Ok _ => w1
     | Raise e => add_log w1 ERROR (MsgRequestFailed e)
     end).
Proof.
  destruct w as [http reqs sl lg ck tk ds fs].
  cbn [_make_request]. unfold reraising, bind, requests_get, raise_for_status, answered,
    next_answer, request_of.
  cbn [w_http tl]. destruct http as [|r rest]; [reflexivity|].
  unfold answered.
  destruct ((400 <=? status_code r) && (status_code r <? 600)) eqn:Hs; [reflexivity|].
  assert (H429 : (status_code r =? 429) = false).
  { apply Z.eqb_neq. intros E. rewrite E in Hs. discriminate. }
  cbn [ret]. rewrite H429. unfold response_json.
  destruct (json_body r); reflexivity.
Qed.

(** X1. [_make_request] makes exactly one attempt: it sends one GET, takes
    one answer and never sleeps, because every status that could reach the
    retry (429) is raised by [raise_for_status] first. The result is the JSON
    body for a status outside 400..599, and otherwise the exception, logged
    once. *)
Theorem make_request_single_attempt :
  forall d self endpoint params w,
    let out := _make_request (S d) self endpoint params w in
    w_requests (snd out) = w_requests w ++ [request_of self endpoint params]
    /\ w_sleeps (snd out) = w_sleeps w
    /\ w_http (snd out) = tl (w_http w)
    /\ fst out = match w_http w with
                 | [] => Raise ConnectionError
                 | r :: _ =>
                     if (400 <=? status_code r) && (status_code r <? 600)
                     then Raise (HTTPError (status_code r))
                     else match json_body r with
                          | Some b => Ok b
                          | None => Raise JSONDecodeError
                          end
                 end
    /\ w_log (snd out)
       = w_log w ++ match fst out with
                    | Ok _ => []
                    | Raise e => [(ERROR, MsgRequestFailed e)]
                    end.
Proof.
  intros d self endpoint params w out. subst out.
  rewrite make_request_answered. cbn [fst snd].
  destruct (next_answer (w_http w)) eqn:Hn; cbn; rewrite ?app_nil_r;
    repeat split; try reflexivity; rewrite <- Hn; reflexivity.
Qed.

(** X2. [extract_lists] sends one request, for up to 1000 lists, and never
    sleeps. It returns one row per list of the answer, in order (none when the
    answer has no lists), or raises what the request raised, logged once by
    [_make_request] and once more by [extract_lists]. *)
Theorem extract_lists_by_cases :
  forall self w,
    let out := extract_lists self w in
    w_requests (snd out)
    = w_requests w ++ [request_of self "lists" (Some [("count", PInt 1000)])]
    /\ w_sleeps (snd out) = w_sleeps w
    /\ w_http (snd out) = tl (w_http w)
    /\ match next_answer (w_http w) with
       | Ok b =>
           fst out = Ok (map list_row_of (get_lists b))
           /\ w_log (snd out)
              = w_log w ++ [(INFO, MsgExtractingLists);
                            (INFO, MsgExtractedLists (length (get_lists b)))]
       | Raise e =>
           fst out = Raise e
           /\ w_log (snd out)
              = w_log w ++ [(INFO, MsgExtractingLists);
                            (ERROR, MsgRequestFailed e);
                            (ERROR, MsgListsFailed e)]
       end.
Proof.
  intros self w out. subst out.
  unfold extract_lists, reraising, bind, log. unfold recursion_limit.
  rewrite make_request_answered. cbn [w_http add_log].
  destruct (next_answer (w_http w)) as [b|e]; cbn;
    rewrite <- ?app_assoc, ?length_map; repeat split; reflexivity.
Qed.

Lemma next_answer_ok b rest : next_answer (ok_response b :: rest) = Ok b.
Proof. reflexivity. Qed.

Lemma next_answer_http_error r rest :
  http_error r = true ->
  next_answer (r :: rest) = Raise (HTTPError (status_code r)).
Proof. unfold next_answer, answered, http_error. intros ->. reflexivity. Qed.

Lemma campaigns_loop_ok self : forall cs bs acc w rest,
  length bs = length cs ->
  w_http w = map ok_response bs ++ rest ->
  exists w',
    campaigns_loop self cs acc w
    = (Ok (acc ++ map campaign_row_from (combine cs bs)), w')
    /\ w_http w' = rest
    /\ w_requests w' = w_requests w ++ map (detail_request self) cs
    /\ w_sleeps w' = w_sleeps w ++ repeat 100 (length cs)
    /\ w_log w' = w_log w.
Proof.
  induction cs as [|c cs IH]; intros bs acc w rest Hlen Hw.
  - destruct bs; [|discriminate]. exists w. cbn. rewrite !app_nil_r.
    repeat split; auto.
  - destruct bs as [|b bs]; [discriminate|]. cbn in Hlen, Hw.
    cbn [campaigns_loop]. unfold bind, recursion_limit.
    rewrite make_request_answered, Hw, next_answer_ok. cbn [tl sleep].
    edestruct (IH bs (acc ++ [campaign_row_of c (get_stats b)])) as (w' & E & H1 & H2 & H3 & H4);
      [lia| |].
    2:{ exists w'. rewrite E. split.
        - cbn [combine map]. rewrite <- app_assoc. reflexivity.
        - rewrite H1, H2, H3, H4. cbn. rewrite <- !app_assoc. repeat split; reflexivity. }
    reflexivity.
Qed.

Lemma campaigns_loop_fails self : forall cs bs acc w e tail,
  (length bs < length cs)%nat ->
  next_answer tail = Raise e ->
  w_http w = map ok_response bs ++ tail ->
  exists w',
    campaigns_loop self cs acc w = (Raise e, w')
    /\ w_http w' = tl tail
    /\ w_requests w' = w_requests w ++ map (detail_request self) (firstn (S (length bs)) cs)
    /\ w_sleeps w' = w_sleeps w ++ repeat 100 (length bs)
    /\ w_log w' = w_log w ++ [(ERROR, MsgRequestFailed e)].
Proof.
  induction cs as [|c cs IH]; intros bs acc w e tail Hlen Hbad Hw; [cbn in Hlen; lia|].
  cbn [campaigns_loop]. unfold bind, recursion_limit. rewrite make_request_answered, Hw.
  destruct bs as [|b bs].
  - cbn [map app]. rewrite Hbad.
    eexists. split; [reflexivity|]. cbn. rewrite !app_nil_r. repeat split; reflexivity.
  - cbn [map app]. rewrite next_answer_ok. cbn [tl sleep]. cbn in Hlen.
    edestruct (IH bs (acc ++ [campaign_row_of c (get_stats b)])) as (w' & E & H1 & H2 & H3 & H4);
      [| exact Hbad | |].
    3:{ exists w'. rewrite E. split; [reflexivity|].
        rewrite H1, H2, H3, H4. cbn. rewrite <- !app_assoc. repeat split; reflexivity. }
    + lia.
    + reflexivity.
Qed.

Lemma members_loop_fails pages : forall fuel self list_id status count offset acc w e tail,
  Forall (fun p => p <> []) pages ->
  next_answer tail = Raise e ->
  w_http w = map page_response pages ++ tail ->
  (length pages < fuel)%nat ->
  exists w',
    members_loop fuel self list_id status count offset acc w = Some (Raise e, w')
    /\ w_http w' = tl tail
    /\ w_requests w'
       = w_requests w ++ page_requests self list_id status count offset (S (length pages))
    /\ w_sleeps w' = w_sleeps w ++ repeat 100 (length pages)
    /\ w_log w' = w_log w ++ [(ERROR, MsgRequestFailed e)].
Proof.
  induction pages as [|p pages IH];
    intros fuel self list_id status count offset acc w e tail Hne Hbad Hw Hf;
    (destruct fuel as [|fuel]; [simpl in Hf; lia|]);
    cbn [members_loop]; unfold recursion_limit; rewrite make_request_answered, Hw.
  - cbn [map app]. rewrite Hbad.
    eexists. split; [reflexivity|]. cbn. rewrite !app_nil_r. repeat split; reflexivity.
  - inversion Hne as [|? ? Hp Hps]; subst.
    destruct p as [|m p]; [congruence|].
    cbn [map app]. unfold page_response at 1. rewrite next_answer_ok.
    cbn [get_members sleep tl].
    edestruct (IH fuel self list_id status count (offset + count)
                 (acc ++ map (member_row_of list_id) (m :: p)))
      as (w' & E & H1 & H2 & H3 & H4); [exact Hps | exact Hbad | | |].
    3:{ exists w'. rewrite E. split; [reflexivity|].
        rewrite H1, H2, H3, H4. cbn. rewrite <- !app_assoc. repeat split; reflexivity. }
    + reflexivity.
    + simpl in Hf. lia.
Qed.

Lemma campaigns_params_eq since_date :
  Some (if truthy since_date
        then [("count", PInt 1000); ("status", PStr "sent")]
             ++ [("since_send_time", PStr (get_or since_date EmptyString))]
        else [("count", PInt 1000); ("status", PStr "sent")])
  = campaigns_params since_date.
Proof. destruct since_date as [[|a s]|]; reflexivity. Qed.

(** X3. When the campaigns request and the detail request of every campaign
    are answered, [extract_campaigns] returns one row per campaign, in order,
    after 1 + n requests (the listing, with [since_send_time] only for a
    non-empty [since_date], then [campaigns/{id}] for each campaign) and n
    pauses of 100 ms. *)
Theorem extract_campaigns_one_detail_request_each :
  forall self since_date cs bs rest w,
    length bs = length cs ->
    w_http w = ok_response (CampaignsBody cs) :: map ok_response bs ++ rest ->
    let out := extract_campaigns self since_date w in
    fst out = Ok (map campaign_row_from (combine cs bs))
    /\ w_requests (snd out)
       = w_requests w ++ request_of self "campaigns" (campaigns_params since_date)
                         :: map (detail_request self) cs
    /\ w_sleeps (snd out) = w_sleeps w ++ repeat 100 (length cs)
    /\ w_http (snd out) = rest
    /\ w_log (snd out)
       = w_log w ++ [(INFO, MsgExtractingCampaigns);
                     (INFO, MsgExtractedCampaigns (length cs))].
Proof.
  intros self since_date cs bs rest w Hlen Hw out. subst out.
  unfold extract_campaigns, reraising, bind, log, recursion_limit.
  rewrite campaigns_params_eq, make_request_answered. cbn [w_http add_log].
  rewrite Hw, next_answer_ok. cbn [tl get_campaigns].
  edestruct (@campaigns_loop_ok self cs bs []) as (w' & E & H1 & H2 & H3 & H4);
    [exact Hlen| |].
  2:{ rewrite E.
      cbn [ret fst snd add_log set_http add_request w_requests w_sleeps w_http w_log app]
        in *.
      rewrite H1, H2, H3, H4.
      rewrite <- !app_assoc, length_map, length_combine, Hlen, Nat.min_id.
      repeat split; reflexivity. }
  reflexivity.
Qed.

(** X4. [extract_campaigns] fails as a whole: when the detail request of the
    (k+1)-th campaign is not answered with a body (an error status, no JSON,
    or no answer at all), the rows of the k campaigns before it are lost, the
    exception is raised after being logged by [_make_request] and by
    [extract_campaigns], and no further campaign is asked for. *)
Theorem extract_campaigns_fails_as_a_whole :
  forall self since_date cs bs e tail w,
    (length bs < length cs)%nat ->
    next_answer tail = Raise e ->
    w_http w = ok_response (CampaignsBody cs) :: map ok_response bs ++ tail ->
    let out := extract_campaigns self since_date w in
    fst out = Raise e
    /\ w_requests (snd out)
       = w_requests w ++ request_of self "campaigns" (campaigns_params since_date)
                         :: map (detail_request self) (firstn (S (length bs)) cs)
    /\ w_sleeps (snd out) = w_sleeps w ++ repeat 100 (length bs)
    /\ w_http (snd out) = tl tail
    /\ w_log (snd out)
       = w_log w ++ [(INFO, MsgExtractingCampaigns);
                     (ERROR, MsgRequestFailed e);
                     (ERROR, MsgCampaignsFailed e)].
Proof.
  intros self since_date cs bs e tail w Hlen Hbad Hw out. subst out.
  unfold extract_campaigns, reraising, bind, log, recursion_limit.
  rewrite campaigns_params_eq, make_request_answered. cbn [w_http add_log].
  rewrite Hw, next_answer_ok. cbn [tl get_campaigns].
  edestruct (@campaigns_loop_fails self cs bs []) as (w' & E & H1 & H2 & H3 & H4);
    [exact Hlen|exact Hbad| |].
  2:{ rewrite E.
      cbn [ret fst snd any_Exception add_log set_http add_request
           w_requests w_sleeps w_http w_log app] in *.
      rewrite H1, H2, H3, H4. rewrite <- !app_assoc.
      repeat split; reflexivity. }
  reflexivity.
Qed.

(** X5. [extract_members] fails as a whole too: after k non-empty pages, a
    page request that is not answered with a body makes it raise, the rows of
    the k pages are lost, and the exception is logged by [_make_request] and
    by [extract_members]. *)
Theorem extract_members_fails_as_a_whole :
  forall self list_id status pages e tail w,
    Forall (fun p => p <> []) pages ->
    next_answer tail = Raise e ->
    w_http w = map page_response pages ++ tail ->
    let out := extract_members self list_id status w in
    fst out = Raise e
    /\ w_requests (snd out)
       = w_requests w ++ page_requests self list_id status 1000 0 (S (length pages))
    /\ w_sleeps (snd out) = w_sleeps w ++ repeat 100 (length pages)
    /\ w_http (snd out) = tl tail
    /\ w_log (snd out)
       = w_log w ++ [(INFO, MsgExtractingMembers list_id);
                     (ERROR, MsgRequestFailed e);
                     (ERROR, MsgMembersFailed e)].
Proof.
  intros self list_id status pages e tail w Hne Hbad Hw out. subst out.
  unfold extract_members, reraising, bind, log, members_while.
  cbn [w_http add_log].
  edestruct (@members_loop_fails pages (S (length (w_http w))) self list_id status
               1000 0 [] (add_log w INFO (MsgExtractingMembers list_id)))
    as (w' & E & H1 & H2 & H3 & H4); [exact Hne|exact Hbad|exact Hw| |].
  { rewrite Hw, length_app, length_map. lia. }
  cbn [add_log w_http] in E. rewrite E.
  cbn [ret fst snd any_Exception add_log set_http add_request
       w_requests w_sleeps w_http w_log app] in *.
  rewrite H1, H2, H3, H4. rewrite <- !app_assoc.
  repeat split; reflexivity.
Qed.
End Extractors.

Lemma extract_campaigns_one_detail_request_each_witness :
  let cs := [sample_campaign_item "c1"; sample_campaign_item "c2"] in
  let bs := [sample_details; OtherBody] in
  let w := sample_world (ok_response (CampaignsBody cs) :: map ok_response bs ++ []) in
  let out := Mailchimp.extract_campaigns sample_self (Some "2024-01-01") w in
  length bs = length cs
  /\ map cr_campaign_id (match fst out with Ok rows => rows | Raise _ => [] end)
     = ["c1"; "c2"]
  /\ map cr_bounces (match fst out with Ok rows => rows | Raise _ => [] end) = [5; 0]
  /\ length (w_requests (snd out)) = 3%nat
  /\ w_sleeps (snd out) = [100; 100].
Proof.
  intros cs bs w out.
  destruct (@extract_campaigns_one_detail_request_each sample_self (Some "2024-01-01")
              cs bs [] w eq_refl eq_refl) as (Hres & Hreq & Hsl & _).
  fold out in Hres, Hreq, Hsl. rewrite Hres, Hreq, Hsl.
  repeat split; reflexivity.
Defined.

Lemma extract_campaigns_fails_as_a_whole_witness :
  let cs := [sample_campaign_item "c1"; sample_campaign_item "c2";
             sample_campaign_item "c3"] in
  let bs := [sample_details] in
  let w := sample_world (ok_response (CampaignsBody cs)
                           :: map ok_response bs ++ [unavailable; ok_response sample_details]) in
  let out := Mailchimp.extract_campaigns sample_self None w in
  (length bs < length cs)%nat
  /\ fst out = Raise (HTTPError 503)
  /\ length (w_requests (snd out)) = 3%nat
  /\ w_http (snd out) = [ok_response sample_details].
Proof.
  intros cs bs w out.
  assert (Hlen : (length bs < length cs)%nat) by (cbn; lia).
  destruct (@extract_campaigns_fails_as_a_whole sample_self None cs bs (HTTPError 503)
              [unavailable; ok_response sample_details] w Hlen eq_refl eq_refl)
    as (Hres & Hreq & _ & Hhttp & _).
  fold out in Hres, Hreq, Hhttp. rewrite Hres, Hreq, Hhttp.
  split; [exact Hlen|]. repeat split; reflexivity.
Defined.

Lemma extract_members_fails_as_a_whole_witness :
  let pages := [[sample_member "m1" (Some "UA")]; [sample_member "m2" None]] in
  let w := sample_world (map page_response pages ++ [unavailable]) in
  let out := Mailchimp.extract_members sample_self "l1" "subscribed" w in
  Forall (fun p => p <> []) pages
  /\ fst out = Raise (HTTPError 503)
  /\ length (w_requests (snd out)) = 3%nat
  /\ w_sleeps (snd out) = [100; 100].
Proof.
  intros pages w out.
  assert (Hne : Forall (fun p => p <> []) pages) by (repeat constructor; discriminate).
  destruct (@extract_members_fails_as_a_whole sample_self "l1" "subscribed" pages
              (HTTPError 503) [unavailable] w Hne eq_refl eq_refl)
    as (Hres & Hreq & Hsl & _).
  fold out in Hres, Hreq, Hsl. rewrite Hres, Hreq, Hsl.
  split; [exact Hne|]. repeat split; reflexivity.
Defined.

(** A 429 answer followed by the answer a retry would get. *)
Lemma make_request_single_attempt_witness :
  let w := sample_world [too_many_requests None; ok_response OtherBody] in
  let out := Mailchimp._make_request Mailchimp.recursion_limit sample_self "lists" None w in
  fst out = Raise (HTTPError 429)
  /\ length (w_requests (snd out)) = 1%nat
  /\ w_sleeps (snd out) = []
  /\ w_http (snd out) = [ok_response OtherBody].
Proof.
  intros w out.
  destruct (@make_request_single_attempt 999 sample_self "lists" None w)
    as (Hreq & Hsl & Hhttp & Hres & _).
  subst out. unfold Mailchimp.recursion_limit.
  rewrite Hres, Hreq, Hsl, Hhttp. repeat split; reflexivity.
Defined.

Lemma extract_lists_by_cases_witness :
  let w := sample_world [ok_response (ListsBody [sample_list "l1"; sample_list "l2"])] in
  let out := Mailchimp.extract_lists sample_self w in
  rbind (fst out) (fun rows => Ok (map lr_list_id rows)) = Ok ["l1"; "l2"]
  /\ rbind (fst out) (fun rows => Ok (map lr_visibility rows)) = Ok ["private"; "private"]
  /\ length (w_requests (snd out)) = 1%nat.
Proof.
  intros w out.
  destruct (@extract_lists_by_cases sample_self w) as (Hreq & _ & _ & Hres & _).
  fold out in Hreq, Hres. rewrite Hres, Hreq. repeat split; reflexivity.
Defined.

(** * Further properties of the Mailchimp transform *)

Section TransformMore.
Context {ext : Externals}.
Import Mailchimp.

(** Running [transform_data] on a non-empty row list, up to the answers of
    [pd.to_datetime]. *)
Ltac eval_in H :=
  cbn -[fmul fdiv Z2F int_truediv is_nan to_datetime to_datetime_object cut_value
        usec_per_day usec_per_hour
        Z.div Z.modulo Z.sub wrap64 repeat map_dict fillna_series map map2
        opt_float_col int_or_nan] in H.

Ltac run_transform H :=
  unfold transform_data in H;
  unfold DataFrame_of, frame_of, lists_columns, campaigns_columns, members_columns in H;
  cbn [map fst snd length] in H;
  unfold reraising, bind, transform_members, transform_campaigns,
    transform_lists, normalize_datetime_cols, normalize_datetime, lift, now, log, ret in H;
  eval_in H;
  repeat match type of H with
         | context [to_datetime ?x] => destruct (to_datetime x) as [[[] ?]|]; eval_in H
         | context [to_datetime_object ?x] =>
             destruct (to_datetime_object x) as [?|]; eval_in H
         end.

(** X6. The unsubscribe rate of a list row: the float quotient times 100 when
    the list has members; 0 for 0/0, which [fillna(0)] catches; a signed
    infinity for a nonzero unsubscribe count over zero members. *)
Theorem unsubscribe_rate_by_cases :
  forall self rows w df w' i r,
    transform_data self "lists" (RawLists rows) w = (Ok df, w') ->
    nth_error rows i = Some r ->
    exists rates rate,
      df_get df "unsubscribe_rate" = Ok (Float64 rates)
      /\ nth_error rates i = Some rate
      /\ let unsub := lr_unsubscribe_count r in
         let members := lr_member_count r in
         (0 < members < 2 ^ 63 -> rate = fmul (fdiv (Z2F unsub) (Z2F members)) (Z2F 100))
         /\ (members = 0 -> unsub = 0 -> rate = Z2F 0)
         /\ (members = 0 -> 0 < unsub -> rate = pos_inf)
         /\ (members = 0 -> unsub < 0 -> rate = neg_inf).
Proof.
  intros self rows w df w' i r H Hi.
  exists (map unsubscribe_rate_of rows), (unsubscribe_rate_of r).
  split; [|split; [now apply map_nth_error|]].
  - destruct rows as [|r0 rows]; [destruct i; discriminate|].
    run_transform H; try discriminate; injection H as <- _;
      cbn -[fmul Z2F int_truediv is_nan map map2];
      rewrite (map2_map int_truediv), !map_map; reflexivity.
  - unfold unsubscribe_rate_of. cbv zeta. repeat split.
    + intros Hm.
      destruct (@int_truediv_pos (lr_unsubscribe_count r) (lr_member_count r) Hm) as [Heq Hn].
      rewrite (fmul_100_not_nan _ Hn). now rewrite Heq.
    + intros -> ->. reflexivity.
    + intros -> Hu. unfold int_truediv. simpl (0 =? 0).
      destruct (Z.eqb_spec (lr_unsubscribe_count r) 0); [lia|].
      destruct (Z.ltb_spec 0 (lr_unsubscribe_count r)); [reflexivity|lia].
    + intros -> Hu. unfold int_truediv. simpl (0 =? 0).
      destruct (Z.eqb_spec (lr_unsubscribe_count r) 0); [lia|].
      destruct (Z.ltb_spec 0 (lr_unsubscribe_count r)); [lia|reflexivity].
Qed.

Lemma transform_data_tz_naive self data_type raw w df w' :
  transform_data self data_type raw w = (Ok df, w') ->
  excel_writable df = true.
Proof.
  intros H. unfold transform_data in H.
  destruct raw as [[|r rows]|[|r rows]|[|r rows]];
    (destruct (data_type =? "campaigns")%string eqn:E1;
     [|destruct (data_type =? "members")%string eqn:E2;
       [|destruct (data_type =? "lists")%string eqn:E3]]);
    run_transform H; try discriminate; injection H as <- _;
    try reflexivity;
    unfold int_or_nan, opt_float_col;
    repeat match goal with
           | |- context [forallb is_some ?l] => destruct (forallb is_some l)
           | |- context [existsb ?f ?l] => destruct (existsb f l)
           end; reflexivity.
Qed.

(** The columns the dashboard reads, in the tables [transform_data] makes
    of lists and of campaigns. *)
Lemma transform_data_lists_numeric self rows w df w' :
  transform_data self "lists" (RawLists rows) w = (Ok df, w') ->
  df_empty df = false ->
  exists members unsub,
    df_get df "member_count" = Ok (Int64 members)
    /\ df_get df "unsubscribe_count" = Ok (Int64 unsub).
Proof.
  intros H Hne. destruct rows as [|r rows];
    run_transform H; try discriminate; injection H as <- _;
    try discriminate; eexists; eexists; split; reflexivity.
Qed.

Lemma transform_data_campaigns_numeric self rows w df w' :
  transform_data self "campaigns" (RawCampaigns rows) w = (Ok df, w') ->
  df_empty df = false ->
  exists open_rate click_rate sent,
    df_get df "open_rate" = Ok (Float64 open_rate)
    /\ df_get df "click_rate" = Ok (Float64 click_rate)
    /\ df_get df "emails_sent" = Ok (Int64 sent).
Proof.
  intros H Hne. destruct rows as [|r rows];
    run_transform H; try discriminate; injection H as <- _;
    try discriminate; eexists; eexists; eexists; repeat split; reflexivity.
Qed.

(** X7. Every table [transform_data] returns can be written to Excel: no
    column of it is a timezone-aware datetime, whatever the data type and the
    rows, and whatever [pd.to_datetime] made of the date columns. *)
Theorem transform_data_excel_writable :
  forall self data_type raw w df w',
    transform_data self data_type raw w = (Ok df, w') ->
    excel_writable df = true.
Proof.
  intros self data_type raw w df w' H.
  exact (transform_data_tz_naive _ _ _ _ H).
Qed.

(** X8. The schema of a transformed table: for rows of its own data type,
    [transform_data] keeps the source columns in their order, appends the
    derived columns of the type, then [extracted_at] and [data_source], and
    keeps the number of rows. *)
Theorem transform_data_schema :
  forall self raw w df w',
    raw_len raw <> 0%nat ->
    transform_data self (raw_type raw) raw w = (Ok df, w') ->
    df_columns df
    = df_columns (DataFrame_of raw) ++ derived_columns raw ++ ["extracted_at"; "data_source"]
    /\ df_len df = raw_len raw.
Proof.
  intros self raw w df w' Hne H.
  destruct raw as [[|r rows]|[|r rows]|[|r rows]]; try (cbn in Hne; congruence);
    cbn [raw_type] in H; run_transform H; try discriminate; injection H as <- _;
    split; reflexivity.
Qed.

(** X9. For rows of its own data type, [transform_data] can only fail on
    the dates: it returns a table when [pd.to_datetime] gives a datetime
    column for every date column. Otherwise it raises, for the first date
    column that is none, the ValueError of [pd.to_datetime], or the
    AttributeError of the [.dt] accessor when [pd.to_datetime] returned an
    object column; the exception is logged once and the clock is not
    read. *)
Theorem transform_data_fails_only_on_dates :
  forall self raw w,
    raw_len raw <> 0%nat ->
    let out := transform_data self (raw_type raw) raw w in
    match first_date_failure (date_columns raw) with
    | None => exists df, fst out = Ok df
    | Some e => out = (Raise e, add_log w ERROR (MsgTransformFailed (raw_type raw) e))
    end.
Proof.
  intros self raw w Hne out.
  destruct (out) as [res w'] eqn:H. subst out.
  destruct raw as [[|r rows]|[|r rows]|[|r rows]]; try (cbn in Hne; congruence);
    cbn [raw_type date_columns first_date_failure series_cells str_col opt_str_col];
    unfold date_failure;
    cbn [raw_type] in H; run_transform H;
    injection H as <- <-; try reflexivity; eexists; reflexivity.
Qed.

(** X18. Member tenure: [days_since_signup] is the number of whole days
    (rounded down, so negative for a signup in the future) between the signup
    instant, as [pd.to_datetime] read it and with its timezone dropped, and
    the first clock reading of the call; a member without a signup time gets
    nan, which makes the column a float column. The [extracted_at] column
    holds the second clock reading. *)
Theorem days_since_signup_by_rows :
  forall self rows w df w',
    rows <> [] ->
    transform_data self "members" (RawMembers rows) w = (Ok df, w') ->
    exists tz signups,
      to_datetime (series_cells (opt_str_col mr_timestamp_signup rows)) = Some (tz, signups)
      /\ df_get df "timestamp_signup" = Ok (Datetime64 false signups)
      /\ df_get df "days_since_signup"
         = Ok (int_or_nan
                 (map (option_map (fun t => (w_clock w (w_ticks w) - t) / usec_per_day))
                      signups))
      /\ df_get df "extracted_at"
         = Ok (Datetime64 false (repeat (Some (w_clock w (S (w_ticks w)))) (length rows))).
Proof.
  intros self rows w df w' Hne H.
  destruct rows as [|r rows]; [congruence|].
  cbn [series_cells opt_str_col].
  run_transform H; try discriminate; injection H as <- _;
    eexists; eexists; (split; [reflexivity|]); repeat split; reflexivity.
Qed.

(** X19. Send date and hour of a campaign: [send_date] is the day and
    [send_hour] the hour of day of the send time, as [pd.to_datetime] read
    it and with its timezone dropped; a campaign without a send time gets no
    date and a nan hour, which makes [send_hour] a float column. *)
Theorem send_date_and_hour_by_rows :
  forall self rows w df w',
    rows <> [] ->
    transform_data self "campaigns" (RawCampaigns rows) w = (Ok df, w') ->
    exists tz sends,
      to_datetime (series_cells (opt_str_col cr_send_time rows)) = Some (tz, sends)
      /\ df_get df "send_time" = Ok (Datetime64 false sends)
      /\ df_get df "send_date"
         = Ok (DateObj (map (option_map (fun t => t / usec_per_day)) sends))
      /\ df_get df "send_hour"
         = Ok (int_or_nan
                 (map (option_map (fun t => (t mod usec_per_day) / usec_per_hour)) sends)).
Proof.
  intros self rows w df w' Hne H.
  destruct rows as [|r rows]; [congruence|].
  cbn [series_cells opt_str_col].
  run_transform H; try discriminate; injection H as <- _;
    eexists; eexists; (split; [reflexivity|]); repeat split; reflexivity.
Qed.
End TransformMore.

(** A list without members and two unsubscribes has the rate +inf. *)
Lemma unsubscribe_rate_by_cases_witness :
  let row := sample_list_row 0 2 "20240115" in
  exists df w',
    Mailchimp.transform_data (ext := sample_ext) sample_self "lists"
      (RawLists [row]) (sample_world []) = (Ok df, w')
    /\ nth_error [row] 0 = Some row
    /\ lr_member_count row = 0
    /\ 0 < lr_unsubscribe_count row
    /\ exists rates, df_get df "unsubscribe_rate" = Ok (Float64 rates)
                     /\ nth_error rates 0 = Some pos_inf.
Proof.
  intros row.
  set (out := Mailchimp.transform_data (ext := sample_ext) sample_self "lists"
                (RawLists [row]) (sample_world [])).
  assert (Hrun : out = (Ok (match fst out with Ok d => d | Raise _ => empty_frame end),
                        snd out)) by (vm_compute; reflexivity).
  exists (match fst out with Ok d => d | Raise _ => empty_frame end), (snd out).
  split; [exact Hrun|]. split; [reflexivity|]. split; [reflexivity|].
  split; [reflexivity|].
  destruct (@unsubscribe_rate_by_cases sample_ext sample_self [row]
              (sample_world []) _ _ 0%nat row Hrun eq_refl)
    as (rates & rate & Hc & Hn & _ & _ & Hinf & _).
  exists rates. split; [exact Hc|].
  rewrite Hn. f_equal. apply Hinf; reflexivity.
Defined.

(** The members table of a run, whose signup times carried a UTC offset. *)
Lemma transform_data_excel_writable_witness :
  let raw := RawMembers [ Mailchimp.member_row_of "l1" (sample_member "m1" (Some "UA")) ] in
  exists df w',
    Mailchimp.transform_data (ext := sample_ext) sample_self "members" raw
      (sample_world []) = (Ok df, w')
    /\ df_get df "timestamp_signup" = Ok (Datetime64 false [Some 1705314600000000])
    /\ excel_writable df = true.
Proof.
  intros raw.
  set (out := Mailchimp.transform_data (ext := sample_ext) sample_self "members" raw
                (sample_world [])).
  assert (Hrun : out = (Ok (match fst out with Ok d => d | Raise _ => empty_frame end),
                        snd out)) by (vm_compute; reflexivity).
  exists (match fst out with Ok d => d | Raise _ => empty_frame end), (snd out).
  split; [exact Hrun|]. split; [vm_compute; reflexivity|].
  exact (@transform_data_excel_writable sample_ext sample_self "members" raw
           (sample_world []) _ _ Hrun).
Defined.

Lemma transform_data_schema_witness :
  let raw := RawCampaigns [sample_campaign 200 50 10 quarter] in
  exists df w',
    raw_len raw <> 0%nat
    /\ Mailchimp.transform_data (ext := sample_ext) sample_self "campaigns" raw
         (sample_world []) = (Ok df, w')
    /\ df_columns df
       = ["campaign_id"; "campaign_name"; "list_id"; "send_time"; "emails_sent"; "opens";
          "unique_opens"; "open_rate"; "clicks"; "unique_clicks"; "click_rate";
          "unsubscribes"; "bounces"; "campaign_type"; "status";
          "send_date"; "send_hour"; "engagement_rate"; "performance_category";
          "extracted_at"; "data_source"]
    /\ df_len df = 1%nat.
Proof.
  intros raw.
  set (out := Mailchimp.transform_data (ext := sample_ext) sample_self "campaigns" raw
                (sample_world [])).
  assert (Hrun : out = (Ok (match fst out with Ok d => d | Raise _ => empty_frame end),
                        snd out)) by (vm_compute; reflexivity).
  exists (match fst out with Ok d => d | Raise _ => empty_frame end), (snd out).
  assert (Hne : raw_len raw <> 0%nat) by discriminate.
  split; [exact Hne|]. split; [exact Hrun|].
  exact (@transform_data_schema sample_ext sample_self raw (sample_world []) _ _ Hne Hrun).
Defined.

(** Creation dates with different UTC offsets, under pandas 2. *)
Lemma transform_data_fails_only_on_dates_witness :
  let raw := RawLists [sample_list_row 10 1 "2024-01-15T10:30:00+00:00";
                       sample_list_row 20 2 "2024-01-16T10:30:00+02:00"] in
  raw_len raw <> 0%nat
  /\ Mailchimp.transform_data (ext := mixed_offsets_ext) sample_self "lists" raw
       (sample_world [])
     = (Raise AttributeError,
        add_log (sample_world []) ERROR (MsgTransformFailed "lists" AttributeError))
  /\ Mailchimp.transform_data (ext := sample_ext) sample_self "lists"
       (RawLists [sample_list_row 10 1 "yesterday"]) (sample_world [])
     = (Raise ValueError,
        add_log (sample_world []) ERROR (MsgTransformFailed "lists" ValueError)).
Proof.
  intros raw.
  assert (Hne : raw_len raw <> 0%nat) by discriminate.
  split; [exact Hne|]. split.
  - exact (@transform_data_fails_only_on_dates mixed_offsets_ext sample_self raw
             (sample_world []) Hne).
  - exact (@transform_data_fails_only_on_dates sample_ext sample_self
             (RawLists [sample_list_row 10 1 "yesterday"]) (sample_world [])
             ltac:(discriminate)).
Defined.

Lemma days_since_signup_by_rows_witness :
  let rows := [ Mailchimp.member_row_of "l1" (sample_member "m1" (Some "UA")) ] in
  exists df w',
    rows <> []
    /\ Mailchimp.transform_data (ext := sample_ext) sample_self "members" (RawMembers rows)
         (sample_world []) = (Ok df, w')
    /\ df_get df "days_since_signup" = Ok (Int64 [17]).
Proof.
  intros rows.
  set (out := Mailchimp.transform_data (ext := sample_ext) sample_self "members"
                (RawMembers rows) (sample_world [])).
  assert (Hrun : out = (Ok (match fst out with Ok d => d | Raise _ => empty_frame end),
                        snd out)) by (vm_compute; reflexivity).
  exists (match fst out with Ok d => d | Raise _ => empty_frame end), (snd out).
  assert (Hne : rows <> []) by discriminate.
  split; [exact Hne|]. split; [exact Hrun|].
  destruct (@days_since_signup_by_rows sample_ext sample_self rows (sample_world [])
              (match fst out with Ok d => d | Raise _ => empty_frame end) (snd out)
              Hne Hrun) as (tz & signups & Hdt & _ & Hdays & _).
  vm_compute in Hdt. injection Hdt as _ <-.
  rewrite Hdays. vm_compute. reflexivity.
Defined.

Lemma send_date_and_hour_by_rows_witness :
  let rows := [sample_campaign 200 50 10 quarter] in
  exists df w',
    rows <> []
    /\ Mailchimp.transform_data (ext := sample_ext) sample_self "campaigns"
         (RawCampaigns rows) (sample_world []) = (Ok df, w')
    /\ df_get df "send_date" = Ok (DateObj [Some 19737])
    /\ df_get df "send_hour" = Ok (Int64 [10]).
Proof.
  intros rows.
  set (out := Mailchimp.transform_data (ext := sample_ext) sample_self "campaigns"
                (RawCampaigns rows) (sample_world [])).
  assert (Hrun : out = (Ok (match fst out with Ok d => d | Raise _ => empty_frame end),
                        snd out)) by (vm_compute; reflexivity).
  exists (match fst out with Ok d => d | Raise _ => empty_frame end), (snd out).
  assert (Hne : rows <> []) by discriminate.
  split; [exact Hne|]. split; [exact Hrun|].
  destruct (@send_date_and_hour_by_rows sample_ext sample_self rows (sample_world [])
              (match fst out with Ok d => d | Raise _ => empty_frame end) (snd out)
              Hne Hrun) as (tz & sends & Hdt & _ & Hdate & Hhour).
  vm_compute in Hdt. injection Hdt as _ <-.
  rewrite Hdate, Hhour. split; vm_compute; reflexivity.
Defined.

(** * Further properties of [run_etl] *)

Section RunMore.
Context {ext : Externals}.
Import Mailchimp.

Lemma extract_and_transform_without_members_issues self ids since_date :
  issues (lists_or_campaigns_request self)
         (extract_and_transform self false ids since_date).
Proof.
  unfold extract_and_transform.
  apply issues_bind; [apply extract_lists_issues|]. intros lists_data.
  apply issues_bind; [apply transform_data_issues|]. intros df.
  apply issues_bind; [apply extract_campaigns_issues|]. intros rows.
  apply issues_bind; [apply transform_data_issues|]. intros dfc.
  apply issues_ret.
Qed.

Lemma run_etl_issues P self include_members ids since_date output_format :
  issues P (extract_and_transform self include_members ids since_date) ->
  issues P (run_etl self include_members ids since_date output_format).
Proof.
  intros H. unfold run_etl.
  apply issues_bind; [apply issues_log|]. intros _.
  apply issues_bind; [exact H|]. intros d.
  apply issues_bind; [apply load_data_issues|]. intros f.
  apply issues_bind; [apply issues_log|]. intros _. apply issues_ret.
Qed.

(** What a run that returns has done. *)
Lemma run_etl_ok self include_members ids since_date output_format w file w' :
  run_etl self include_members ids since_date output_format w = (Ok file, w') ->
  exists d w2 w3,
    extract_and_transform self include_members ids since_date (add_log w INFO MsgStarting)
    = (Ok d, w2)
    /\ load_data self d output_format "mailchimp_data" w2 = (Ok file, w3)
    /\ w' = add_log w3 INFO MsgCompleted.
Proof.
  unfold run_etl. intros H.
  apply bind_ok in H. destruct H as ([] & w1 & Hlog & H). injection Hlog as <-.
  apply bind_ok in H. destruct H as (d & w2 & Hd & H).
  apply bind_ok in H. destruct H as (f & w3 & Hf & H).
  unfold bind, log, ret in H. injection H as <- <-.
  exists d, w2, w3. auto.
Qed.

(** X10. Without members ([include_members] false), every request of a run
    is a lists or campaigns request, whatever [specific_list_ids] says, and
    a run that returns has loaded exactly two tables, lists and campaigns,
    in this order. *)
Theorem run_etl_without_members :
  forall self specific_list_ids since_date output_format w,
    let out := run_etl self false specific_list_ids since_date output_format w in
    (exists reqs,
        w_requests (snd out) = w_requests w ++ reqs
        /\ Forall (lists_or_campaigns_request self) reqs)
    /\ (forall file,
           fst out = Ok file ->
           exists dataframes w2,
             extract_and_transform self false specific_list_ids since_date
               (add_log w INFO MsgStarting) = (Ok dataframes, w2)
             /\ map fst dataframes = ["lists"; "campaigns"]
             /\ fst (load_data self dataframes output_format "mailchimp_data" w2) = Ok file).
Proof.
  intros self ids since_date fmt w out. split.
  - destruct out as [r w'] eqn:Hout. subst out.
    exact (@run_etl_issues _ self false ids since_date fmt
             (@extract_and_transform_without_members_issues self ids since_date)
             _ _ _ Hout).
  - intros file Hfile. destruct out as [r w'] eqn:Hout. subst out.
    cbn [fst] in Hfile. subst r.
    apply run_etl_ok in Hout. destruct Hout as (d & w2 & w3 & Hd & Hload & _).
    exists d, w2. split; [exact Hd|]. split; [|now rewrite Hload].
    unfold extract_and_transform in Hd.
    apply bind_ok in Hd. destruct Hd as (lists_data & wa & _ & Hd).
    apply bind_ok in Hd. destruct Hd as (dfl & wb & _ & Hd).
    apply bind_ok in Hd. destruct Hd as (rows & wc & _ & Hd).
    apply bind_ok in Hd. destruct Hd as (dfc & wd & _ & Hd).
    injection Hd as <- _. reflexivity.
Qed.

Lemma extract_and_transform_specific_issues self id ids since_date :
  issues (fun r => lists_or_campaigns_request self r
                   \/ members_request self (id :: ids) r)
         (extract_and_transform self true (Some (id :: ids)) since_date).
Proof.
  unfold extract_and_transform.
  apply issues_bind.
  { eapply issues_weaken; [|apply extract_lists_issues]. intros q Hq. now left. }
  intros lists_data.
  apply issues_bind; [apply transform_data_issues|]. intros df.
  apply issues_bind.
  { eapply issues_weaken; [|apply extract_campaigns_issues]. intros q Hq. now left. }
  intros rows. apply issues_bind; [apply transform_data_issues|]. intros dfc.
  apply issues_bind.
  { eapply issues_weaken; [|apply members_of_lists_issues]. intros q Hq. now right. }
  intros all. apply issues_if; [|apply issues_ret].
  apply issues_bind; [apply transform_data_issues|]. intros; apply issues_ret.
Qed.

(** X11. With a non-empty [specific_list_ids], the members requests of a run
    are for these lists only, whether the account has them or not (the ids
    are not checked against the extracted lists), and the members table
    handed to [load_data], when there is one, holds only rows of these
    lists. An empty [specific_list_ids] behaves as none at all. *)
Theorem run_etl_with_specific_lists :
  forall self id ids since_date output_format w,
    let wanted := id :: ids in
    let out := run_etl self true (Some wanted) since_date output_format w in
    (exists reqs,
        w_requests (snd out) = w_requests w ++ reqs
        /\ Forall (fun r => lists_or_campaigns_request self r
                            \/ members_request self wanted r) reqs
        /\ (forall r list_id,
               In r reqs ->
               req_url r = (base_url self ++ "/" ++ members_endpoint list_id)%string ->
               In list_id wanted))
    /\ (forall file,
           fst out = Ok file ->
           exists dataframes w2,
             extract_and_transform self true (Some wanted) since_date
               (add_log w INFO MsgStarting) = (Ok dataframes, w2)
             /\ fst (load_data self dataframes output_format "mailchimp_data" w2) = Ok file
             /\ forall members_df,
                  assoc "members" dataframes = Some members_df ->
                  exists cells,
                    df_get members_df "list_id" = Ok (Object cells)
                    /\ Forall (fun c => exists i, In i wanted /\ c = PyStr i) cells)
    /\ run_etl self true (Some []) since_date output_format w
       = run_etl self true None since_date output_format w.
Proof.
  intros self id ids since_date fmt w wanted out. split; [|split; [|reflexivity]].
  - destruct out as [r w'] eqn:Hout. subst out.
    destruct (@run_etl_issues _ self true (Some wanted) since_date fmt
                (@extract_and_transform_specific_issues self id ids since_date)
                _ _ _ Hout) as (reqs & Hreqs & Fall).
    exists reqs. split; [exact Hreqs|]. split; [exact Fall|].
    intros q list_id Hq Hurl. rewrite Forall_forall in Fall.
    exact (@members_url_of_request self wanted q list_id (Fall q Hq) Hurl).
  - intros file Hfile. destruct out as [r w'] eqn:Hout. subst out.
    cbn [fst] in Hfile. subst r.
    apply run_etl_ok in Hout. destruct Hout as (d & w2 & w3 & Hd & Hload & _).
    exists d, w2. split; [exact Hd|]. split; [now rewrite Hload|].
    unfold extract_and_transform in Hd.
    apply bind_ok in Hd. destruct Hd as (lists_data & wa & _ & Hd).
    apply bind_ok in Hd. destruct Hd as (dfl & wb & _ & Hd).
    apply bind_ok in Hd. destruct Hd as (rows & wc & _ & Hd).
    apply bind_ok in Hd. destruct Hd as (dfc & wd & _ & Hd).
    apply bind_ok in Hd. destruct Hd as (all & we & Hall & Hd).
    apply members_of_lists_within with (all := wanted) in Hall; [|apply incl_refl].
    destruct Hall as [_ Hrows]. specialize (Hrows all eq_refl (Forall_nil _)).
    intros members_df Hm.
    destruct (is_nil all) eqn:Hnil; cbn [negb] in Hd.
    + injection Hd as <- _. simpl in Hm. discriminate.
    + apply bind_ok in Hd. destruct Hd as (dfm & wf & Htm & Hd).
      injection Hd as <- _.
      cbn in Hm. injection Hm as <-.
      apply transform_data_members_list_id in Htm; [|intros ->; discriminate].
      eexists. split; [exact Htm|].
      apply Forall_map. eapply Forall_impl; [|exact Hrows].
      intros row Hin. exists (mr_list_id row). split; [exact Hin|reflexivity].
Qed.

(** *** Extraction and transformation leave the file system alone *)

Lemma fs_ret {A} (a : A) : preserves file_system (ret a).
Proof. intros w r w' H. now injection H as _ <-. Qed.

Lemma fs_raise {A} e : preserves file_system (@raise A e).
Proof. intros w r w' H. now injection H as _ <-. Qed.

Lemma fs_lift {A} (x : result A) : preserves file_system (lift x).
Proof. intros w r w' H. now injection H as _ <-. Qed.

Lemma fs_log l m : preserves file_system (log l m).
Proof. intros w r w' H. now injection H as _ <-. Qed.

Lemma fs_sleep ms : preserves file_system (sleep ms).
Proof. intros w r w' H. now injection H as _ <-. Qed.

Lemma fs_now : preserves file_system now.
Proof. intros w r w' H. now injection H as _ <-. Qed.

Lemma fs_bind {A B} (m : M A) (f : A -> M B) :
  preserves file_system m -> (forall a, preserves file_system (f a)) ->
  preserves file_system (bind m f).
Proof.
  intros Hm Hf w r w' H. unfold bind in H.
  destruct (m w) as [[a|e] w1] eqn:E.
  - rewrite (Hf a _ _ _ H). exact (Hm _ _ _ E).
  - injection H as <- <-. exact (Hm _ _ _ E).
Qed.

Lemma fs_reraising {A} c h (m : M A) :
  preserves file_system m -> (forall e, preserves file_system (h e)) ->
  preserves file_system (reraising c h m).
Proof.
  intros Hm Hh w r w' H. unfold reraising in H.
  destruct (m w) as [[a|e] w1] eqn:E.
  - injection H as <- <-. exact (Hm _ _ _ E).
  - destruct (c e).
    + destruct (h e w1) as [[[]|e'] w2] eqn:Eh; injection H as <- <-;
        rewrite (Hh e _ _ _ Eh); exact (Hm _ _ _ E).
    + injection H as <- <-. exact (Hm _ _ _ E).
Qed.

Lemma fs_if {A} (b : bool) (m1 m2 : M A) :
  preserves file_system m1 -> preserves file_system m2 ->
  preserves file_system (if b then m1 else m2).
Proof. destruct b; auto. Qed.

Lemma make_request_fs d self endpoint params :
  preserves file_system (_make_request d self endpoint params).
Proof.
  destruct d as [|d]; [apply fs_raise|].
  intros w r w' H. rewrite make_request_answered in H. injection H as <- <-.
  destruct (next_answer (w_http w)); reflexivity.
Qed.

Lemma extract_lists_fs self : preserves file_system (extract_lists self).
Proof.
  unfold extract_lists. apply fs_reraising; [|intros; apply fs_log].
  apply fs_bind; [apply fs_log|]. intros _.
  apply fs_bind; [apply make_request_fs|]. intros b.
  apply fs_bind; [apply fs_log|]. intros _. apply fs_ret.
Qed.

Lemma campaigns_loop_fs self campaigns : forall acc,
  preserves file_system (campaigns_loop self campaigns acc).
Proof.
  induction campaigns as [|c campaigns IH]; intros acc; cbn [campaigns_loop].
  - apply fs_ret.
  - apply fs_bind; [apply make_request_fs|]. intros b.
    apply fs_bind; [apply fs_sleep|]. intros _. apply IH.
Qed.

Lemma extract_campaigns_fs self since_date :
  preserves file_system (extract_campaigns self since_date).
Proof.
  unfold extract_campaigns. apply fs_reraising; [|intros; apply fs_log].
  apply fs_bind; [apply fs_log|]. intros _.
  apply fs_bind; [apply make_request_fs|]. intros b.
  apply fs_bind; [apply campaigns_loop_fs|]. intros rows.
  apply fs_bind; [apply fs_log|]. intros _. apply fs_ret.
Qed.

Lemma members_loop_fs fuel : forall self list_id status count offset acc w r w',
  members_loop fuel self list_id status count offset acc w = Some (r, w') ->
  file_system w' = file_system w.
Proof.
  induction fuel as [|fuel IH]; intros self list_id status count offset acc w r w' H;
    [discriminate|].
  cbn [members_loop] in H.
  destruct (_make_request recursion_limit self (members_endpoint list_id)
              (members_params count offset status) w) as [[b|e] w1] eqn:Hreq;
    apply make_request_fs in Hreq.
  - destruct (get_members b).
    + injection H as <- <-. exact Hreq.
    + cbn [sleep] in H. apply IH in H. rewrite H. exact Hreq.
  - injection H as <- <-. exact Hreq.
Qed.

Lemma extract_members_fs self list_id status :
  preserves file_system (extract_members self list_id status).
Proof.
  unfold extract_members. apply fs_reraising; [|intros; apply fs_log].
  apply fs_bind; [apply fs_log|]. intros _.
  apply fs_bind.
  - intros w r w' H. unfold members_while in H.
    destruct (members_loop _ _ _ _ _ _ _ w) as [[r1 w1]|] eqn:Hl.
    + injection H as <- <-. exact (members_loop_fs _ _ _ _ _ _ _ _ Hl).
    + now injection H as _ <-.
  - intros rows. apply fs_bind; [apply fs_log|]. intros _. apply fs_ret.
Qed.

Lemma members_of_lists_fs self ids : forall acc,
  preserves file_system (members_of_lists self ids acc).
Proof.
  induction ids as [|id ids IH]; intros acc; cbn [members_of_lists].
  - apply fs_ret.
  - apply fs_bind; [apply extract_members_fs|]. intros rows. apply IH.
Qed.

Lemma transform_data_fs self data_type raw :
  preserves file_system (transform_data self data_type raw).
Proof.
  unfold transform_data. apply fs_reraising; [|intros; apply fs_log].
  apply fs_if.
  - apply fs_bind; [apply fs_log|]. intros _. apply fs_ret.
  - apply fs_bind.
    + repeat apply fs_if; try apply fs_lift; try apply fs_ret.
      unfold transform_members.
      apply fs_bind; [apply fs_lift|]. intros df1.
      apply fs_bind; [apply fs_lift|]. intros df2.
      apply fs_if; [|apply fs_ret].
      apply fs_bind; [apply fs_now|]. intros t.
      apply fs_bind; [apply fs_lift|]. intros s.
      apply fs_bind; [apply fs_lift|]. intros d. apply fs_ret.
    + intros df. apply fs_bind; [apply fs_now|]. intros t.
      apply fs_bind; [apply fs_log|]. intros _. apply fs_ret.
Qed.

Lemma extract_and_transform_fs self include_members ids since_date :
  preserves file_system (extract_and_transform self include_members ids since_date).
Proof.
  unfold extract_and_transform.
  apply fs_bind; [apply extract_lists_fs|]. intros lists_data.
  apply fs_bind; [apply transform_data_fs|]. intros df.
  apply fs_bind; [apply extract_campaigns_fs|]. intros rows.
  apply fs_bind; [apply transform_data_fs|]. intros dfc.
  apply fs_if; [|apply fs_ret].
  apply fs_bind; [apply members_of_lists_fs|]. intros all.
  apply fs_if; [|apply fs_ret].
  apply fs_bind; [apply transform_data_fs|]. intros; apply fs_ret.
Qed.

(** X12. A run writes nothing before everything is extracted and
    transformed: [run_etl] up to its call of [load_data] never creates a
    directory or a file, and when that part raises, [run_etl] raises the same
    exception and leaves the file system as it found it. *)
Theorem run_etl_writes_only_after_transform :
  forall self include_members specific_list_ids since_date output_format w,
    let staged := extract_and_transform self include_members specific_list_ids since_date
                    (add_log w INFO MsgStarting) in
    let out := run_etl self include_members specific_list_ids since_date output_format w in
    w_dirs (snd staged) = w_dirs w
    /\ w_files (snd staged) = w_files w
    /\ (forall e,
           fst staged = Raise e ->
           fst out = Raise e
           /\ w_dirs (snd out) = w_dirs w
           /\ w_files (snd out) = w_files w).
Proof.
  intros self im ids since_date fmt w staged out.
  destruct staged as [r w1] eqn:Hst. subst staged.
  pose proof (@extract_and_transform_fs self im ids since_date _ _ _ Hst) as Hfs.
  unfold file_system in Hfs. cbn [w_dirs w_files add_log] in Hfs.
  injection Hfs as Hd Hf. cbn [fst snd].
  split; [exact Hd|]. split; [exact Hf|].
  intros e ->. subst out. unfold run_etl, bind, log. rewrite Hst.
  cbn [fst snd]. auto.
Qed.

(** *** Every request is an authenticated GET *)

Lemma request_of_authenticated self endpoint params :
  Forall (fun p => In (fst p) query_keys)
         (match params with Some ps => ps | None => [] end) ->
  authenticated_get self (request_of self endpoint params).
Proof.
  intros Hp. split; [reflexivity|]. split; [|exact Hp].
  exists endpoint. reflexivity.
Qed.

Lemma extract_lists_authenticated self :
  issues (authenticated_get self) (extract_lists self).
Proof.
  unfold extract_lists. apply issues_reraising; [|intros; apply issues_log].
  apply issues_bind; [apply issues_log|]. intros _.
  apply issues_bind.
  - eapply issues_weaken; [|apply make_request_issues].
    intros r ->. apply request_of_authenticated.
    repeat (apply Forall_cons; [cbn; tauto|]); apply Forall_nil.
  - intros b. apply issues_bind; [apply issues_log|]. intros _. apply issues_ret.
Qed.

Lemma campaigns_loop_authenticated self campaigns : forall acc,
  issues (authenticated_get self) (campaigns_loop self campaigns acc).
Proof.
  induction campaigns as [|c campaigns IH]; intros acc; cbn [campaigns_loop].
  - apply issues_ret.
  - apply issues_bind.
    + eapply issues_weaken; [|apply make_request_issues].
      intros r ->. apply request_of_authenticated. constructor.
    + intros b. apply issues_bind; [apply issues_sleep|]. intros _. apply IH.
Qed.

Lemma extract_campaigns_authenticated self since_date :
  issues (authenticated_get self) (extract_campaigns self since_date).
Proof.
  unfold extract_campaigns. apply issues_reraising; [|intros; apply issues_log].
  apply issues_bind; [apply issues_log|]. intros _.
  apply issues_bind.
  - eapply issues_weaken; [|apply make_request_issues].
    intros r ->. apply request_of_authenticated.
    destruct (truthy since_date); cbn [app];
      repeat (apply Forall_cons; [cbn; tauto|]); apply Forall_nil.
  - intros b. apply issues_bind; [apply campaigns_loop_authenticated|]. intros rows.
    apply issues_bind; [apply issues_log|]. intros _. apply issues_ret.
Qed.

Lemma members_request_authenticated self ids r :
  members_request self ids r -> authenticated_get self r.
Proof.
  intros (list_id & offset & _ & ->). apply request_of_authenticated.
  repeat (apply Forall_cons; [cbn; tauto|]); apply Forall_nil.
Qed.

(** X21. Every request of a run, whatever its arguments and however it
    ends, is a GET on an endpoint under the API root of the account's data
    center, https://{server_prefix}.api.mailchimp.com/3.0/, and carries the
    headers built by [__init__], with the API key in [Authorization]; its
    query holds no other keys than [count], [offset], [status] and
    [since_send_time]. *)
Theorem run_etl_requests_authenticated :
  forall self include_members specific_list_ids since_date output_format w,
    let out := run_etl self include_members specific_list_ids since_date output_format w in
    exists reqs,
      w_requests (snd out) = w_requests w ++ reqs
      /\ Forall (authenticated_get self) reqs.
Proof.
  intros self im ids since_date fmt w out.
  destruct out as [r w'] eqn:Hout. subst out.
  refine (@run_etl_issues _ self im ids since_date fmt _ _ _ _ Hout).
  unfold extract_and_transform.
  apply issues_bind; [apply extract_lists_authenticated|]. intros lists_data.
  apply issues_bind; [apply transform_data_issues|]. intros df.
  apply issues_bind; [apply extract_campaigns_authenticated|]. intros rows.
  apply issues_bind; [apply transform_data_issues|]. intros dfc.
  apply issues_if; [|apply issues_ret].
  apply issues_bind.
  { eapply issues_weaken; [|apply members_of_lists_issues].
    intros q. apply members_request_authenticated. }
  intros all. apply issues_if; [|apply issues_ret].
  apply issues_bind; [apply transform_data_issues|]. intros; apply issues_ret.
Qed.
End RunMore.

(** A run without members on the sample account: two requests, one CSV
    file (the account has no campaign). *)
Lemma run_etl_without_members_witness :
  let w := sample_world sample_script in
  let out := Mailchimp.run_etl (ext := sample_ext) sample_self false (Some ["l4"]) None
               "csv" w in
  fst out = Ok (Paths ["output/mailchimp_data_lists_20240201_120000.csv"])
  /\ map req_url (w_requests (snd out))
     = ["https://us1.api.mailchimp.com/3.0/lists";
        "https://us1.api.mailchimp.com/3.0/campaigns"]
  /\ exists dataframes w2,
       Mailchimp.extract_and_transform (ext := sample_ext) sample_self false (Some ["l4"])
         None (add_log w INFO MsgStarting) = (Ok dataframes, w2)
       /\ map fst dataframes = ["lists"; "campaigns"].
Proof.
  intros w out.
  assert (Hres : fst out = Ok (Paths ["output/mailchimp_data_lists_20240201_120000.csv"]))
    by (vm_compute; reflexivity).
  split; [exact Hres|]. split; [vm_compute; reflexivity|].
  destruct (@run_etl_without_members sample_ext sample_self (Some ["l4"]) None "csv" w)
    as [_ Hok].
  destruct (Hok _ Hres) as (d & w2 & Hd & Hkeys & _).
  exists d, w2. split; assumption.
Defined.

(** A run for the members of the fourth list only. *)
Lemma run_etl_with_specific_lists_witness :
  let w := sample_world
             [ ok_response (ListsBody [sample_list "l1"; sample_list "l4"]);
               ok_response (CampaignsBody []);
               page_response [sample_member "m4" (Some "UA")]; page_response [] ] in
  let out := Mailchimp.run_etl (ext := sample_ext) sample_self true (Some ["l4"]) None
               "csv" w in
  fst out = Ok (Paths ["output/mailchimp_data_lists_20240201_120000.csv";
                       "output/mailchimp_data_members_20240201_120000.csv"])
  /\ length (w_requests (snd out)) = 4%nat
  /\ forall r,
       In r (w_requests (snd out)) ->
       req_url r <> (Mailchimp.base_url sample_self ++ "/"
                     ++ Mailchimp.members_endpoint "l1")%string.
Proof.
  intros w out.
  split; [vm_compute; reflexivity|]. split; [vm_compute; reflexivity|].
  destruct (@run_etl_with_specific_lists sample_ext sample_self "l4" [] None "csv" w)
    as [(reqs & Hreqs & _ & Honly) _].
  intros r Hin Hurl. fold out in Hreqs. rewrite Hreqs in Hin. simpl in Hin.
  apply (Honly r "l1" Hin) in Hurl.
  vm_compute in Hurl. intuition discriminate.
Defined.

(** The campaigns request of a run is refused: nothing is written. *)
Lemma run_etl_writes_only_after_transform_witness :
  let w := sample_world [ ok_response (ListsBody [sample_list "l1"]); unavailable ] in
  let out := Mailchimp.run_etl (ext := sample_ext) sample_self true None None "excel" w in
  fst out = Raise (HTTPError 503)
  /\ w_dirs (snd out) = []
  /\ w_files (snd out) = [].
Proof.
  intros w out.
  destruct (@run_etl_writes_only_after_transform sample_ext sample_self true None None
              "excel" w) as (_ & _ & Hfail).
  exact (Hfail (HTTPError 503) ltac:(vm_compute; reflexivity)).
Defined.

Lemma run_etl_requests_authenticated_witness :
  let w := sample_world sample_script in
  let out := Mailchimp.run_etl (ext := sample_ext) sample_self true None None "json" w in
  length (w_requests (snd out)) = 8%nat
  /\ Forall (fun r => assoc "Authorization" (req_headers r) = Some "apikey key-us1")
            (w_requests (snd out)).
Proof.
  intros w out. split; [vm_compute; reflexivity|].
  destruct (@run_etl_requests_authenticated sample_ext sample_self true None None "json" w)
    as (reqs & Hreqs & Hall).
  fold out in Hreqs. rewrite Hreqs. cbn [sample_world w_requests app].
  eapply Forall_impl; [|exact Hall].
  intros r (Hh & _). rewrite Hh. reflexivity.
Defined.

(** * From the transform to the workbook *)

Section ExcelRun.
Context {ext : Externals}.
Import Mailchimp.

(** The tables [run_etl] hands to [load_data]. *)
Lemma staged_tables self include_members ids since_date w d w' :
  extract_and_transform self include_members ids since_date w = (Ok d, w') ->
  exists lists_df campaigns_df rest,
    d = ("lists", lists_df) :: ("campaigns", campaigns_df) :: rest
    /\ (rest = [] \/ exists members_df, rest = [("members", members_df)])
    /\ Forall (fun p => excel_writable (snd p) = true) d
    /\ (df_empty lists_df = false ->
        exists members unsub,
          df_get lists_df "member_count" = Ok (Int64 members)
          /\ df_get lists_df "unsubscribe_count" = Ok (Int64 unsub))
    /\ (df_empty campaigns_df = false ->
        exists open_rate click_rate sent,
          df_get campaigns_df "open_rate" = Ok (Float64 open_rate)
          /\ df_get campaigns_df "click_rate" = Ok (Float64 click_rate)
          /\ df_get campaigns_df "emails_sent" = Ok (Int64 sent)).
Proof.
  unfold extract_and_transform. intros Hd.
  apply bind_ok in Hd. destruct Hd as (lists_data & wa & _ & Hd).
  apply bind_ok in Hd. destruct Hd as (dfl & wb & Hl & Hd).
  apply bind_ok in Hd. destruct Hd as (rows & wc & _ & Hd).
  apply bind_ok in Hd. destruct Hd as (dfc & wd & Hc & Hd).
  pose proof (transform_data_tz_naive _ _ _ _ Hl) as Wl.
  pose proof (transform_data_tz_naive _ _ _ _ Hc) as Wc.
  assert (Hrest : exists rest,
             d = ("lists", dfl) :: ("campaigns", dfc) :: rest
             /\ (rest = [] \/ exists members_df, rest = [("members", members_df)])
             /\ Forall (fun p => excel_writable (snd p) = true) rest).
  { destruct include_members.
    - apply bind_ok in Hd. destruct Hd as (all & we & _ & Hd).
      destruct (is_nil all); cbn [negb] in Hd.
      + injection Hd as <- _. exists []. cbn. auto.
      + apply bind_ok in Hd. destruct Hd as (dfm & wf & Hm & Hd).
        injection Hd as <- _. exists [("members", dfm)]. cbn.
        split; [reflexivity|]. split; [eauto|].
        constructor; [|constructor]. exact (transform_data_tz_naive _ _ _ _ Hm).
    - injection Hd as <- _. exists []. cbn. auto. }
  destruct Hrest as (rest & -> & Hshape & Wrest).
  exists dfl, dfc, rest. split; [reflexivity|]. split; [exact Hshape|].
  split; [repeat constructor; assumption|]. split.
  - exact (transform_data_lists_numeric _ _ _ Hl).
  - exact (transform_data_campaigns_numeric _ _ _ Hc).
Qed.

(** The dashboard of the tables of a run is always computed. *)
Lemma staged_dashboard self include_members ids since_date w d w' :
  extract_and_transform self include_members ids since_date w = (Ok d, w') ->
  exists rows, _create_summary_dashboard self d = Ok rows.
Proof.
  intros Hd. apply staged_tables in Hd.
  destruct Hd as (dfl & dfc & rest & -> & Hshape & _ & Hl & Hc).
  unfold _create_summary_dashboard, present_nonempty.
  assert (Hal : assoc "lists" (("lists", dfl) :: ("campaigns", dfc) :: rest) = Some dfl)
    by reflexivity.
  assert (Hac : assoc "campaigns" (("lists", dfl) :: ("campaigns", dfc) :: rest) = Some dfc)
    by reflexivity.
  assert (Ham : assoc "members" (("lists", dfl) :: ("campaigns", dfc) :: rest)
                = assoc "members" rest) by reflexivity.
  rewrite Hal, Hac, Ham. clear Hal Hac Ham.
  destruct (df_empty dfc).
  - cbn [rbind]. destruct (df_empty dfl).
    + cbn [rbind]. destruct Hshape as [->|(dfm & ->)]; cbn [assoc String.eqb Ascii.eqb Bool.eqb].
      * eauto.
      * destruct (df_empty dfm); [eauto|].
        destruct (df_has dfm "country_name") eqn:Hh; [|eauto].
        destruct (df_has_get _ _ Hh) as (names & ->). cbn [rbind]. eauto.
    + destruct (Hl eq_refl) as (m & u & -> & ->). cbn [rbind series_sum].
      destruct Hshape as [->|(dfm & ->)]; cbn [assoc String.eqb Ascii.eqb Bool.eqb].
      * eauto.
      * destruct (df_empty dfm); [eauto|].
        destruct (df_has dfm "country_name") eqn:Hh; [|eauto].
        destruct (df_has_get _ _ Hh) as (names & ->). cbn [rbind]. eauto.
  - destruct (Hc eq_refl) as (o & c & s & -> & -> & ->). cbn [rbind mean_pct series_sum].
    destruct (df_empty dfl).
    + cbn [rbind]. destruct Hshape as [->|(dfm & ->)]; cbn [assoc String.eqb Ascii.eqb Bool.eqb].
      * eauto.
      * destruct (df_empty dfm); [eauto|].
        destruct (df_has dfm "country_name") eqn:Hh; [|eauto].
        destruct (df_has_get _ _ Hh) as (names & ->). cbn [rbind]. eauto.
    + destruct (Hl eq_refl) as (m & u & -> & ->). cbn [rbind series_sum].
      destruct Hshape as [->|(dfm & ->)]; cbn [assoc String.eqb Ascii.eqb Bool.eqb].
      * eauto.
      * destruct (df_empty dfm); [eauto|].
        destruct (df_has dfm "country_name") eqn:Hh; [|eauto].
        destruct (df_has_get _ _ Hh) as (names & ->). cbn [rbind]. eauto.
Qed.

(** X13. The tables a run hands to [load_data] meet what its Excel branch
    asks of them before anything is written: the dict holds lists,
    campaigns and, at most, members, in this order; no table has a
    timezone-aware column; and [_create_summary_dashboard] returns a
    dashboard instead of raising on a missing or non-numeric column, one
    with rows as soon as the lists or the campaigns table has rows. *)
Theorem run_etl_tables_fit_the_dashboard :
  forall self include_members specific_list_ids since_date w d w',
    extract_and_transform self include_members specific_list_ids since_date w
    = (Ok d, w') ->
    (map fst d = ["lists"; "campaigns"] \/ map fst d = ["lists"; "campaigns"; "members"])
    /\ Forall (fun p => excel_writable (snd p) = true) d
    /\ exists rows,
         _create_summary_dashboard self d = Ok rows
         /\ (present_nonempty d "lists" <> None \/ present_nonempty d "campaigns" <> None ->
             rows <> []).
Proof.
  intros self im ids since_date w d w' Hd.
  destruct (staged_dashboard _ _ _ _ _ Hd) as (rows & Hrows).
  destruct (staged_tables _ _ _ _ _ Hd) as (dfl & dfc & rest & -> & Hshape & Hw & Hl & Hc).
  split; [|split; [exact Hw|]].
  { destruct Hshape as [->|(dfm & ->)]; [left|right]; reflexivity. }
  exists rows. split; [exact Hrows|].
  intros Hsome Hnil. subst rows.
  unfold _create_summary_dashboard in Hrows.
  assert (Hpl : present_nonempty (("lists", dfl) :: ("campaigns", dfc) :: rest) "lists"
                = if df_empty dfl then None else Some dfl) by reflexivity.
  assert (Hpc : present_nonempty (("lists", dfl) :: ("campaigns", dfc) :: rest) "campaigns"
                = if df_empty dfc then None else Some dfc) by reflexivity.
  rewrite Hpl, Hpc in Hrows, Hsome. clear Hpl Hpc.
  assert (Hmembers : forall (first : summary_metric * summary_value) summary_data,
             match present_nonempty (("lists", dfl) :: ("campaigns", dfc) :: rest)
                     "members" with
             | Some members_df =>
                 if df_has members_df "country_name" then
                   rbind (df_get members_df "country_name") (fun names =>
                   Ok ((first :: summary_data)
                       ++ map (fun cc => (SubscribersIn (fst cc), SvInt (Z.of_nat (snd cc))))
                              (firstn 5 (value_counts names))))
                 else Ok (first :: summary_data)
             | None => Ok (first :: summary_data)
             end <> Ok []).
  { intros first summary_data.
    destruct (present_nonempty _ "members") as [M|]; [|discriminate].
    destruct (df_has M "country_name"); [|discriminate].
    destruct (df_get M "country_name"); cbn [rbind app]; discriminate. }
  destruct (df_empty dfc).
  - destruct (df_empty dfl); [destruct Hsome; congruence|].
    destruct (Hl eq_refl) as (m & u & Hm & Hu). rewrite Hm, Hu in Hrows.
    cbn [rbind series_sum app] in Hrows. exact (Hmembers _ _ Hrows).
  - destruct (Hc eq_refl) as (o & c & s & Ho & Hcl & Hs). rewrite Ho, Hcl, Hs in Hrows.
    cbn [rbind mean_pct series_sum app] in Hrows.
    destruct (df_empty dfl).
    + cbn [rbind] in Hrows. exact (Hmembers _ _ Hrows).
    + destruct (Hl eq_refl) as (m & u & Hm & Hu). rewrite Hm, Hu in Hrows.
      cbn [rbind series_sum app] in Hrows. exact (Hmembers _ _ Hrows).
Qed.
End ExcelRun.

(** The tables of the run on the sample account. *)
Lemma run_etl_tables_fit_the_dashboard_witness :
  let w := add_log (sample_world sample_script) INFO MsgStarting in
  exists d w' rows,
    Mailchimp.extract_and_transform (ext := sample_ext) sample_self true None None w
    = (Ok d, w')
    /\ map fst d = ["lists"; "campaigns"; "members"]
    /\ Mailchimp._create_summary_dashboard (ext := sample_ext) sample_self d = Ok rows
    /\ length rows = 5%nat.
Proof.
  intros w.
  set (staged := Mailchimp.extract_and_transform (ext := sample_ext) sample_self true
                   None None w).
  assert (Hrun : staged = (Ok (match fst staged with Ok d => d | Raise _ => [] end),
                           snd staged)) by (vm_compute; reflexivity).
  destruct (@run_etl_tables_fit_the_dashboard sample_ext sample_self true None None w
              (match fst staged with Ok d => d | Raise _ => [] end) (snd staged) Hrun)
    as (_ & _ & rows & Hrows & _).
  exists (match fst staged with Ok d => d | Raise _ => [] end), (snd staged), rows.
  split; [exact Hrun|]. split; [vm_compute; reflexivity|]. split; [exact Hrows|].
  vm_compute in Hrows. injection Hrows as <-. reflexivity.
Defined.

(** * Further properties of the Google Analytics pipeline *)

Section GaMore.
Context {ext : Externals}.
Import GA.

Lemma add_dimensions_fits names : forall values i row_data row_data',
  add_dimensions names i values row_data = Ok row_data' ->
  (i + length values <= Nat.max i (length names))%nat.
Proof.
  induction values as [|v values IH]; intros i row_data row_data' H; cbn in *; [lia|].
  destruct (nth_error names i) as [name|] eqn:E; [|discriminate].
  assert (i < length names)%nat by (apply nth_error_Some; congruence).
  apply IH in H. lia.
Qed.

Lemma add_metrics_fits names : forall values i row_data row_data',
  add_metrics names i values row_data = Ok row_data' ->
  (i + length values <= Nat.max i (length names))%nat.
Proof.
  induction values as [|v values IH]; intros i row_data row_data' H; cbn in *; [lia|].
  destruct (nth_error names i) as [name|] eqn:E; [|discriminate].
  assert (i < length names)%nat by (apply nth_error_Some; congruence).
  apply rbind_ok in H. destruct H as (x & _ & H).
  apply IH in H. lia.
Qed.

Lemma process_rows_fits dimension_names metric_names : forall rs data data',
  process_rows dimension_names metric_names rs data = Ok data' ->
  length data' = (length data + length rs)%nat
  /\ Forall (fun row =>
               (length (dimension_values row) <= length dimension_names)%nat
               /\ (length (metric_values row) <= length metric_names)%nat) rs.
Proof.
  induction rs as [|row rs IH]; intros data data' H; cbn [process_rows] in H.
  - injection H as <-. split; [cbn; lia|constructor].
  - apply rbind_ok in H. destruct H as (d1 & Hd & H).
    apply rbind_ok in H. destruct H as (d2 & Hm & H).
    apply add_dimensions_fits in Hd. apply add_metrics_fits in Hm.
    apply IH in H. destruct H as [Hlen Hall]. split.
    + rewrite Hlen, length_app. cbn. lia.
    + constructor; [|exact Hall]. cbn in Hd, Hm. lia.
Qed.

Lemma transform_frame_len df w df' w' :
  transform_frame df w = (Ok df', w') ->
  df_len df' = df_len df /\ df_has df' "extracted_at" = true.
Proof.
  unfold transform_frame. intros H.
  apply bind_ok in H. destruct H as (df1 & w1 & H1 & H).
  apply lift_ok in H1. destruct H1 as [H1 ->].
  assert (L1 : df_len df1 = df_len df).
  { destruct (df_has df "date").
    - repeat (apply rbind_ok in H1; destruct H1 as (? & _ & H1)). now injection H1 as <-.
    - now injection H1 as <-. }
  apply bind_ok in H. destruct H as (df2 & w2 & H2 & H).
  apply lift_ok in H2. destruct H2 as [H2 ->].
  assert (L2 : df_len df2 = df_len df1).
  { destruct (df_has df1 "country").
    - repeat (apply rbind_ok in H2; destruct H2 as (? & _ & H2)). now injection H2 as <-.
    - now injection H2 as <-. }
  apply bind_ok in H. destruct H as (df3 & w3 & H3 & H).
  apply lift_ok in H3. destruct H3 as [H3 ->].
  assert (L3 : df_len df3 = df_len df2).
  { destruct (df_has df2 "userEngagementDuration" && df_has df2 "sessions").
    - repeat (apply rbind_ok in H3; destruct H3 as (? & _ & H3)). now injection H3 as <-.
    - now injection H3 as <-. }
  apply bind_ok in H. destruct H as (t & w4 & _ & H).
  unfold bind, log, ret in H. injection H as <- _. split.
  - cbn. congruence.
  - apply (@df_has_of_get _ "extracted_at" _ (df_get_set_same _ _ _)).
Qed.

(** X14. A report is transformed row for row: the table has exactly one row
    per report row and an [extracted_at] column, also for a report without
    rows (there is no early return on an empty table here). A table is only
    returned when no row has more dimension values than the report has
    dimension headers, or more metric values than metric headers; otherwise
    the indexing of the header names raises. *)
Theorem ga_transform_row_for_row :
  forall response w df w',
    transform_data response w = (Ok df, w') ->
    df_len df = length (rows response)
    /\ df_has df "extracted_at" = true
    /\ Forall (fun row =>
                 (length (dimension_values row) <= length (dimension_headers response))%nat
                 /\ (length (metric_values row) <= length (metric_headers response))%nat)
              (rows response).
Proof.
  intros response w df w' H. unfold transform_data in H.
  apply reraising_ok in H. apply bind_ok in H. destruct H as (data & w1 & Hdata & H).
  apply lift_ok in Hdata. destruct Hdata as [Hdata ->].
  apply process_rows_fits in Hdata. destruct Hdata as [Hlen Hall].
  apply transform_frame_len in H. destruct H as [Hl He].
  split; [|split; assumption].
  rewrite Hl. cbn [DataFrame_of_dicts df_len]. rewrite Hlen. reflexivity.
Qed.

Lemma transform_frame_country df w df' w' :
  transform_frame df w = (Ok df', w') ->
  df_has df "country" = true ->
  exists cells,
    df_get df "country" = Ok (Object cells)
    /\ df_get df' "country" = Ok (Object (map clean_country cells)).
Proof.
  unfold transform_frame. intros H Hc.
  apply bind_ok in H. destruct H as (df1 & w1 & H1 & H).
  apply lift_ok in H1. destruct H1 as [H1 ->].
  pose proof (date_step_other _ H1 (k := "country")) as K1. clear H1.
  apply bind_ok in H. destruct H as (df2 & w2 & H2 & H).
  apply lift_ok in H2. destruct H2 as [H2 ->].
  apply bind_ok in H. destruct H as (df3 & w3 & H3 & H).
  apply lift_ok in H3. destruct H3 as [H3 ->].
  apply bind_ok in H. destruct H as (t & w4 & _ & H).
  unfold bind, log, ret in H. injection H as <- _.
  assert (K3 : df_get df3 "country" = df_get df2 "country").
  { destruct (df_has df2 "userEngagementDuration" && df_has df2 "sessions").
    - repeat (apply rbind_ok in H3; destruct H3 as (? & _ & H3)). injection H3 as <-.
      now rewrite !df_get_set_other by discriminate.
    - now injection H3 as <-. }
  rewrite df_get_set_other, K3 by discriminate. clear K3 H3.
  assert (Hc1 : df_has df1 "country" = df_has df "country")
    by (apply df_has_of_get_eq, K1; discriminate).
  rewrite Hc in Hc1.
  rewrite Hc1 in H2. rewrite K1 in H2 by discriminate.
  destruct (df_get df "country") as [s|e] eqn:Hs; [|discriminate]. cbn [rbind] in H2.
  destruct s as [xs|xs|cells|tz xs|xs|xs]; try discriminate.
  cbn [str_strip_title rbind] in H2. rewrite df_get_set_same in H2.
  cbn [rbind replace_dict] in H2. injection H2 as <-.
  exists cells. split; [reflexivity|]. rewrite df_get_set_same, map_map.
  do 2 f_equal. apply map_ext. intros [| |z|x|v|tz t0|d]; try reflexivity.
  cbn [clean_country country_aliases assoc].
  destruct (py_title (py_strip v) =? "Russian Federation")%string; [reflexivity|].
  destruct (py_title (py_strip v) =? "United States")%string; reflexivity.
Qed.

(** X15. Country cleaning: when the report has a [country] column, every
    cell of it in the table returned is the title-cased, stripped value, with
    'Russian Federation' replaced by 'Russia' and 'United States' by 'USA'
    (the aliases apply to the value after title-casing); no later step
    touches the column. A [country] column that is not a column of strings
    makes the transform fail. *)
Theorem ga_country_cleaned :
  forall response w df w',
    transform_data response w = (Ok df, w') ->
    exists data,
      process_rows (dimension_headers response) (metric_headers response)
        (rows response) [] = Ok data
      /\ let df0 := DataFrame_of_dicts data in
         (df_has df0 "country" = true ->
          exists cells,
            df_get df0 "country" = Ok (Object cells)
            /\ df_get df "country" = Ok (Object (map clean_country cells)))
         /\ (df_has df0 "country" = false -> df_has df "country" = false).
Proof.
  intros response w df w' H. unfold transform_data in H.
  apply reraising_ok in H. apply bind_ok in H. destruct H as (data & w1 & Hdata & H).
  apply lift_ok in Hdata. destruct Hdata as [Hdata ->].
  exists data. split; [exact Hdata|]. cbv zeta. split.
  - intros Hc. exact (@transform_frame_country _ _ _ _ H Hc).
  - intros Hc. unfold transform_frame in H.
    apply bind_ok in H. destruct H as (df1 & w2 & H1 & H).
    apply lift_ok in H1. destruct H1 as [H1 ->].
    pose proof (date_step_other _ H1 (k := "country")) as K1. clear H1.
    apply bind_ok in H. destruct H as (df2 & w3 & H2 & H).
    apply lift_ok in H2. destruct H2 as [H2 ->].
    assert (Hc1 : df_has df1 "country" = df_has (DataFrame_of_dicts data) "country")
      by (apply df_has_of_get_eq, K1; discriminate).
    rewrite Hc in Hc1.
    rewrite Hc1 in H2. injection H2 as <-.
    apply bind_ok in H. destruct H as (df3 & w4 & H3 & H).
    apply lift_ok in H3. destruct H3 as [H3 ->].
    apply bind_ok in H. destruct H as (t & w5 & _ & H).
    unfold bind, log, ret in H. injection H as <- _.
    rewrite df_has_set_other by discriminate.
    destruct (df_has df1 "userEngagementDuration" && df_has df1 "sessions").
    + repeat (apply rbind_ok in H3; destruct H3 as (? & _ & H3)). injection H3 as <-.
      now rewrite !df_has_set_other by discriminate.
    + now injection H3 as <-.
Qed.


Lemma add_metrics_parses names : forall values i row_data row_data',
  add_metrics names i values row_data = Ok row_data' ->
  forall j value,
    nth_error values j = Some value ->
    exists name v,
      nth_error names (i + j) = Some name /\ convert_metric name value = Ok v.
Proof.
  induction values as [|v0 values IH]; intros i row_data row_data' H j value Hj.
  - destruct j; discriminate.
  - cbn [add_metrics] in H.
    destruct (nth_error names i) as [name|] eqn:E; [|discriminate].
    apply rbind_ok in H. destruct H as (x & Hx & H).
    destruct j as [|j]; cbn in Hj.
    + injection Hj as <-. exists name, x. rewrite Nat.add_0_r. auto.
    + destruct (IH _ _ _ H j value Hj) as (n & y & Hn & Hy).
      exists n, y. split; [|exact Hy]. now rewrite Nat.add_succ_r.
Qed.

Lemma process_rows_parses dimension_names metric_names : forall rs data data',
  process_rows dimension_names metric_names rs data = Ok data' ->
  forall row j value,
    In row rs ->
    nth_error (metric_values row) j = Some value ->
    exists name v,
      nth_error metric_names j = Some name /\ convert_metric name value = Ok v.
Proof.
  induction rs as [|row0 rs IH]; intros data data' H row j value Hin Hj; [destruct Hin|].
  cbn [process_rows] in H.
  apply rbind_ok in H. destruct H as (d1 & Hd & H).
  apply rbind_ok in H. destruct H as (d2 & Hm & H).
  destruct Hin as [->|Hin].
  - exact (@add_metrics_parses _ _ _ _ _ Hm j value Hj).
  - exact (IH _ _ H row j value Hin Hj).
Qed.

(** X20. [transform_data] returns a table only if every count and duration
    of the report parses: a [sessions], [totalUsers] or [screenPageViews]
    value is the string '0' or one [int] accepts, and a
    [userEngagementDuration] value is the string '0.0' or one [float]
    accepts. One value that does not parse fails the whole transform. *)
Theorem ga_transform_needs_parsable_metrics :
  forall response w df w',
    transform_data response w = (Ok df, w') ->
    forall row j name value,
      In row (rows response) ->
      nth_error (metric_headers response) j = Some name ->
      nth_error (metric_values row) j = Some value ->
      (In name ["sessions"; "totalUsers"; "screenPageViews"] ->
       value = "0" \/ exists z, py_int value = Some z)
      /\ (name = "userEngagementDuration" ->
          value = "0.0" \/ exists x, py_float value = Some x).
Proof.
  intros response w df w' H row j name value Hin Hname Hvalue.
  unfold transform_data in H.
  apply reraising_ok in H. apply bind_ok in H. destruct H as (data & w1 & Hdata & _).
  apply lift_ok in Hdata. destruct Hdata as [Hdata _].
  destruct (@process_rows_parses _ _ _ _ _ Hdata row j value Hin Hvalue)
    as (name' & v & Hname' & Hv).
  rewrite Hname in Hname'. injection Hname' as <-.
  unfold convert_metric in Hv. split.
  - intros Hcount.
    assert (Hm : mem_str name ["sessions"; "totalUsers"; "screenPageViews"] = true).
    { unfold mem_str. apply existsb_exists. exists name. split; [exact Hcount|].
      apply String.eqb_refl. }
    rewrite Hm in Hv.
    destruct (String.eqb_spec value "0") as [->|_]; [now left|]. cbn [negb] in Hv.
    destruct (py_int value) as [z|]; [right; eauto|discriminate].
  - intros ->. cbn in Hv.
    destruct (String.eqb_spec value "0.0") as [->|_]; [now left|]. cbn [negb] in Hv.
    destruct (py_float value) as [x|]; [right; eauto|discriminate].
Qed.
End GaMore.

Lemma ga_transform_row_for_row_witness :
  let response := sample_report ["country"; "date"] ["sessions"; "userEngagementDuration"]
                    ["Ukraine"; "20240115"] ["5"; "12.5"] in
  exists df w',
    GA.transform_data (ext := sample_ext) response (sample_world []) = (Ok df, w')
    /\ df_len df = 1%nat
    /\ df_has df "extracted_at" = true.
Proof.
  intros response.
  set (out := GA.transform_data (ext := sample_ext) response (sample_world [])).
  assert (Hrun : out = (Ok (match fst out with Ok d => d | Raise _ => empty_frame end),
                        snd out)) by (vm_compute; reflexivity).
  exists (match fst out with Ok d => d | Raise _ => empty_frame end), (snd out).
  split; [exact Hrun|].
  destruct (@ga_transform_row_for_row sample_ext response (sample_world [])
              (match fst out with Ok d => d | Raise _ => empty_frame end) (snd out) Hrun)
    as (Hlen & Hat & _).
  split; [exact Hlen|exact Hat].
Defined.

Lemma ga_country_cleaned_witness :
  let response := sample_report ["country"] ["sessions"] ["United States"] ["5"] in
  exists df w',
    GA.transform_data (ext := sample_ext) response (sample_world []) = (Ok df, w')
    /\ df_get df "country" = Ok (Object [PyStr "USA"]).
Proof.
  intros response.
  set (out := GA.transform_data (ext := sample_ext) response (sample_world [])).
  assert (Hrun : out = (Ok (match fst out with Ok d => d | Raise _ => empty_frame end),
                        snd out)) by (vm_compute; reflexivity).
  exists (match fst out with Ok d => d | Raise _ => empty_frame end), (snd out).
  split; [exact Hrun|].
  destruct (@ga_country_cleaned sample_ext response (sample_world [])
              (match fst out with Ok d => d | Raise _ => empty_frame end) (snd out) Hrun)
    as (data & Hdata & Hsome & _).
  assert (Hd : data = [[("country", PyStr "United States"); ("sessions", PyInt 5)]]).
  { vm_compute in Hdata. injection Hdata as <-. reflexivity. }
  subst data.
  destruct (Hsome eq_refl) as (cells & Hcells & Hclean).
  vm_compute in Hcells. injection Hcells as <-.
  rewrite Hclean. reflexivity.
Defined.


Lemma ga_transform_needs_parsable_metrics_witness :
  let row := {| GA.dimension_values := ["Ukraine"]; GA.metric_values := ["12"] |} in
  let response := {| GA.dimension_headers := ["country"]; GA.metric_headers := ["sessions"];
                     GA.rows := [row] |} in
  exists df w',
    GA.transform_data (ext := sample_ext) response (sample_world []) = (Ok df, w')
    /\ In row (GA.rows response)
    /\ nth_error (GA.metric_headers response) 0 = Some "sessions"
    /\ nth_error (GA.metric_values row) 0 = Some "12"
    /\ ("12" = "0" \/ exists z, py_int (Externals := sample_ext) "12" = Some z).
Proof.
  intros row response.
  set (out := GA.transform_data (ext := sample_ext) response (sample_world [])).
  assert (Hrun : out = (Ok (match fst out with Ok d => d | Raise _ => empty_frame end),
                        snd out)) by (vm_compute; reflexivity).
  exists (match fst out with Ok d => d | Raise _ => empty_frame end), (snd out).
  split; [exact Hrun|].
  assert (Hin : In row (GA.rows response)) by (left; reflexivity).
  split; [exact Hin|]. split; [reflexivity|]. split; [reflexivity|].
  destruct (@ga_transform_needs_parsable_metrics sample_ext response (sample_world [])
              (match fst out with Ok d => d | Raise _ => empty_frame end) (snd out) Hrun
              row 0%nat "sessions" "12" Hin eq_refl eq_refl) as [Hcount _].
  apply Hcount. left. reflexivity.
Defined.
